(** * Example callbacks of the GAN and autoencoder experiments

    A shallow embedding of the callbacks defined in
    - [examples/mnist_gans/callbacks.py],
    - [examples/mnist_advanced_gans/callbacks.py],
    - [examples/autoencoders/custom_callbacks.py],
    together with the properties stated about them.

    The callbacks are hooks of a host training framework: they read and
    mutate a runner state (dictionaries of tensors, metrics, loggers,
    optimizers) and their own attributes, and they may raise.  Methods are
    therefore embedded in a state-and-exception monad in which, as in
    Python, the mutations done before an exception is raised persist.

    Numbers: the entries of the tensors of a batch and Python floats are
    exact rationals ([Q]), their arithmetic is exact.  Where the code
    depends on it the floating-point side is modelled: the mean of a tensor
    and the metrics may be NaN, the entries of the parameters of a model
    may be NaN, and the bounds of a clamp are converted to the type of the
    parameter.  Infinities are outside the model.  Python integers are
    [Z]; sizes of tensors are [nat]. *)

From Stdlib Require Import ZArith QArith Qminmax Qround List Bool Ascii String Lia Lqa.
From stdpp Require Import base option list strings gmap.

Set Default Proof Using "Type".

(** ** Exceptions and the method monad *)

Inductive exn : Type :=
| AssertionError
| ValueError (msg : string)
| NotImplementedError
| RuntimeError (msg : string)
| KeyError (key : string)
| AttributeError (attr : string)
| IndexError
| TypeError
| ZeroDivisionError.

Inductive result (A : Type) : Type :=
| Ok (a : A)
| Raise (e : exn).
Arguments Ok {A} a.
Arguments Raise {A} e.

Definition is_ok {A} (r : result A) : bool :=
  match r with Ok _ => true | Raise _ => false end.

Definition result_bind {A B} (r : result A) (k : A → result B) : result B :=
  match r with Ok a => k a | Raise e => Raise e end.

(** A method running on a mutable store [S]: it yields a value or raises,
    and in both cases leaves a store behind. *)
Definition M (S A : Type) : Type := S → result A * S.

Definition ret {S A} (a : A) : M S A := λ s, (Ok a, s).
Definition raise {S A} (e : exn) : M S A := λ s, (Raise e, s).
Definition bind {S A B} (m : M S A) (k : A → M S B) : M S B :=
  λ s, match m s with
       | (Ok a, s') => k a s'
       | (Raise e, s') => (Raise e, s')
       end.
Definition get {S} : M S S := λ s, (Ok s, s).
Definition gets {S A} (f : S → A) : M S A := λ s, (Ok (f s), s).
Definition modify {S} (f : S → S) : M S unit := λ s, (Ok tt, f s).
(** A pure computation that may raise, run inside a method. *)
Definition lift {S A} (r : result A) : M S A := λ s, (r, s).
(** [assert c] *)
Definition assert {S} (c : bool) : M S unit :=
  if c then ret tt else raise AssertionError.

Declare Scope method_scope.
Delimit Scope method_scope with method.
Notation "x ⇐ m ;; k" := (bind m (λ x, k))
  (at level 100, m at next level, right associativity) : method_scope.
Notation "m ;;; k" := (bind m (λ _, k))
  (at level 100, right associativity) : method_scope.
Notation "x ⇐ r ? k" := (result_bind r (λ x, k))
  (at level 100, r at next level, right associativity) : method_scope.

(** [for x in xs: body x] *)
Fixpoint for_each {S A} (xs : list A) (body : A → M S unit) : M S unit :=
  match xs with
  | [] => ret tt
  | x :: xs' => bind (body x) (λ _, for_each xs' body)
  end.

(** ** Python values passed to constructors *)

#[warnings="-register-all"]
Inductive pyval : Type :=
| PyNone
| PyBool (b : bool)
| PyInt (z : Z)
| PyFloat (q : Q)
| PyStr (s : string)
| PyTuple (items : list pyval)
| PyList (items : list pyval).

(** [isinstance(v, str)] *)
Definition is_str (v : pyval) : bool :=
  match v with PyStr _ => true | _ => false end.

Definition str_of (v : pyval) : option string :=
  match v with PyStr s => Some s | _ => None end.

(** [str.lower()], on the ASCII letters. *)
Definition lower_ascii (c : Ascii.ascii) : Ascii.ascii :=
  let n := Ascii.nat_of_ascii c in
  if (65 <=? n)%nat && (n <=? 90)%nat then Ascii.ascii_of_nat (n + 32) else c.

Fixpoint lower (s : string) : string :=
  match s with
  | EmptyString => EmptyString
  | String c s' => String (lower_ascii c) (lower s')
  end.

(** Python's [a % b] on integers: the sign follows the divisor, and a zero
    divisor raises. *)
Definition py_mod (a b : Z) : result Z :=
  if (b =? 0)%Z then Raise ZeroDivisionError else Ok (a mod b)%Z.

(** ** Tensors of the host tensor library *)

Inductive dtype : Type := Float | Long.

Global Instance dtype_eq_dec : EqDecision dtype.
Proof. solve_decision. Defined.

(** A tensor is its element type, its shape and its entries in row-major
    order.  Entries of a [Long] tensor are integers injected in [Q]. *)
Record tensor : Type := Tensor {
  t_dtype : dtype;
  shape : list nat;
  data : list Q
}.

Definition numel_of (sh : list nat) : nat := foldr Nat.mul 1 sh.

Definition tensor_wf (t : tensor) : Prop :=
  length (data t) = numel_of (shape t).

(** [t.ndim] *)
Definition ndim (t : tensor) : nat := length (shape t).

(** [t.size(0)] *)
Definition size0 (t : tensor) : result nat :=
  match shape t with
  | [] => Raise IndexError
  | n :: _ => Ok n
  end.

(** Bounds of a Python slice [start:stop] over [n] items. *)
Definition slice_index (n : nat) (v : Z) : Z :=
  if (v <? 0)%Z then Z.max (v + Z.of_nat n) 0 else Z.min v (Z.of_nat n).

Definition slice_bounds (n : nat) (start stop : option Z) : nat * nat :=
  let lo := slice_index n (default 0%Z start) in
  let hi := slice_index n (default (Z.of_nat n) stop) in
  (Z.to_nat lo, Z.to_nat (Z.max 0 (hi - lo))).

(** [t[start:stop]]: a slice along dimension 0. *)
Definition slice0 (t : tensor) (start stop : option Z) : result tensor :=
  match shape t with
  | [] => Raise IndexError
  | n :: rest =>
      let '(lo, len) := slice_bounds n start stop in
      let inner := numel_of rest in
      Ok (Tensor (t_dtype t) (len :: rest)
            (take (len * inner) (drop (lo * inner) (data t))))
  end.

(** [torch.equal(a, b)]: same shape and same entries. *)
Definition Qeq_list (xs ys : list Q) : bool :=
  (length xs =? length ys)%nat && forallb (λ p, Qeq_bool p.1 p.2) (zip xs ys).

Definition torch_equal (a b : tensor) : bool :=
  bool_decide (shape a = shape b) && Qeq_list (data a) (data b).

(** [torch.zeros(shape)] *)
Definition torch_zeros (sh : list nat) : tensor :=
  Tensor Float sh (replicate (numel_of sh) 0%Q).

(** [torch.arange(n)] *)
Definition torch_arange (n : nat) : tensor :=
  Tensor Long [n] (map (λ i, inject_Z (Z.of_nat i)) (seq 0 n)).

(** [torch.randn(shape)]: the entries are the next draws of the generator,
    given as a stream. *)
Definition torch_randn (sh : list nat) (draws : nat → Q) : tensor :=
  Tensor Float sh (map draws (seq 0 (numel_of sh))).

(** A floating-point value looked at on its own - the value of a 0-dim
    tensor, an entry of a parameter: a number, or NaN. *)
Inductive scalar : Type := Num (q : Q) | NaN.

(** [a - b] on such values: NaN as soon as one of them is. *)
Definition scalar_sub (a b : scalar) : scalar :=
  match a, b with
  | Num x, Num y => Num (x - y)
  | _, _ => NaN
  end.

Definition Qsum (xs : list Q) : Q := foldr Qplus 0%Q xs.

(** [t.mean()], a 0-dim tensor identified with its value: the mean is
    defined for floating-point tensors only, an integer tensor raises; the
    mean of a tensor without entries is NaN. *)
Definition mean (t : tensor) : result scalar :=
  match t_dtype t with
  | Long =>
      Raise (RuntimeError "Can only calculate the mean of floating types. Got Long instead.")
  | Float =>
      match data t with
      | [] => Ok NaN
      | _ => Ok (Num (Qsum (data t) / inject_Z (Z.of_nat (length (data t)))))
      end
  end.

(** Entrywise application, as for [x / 2 + .5] on a tensor. *)
Definition tensor_map (f : Q → Q) (t : tensor) : tensor :=
  Tensor Float (shape t) (map f (data t)).

(** The floating-point types of the parameters of a model, and
    [param.data]: a floating-point tensor whose entries may be NaN. *)
Inductive precision : Type := Half | Single | Double.

Record parameter : Type := Param {
  p_precision : precision;
  p_shape : list nat;
  p_data : list scalar
}.

(** [p.clamp_(min=lo, max=hi)]. The bounds are Python numbers and are
    converted to the type of the parameter ([to_dtype]: the value of the
    type that stands for the number there, the nearest one). Every entry
    [x] becomes [min(max(x, lo), hi)] for the converted bounds, and an
    entry that is NaN stays NaN. *)
Definition clamp_scalar (lo hi x : Q) : Q := Qmin (Qmax x lo) hi.

Definition clamp_entry (lo hi : Q) (x : scalar) : scalar :=
  match x with
  | Num q => Num (clamp_scalar lo hi q)
  | NaN => NaN
  end.

Definition clamp_ (to_dtype : precision → Q → Q) (lo hi : Q) (p : parameter)
    : parameter :=
  Param (p_precision p) (p_shape p)
    (map (clamp_entry (to_dtype (p_precision p) lo) (to_dtype (p_precision p) hi))
         (p_data p)).

(** [torch.cat(ts, dim)]: operands of one dimension without entries (of
    shape [(0,)]) are skipped; the others agree on every dimension but
    [dim]; in row-major order the result interleaves, for every index of the
    outer dimensions, the corresponding blocks of the operands. When every
    operand is skipped the result is such an empty tensor. *)
Definition chunk (sz o : nat) (xs : list Q) : list Q :=
  take sz (drop (o * sz) xs).

Definition cat_compatible (dim : nat) (sh0 sh : list nat) : bool :=
  (length sh =? length sh0)%nat
  && bool_decide (take dim sh = take dim sh0)
  && bool_decide (drop (S dim) sh = drop (S dim) sh0).

Definition extent (dim : nat) (t : tensor) : nat := default 0 (shape t !! dim).

Definition cat_dtype (ts : list tensor) : dtype :=
  if forallb (λ t, bool_decide (t_dtype t = Long)) ts then Long else Float.

Definition skipped (t : tensor) : bool := bool_decide (shape t = [0]).

Definition cat_operands (dtype_of_result : dtype) (ts : list tensor) (dim : nat)
    : result tensor :=
  match ts with
  | [] => Ok (Tensor dtype_of_result [0] [])
  | t0 :: _ =>
      if negb (dim <? ndim t0)%nat then Raise IndexError
      else if negb (forallb (λ t, cat_compatible dim (shape t0) (shape t)) ts)
      then Raise (RuntimeError "Sizes of tensors must match")
      else
        let outer := numel_of (take dim (shape t0)) in
        let inner := numel_of (drop (S dim) (shape t0)) in
        let total := foldr Nat.add 0 (map (extent dim) ts) in
        Ok (Tensor dtype_of_result
              (take dim (shape t0) ++ total :: drop (S dim) (shape t0))
              (concat (map (λ o,
                 concat (map (λ t, chunk (extent dim t * inner) o (data t)) ts))
                 (seq 0 outer))))
  end.

Definition cat (ts : list tensor) (dim : nat) : result tensor :=
  match ts with
  | [] => Raise (RuntimeError "expected a non-empty list of Tensors")
  | _ => cat_operands (cat_dtype ts) (List.filter (λ t, negb (skipped t)) ts) dim
  end.

(** Indexed assignment [t[rows, cols] = v] on a 2-dim tensor, with two
    index tensors of at most one dimension. An index is counted from the
    end when negative and must fall inside its dimension. *)
Definition wrap_index (n : nat) (i : Z) : result nat :=
  let i' := if (i <? 0)%Z then (i + Z.of_nat n)%Z else i in
  if (0 <=? i')%Z && (i' <? Z.of_nat n)%Z then Ok (Z.to_nat i')
  else Raise IndexError.

Definition broadcast_indices (a b : list Z) : result (list (Z * Z)) :=
  if (length a =? length b)%nat then Ok (zip a b)
  else match a, b with
       | [i], _ => Ok (map (λ j, (i, j)) b)
       | _, [j] => Ok (map (λ i, (i, j)) a)
       | _, _ => Raise IndexError
       end.

Fixpoint put_all (n_rows n_cols : nat) (ps : list (Z * Z)) (v : Q)
    (xs : list Q) : result (list Q) :=
  match ps with
  | [] => Ok xs
  | (i, j) :: ps' =>
      match wrap_index n_rows i, wrap_index n_cols j with
      | Ok i', Ok j' => put_all n_rows n_cols ps' v (<[i' * n_cols + j' := v]> xs)
      | Raise e, _ | _, Raise e => Raise e
      end
  end.

Definition index_put_2d (t rows cols : tensor) (v : Q) : result tensor :=
  match shape t with
  | [n_rows; n_cols] =>
      if negb (bool_decide (t_dtype rows = Long) && bool_decide (t_dtype cols = Long))
      then Raise IndexError
      else
        match broadcast_indices (map Qfloor (data rows)) (map Qfloor (data cols)) with
        | Raise e => Raise e
        | Ok ps =>
            match put_all n_rows n_cols ps v (data t) with
            | Raise e => Raise e
            | Ok xs => Ok (Tensor (t_dtype t) (shape t) xs)
            end
        end
  | _ => Raise IndexError
  end.

(** ** The runner state of the host framework

    The callbacks work on objects of the training framework - the runner
    state, its metrics, its loggers, the parent optimizer callback - whose
    code is not among the sources of the examples. They are modelled here by
    what the callbacks use of them. *)

(** Modelled from the spec: the TensorBoard writer ([SummaryWriter]) that
    the loggers of the state hold. It records the images it is given, and
    how often it was flushed. The grid built by
    [torchvision.utils.make_grid] is kept symbolically. *)
Inductive image : Type := make_grid (batch_images : tensor) (nrow : Z).

Record SummaryWriter : Type := {
  images : list (string * image * Z);
  flushes : nat
}.

Definition add_image (key : string) (img : image) (global_step : Z)
    (w : SummaryWriter) : SummaryWriter :=
  {| images := images w ++ [(key, img, global_step)]; flushes := flushes w |}.

Definition flush (w : SummaryWriter) : SummaryWriter :=
  {| images := images w; flushes := S (flushes w) |}.

(** Modelled from the spec: the logger callbacks of the framework. The
    TensorBoard logger holds, in its [loggers], one writer per loader. *)
Inductive Logger : Type :=
| TensorboardLogger (loggers : gmap string SummaryWriter)
| ConsoleLogger
| VerboseLogger.

(** Modelled from the spec: [state.loggers], a dictionary of loggers in the
    framework version of the GAN examples (which look up a key in it) and a
    sequence of loggers in the version of the autoencoder example (which
    iterates over it). *)
Inductive LoggerRegistry : Type :=
| LoggerDict (d : gmap string Logger)
| LoggerList (l : list Logger).

Record param_group : Type := {
  params : list parameter;
  options : gmap string Q
}.

Record Optimizer : Type := { param_groups : list param_group }.

(** Modelled from the spec: [state.optimizer], one optimizer or a
    dictionary of optimizers. *)
Inductive OptimizerSlot : Type :=
| OneOptimizer (o : Optimizer)
| OptimizerDict (d : gmap string Optimizer).

(** Modelled from the spec: the [RunnerState] of the framework, the shared
    mutable state the callbacks receive, restricted to the attributes they
    use. *)
Record RunnerState : Type := {
  input : gmap string tensor;
  output : gmap string tensor;
  metrics : gmap string scalar;
  loggers : LoggerRegistry;
  loader_name : string;
  step : Z;
  need_backward : bool;
  optimizer : OptimizerSlot
}.

Definition set_input (f : gmap string tensor → gmap string tensor)
    (st : RunnerState) : RunnerState :=
  {| input := f (input st); output := output st; metrics := metrics st;
     loggers := loggers st; loader_name := loader_name st; step := step st;
     need_backward := need_backward st; optimizer := optimizer st |}.

Definition set_metrics (f : gmap string scalar → gmap string scalar)
    (st : RunnerState) : RunnerState :=
  {| input := input st; output := output st; metrics := f (metrics st);
     loggers := loggers st; loader_name := loader_name st; step := step st;
     need_backward := need_backward st; optimizer := optimizer st |}.

Definition set_loggers (r : LoggerRegistry) (st : RunnerState) : RunnerState :=
  {| input := input st; output := output st; metrics := metrics st;
     loggers := r; loader_name := loader_name st; step := step st;
     need_backward := need_backward st; optimizer := optimizer st |}.

Definition set_optimizer (o : OptimizerSlot) (st : RunnerState) : RunnerState :=
  {| input := input st; output := output st; metrics := metrics st;
     loggers := loggers st; loader_name := loader_name st; step := step st;
     need_backward := need_backward st; optimizer := o |}.

(** [d[key]] on a dictionary. *)
Definition dict_get {V} (d : gmap string V) (key : string) : result V :=
  match d !! key with
  | Some v => Ok v
  | None => Raise (KeyError key)
  end.

(** [key in d] *)
Definition dict_mem {V} (d : gmap string V) (key : string) : bool :=
  bool_decide (is_Some (d !! key)).

(** Modelled from the spec: [state.metrics.add_batch_value(name=...,
    value=...)] of the framework, which records the value of a metric of
    the current batch under its name. *)
Definition add_batch_value (name : string) (value : scalar) : M RunnerState unit :=
  modify (set_metrics (λ m, <[name := value]> m)).

(** Modelled from the spec: [state.get_key(key="optimizer",
    inner_key=...)] of the framework: the attribute itself without an inner
    key, its item under the inner key otherwise. *)
Definition get_optimizer (inner_key : option string) (st : RunnerState)
    : result OptimizerSlot :=
  match inner_key with
  | None => Ok (optimizer st)
  | Some k =>
      match optimizer st with
      | OneOptimizer _ => Raise TypeError
      | OptimizerDict d =>
          match d !! k with
          | Some o => Ok (OneOptimizer o)
          | None => Raise (KeyError k)
          end
      end
  end.

Local Open Scope method_scope.

(** ** Callbacks that prepare the batch input
    ([examples/mnist_advanced_gans/callbacks.py]) *)

(** [PrepareBatchInputCallback.get_batch_size] *)
Definition get_batch_size (data_key : string) : M RunnerState nat :=
  st ⇐ get ;;
  assert (dict_mem (input st) data_key) ;;;
  t ⇐ lift (dict_get (input st) data_key) ;;
  lift (size0 t).

(** [state.input[key] = value] *)
Definition input_store (key : string) (value : tensor) : M RunnerState unit :=
  modify (set_input (λ d, <[key := value]> d)).

Module AddBatchNoiseCallback.

(** The [noise_shape] argument: [Union[int, Tuple[int]]]; lists are
    accepted as well. *)
Inductive shape_arg : Type :=
| ShapeInt (n : nat)
| ShapeTuple (ns : list nat)
| ShapeList (ns : list nat).

Record self : Type := {
  data_key : string;
  noise_shape : list nat;
  injected_noise_key : string
}.

Definition __init__ (noise_shape : shape_arg) (data_key : string)
    (injected_noise_key : string) : self :=
  {| data_key := data_key;
     noise_shape := match noise_shape with
                    | ShapeTuple ns | ShapeList ns => ns
                    | ShapeInt n => [n]
                    end;
     injected_noise_key := injected_noise_key |}.

Definition on_batch_start (cb : self) (draws : nat → Q) : M RunnerState unit :=
  batch_size ⇐ get_batch_size (data_key cb) ;;
  st ⇐ get ;;
  assert (negb (dict_mem (input st) (injected_noise_key cb))) ;;;
  let z_shape := [batch_size] ++ noise_shape cb in
  input_store (injected_noise_key cb) (torch_randn z_shape draws).

End AddBatchNoiseCallback.

Module OneHotTransformCallback.

Record self : Type := {
  n_classes : nat;
  data_key : string;
  target_key : string;
  one_hot_target_key : string
}.

Definition __init__ (n_classes : nat) (data_key target_key one_hot_target_key : string)
    : self :=
  {| n_classes := n_classes; data_key := data_key; target_key := target_key;
     one_hot_target_key := one_hot_target_key |}.

Definition on_batch_start (cb : self) : M RunnerState unit :=
  batch_size ⇐ get_batch_size (data_key cb) ;;
  st ⇐ get ;;
  assert (dict_mem (input st) (target_key cb)) ;;;
  assert (negb (dict_mem (input st) (one_hot_target_key cb))) ;;;
  targets ⇐ lift (dict_get (input st) (target_key cb)) ;;
  if (1 <? ndim targets)%nat then raise NotImplementedError
  else
    let targets_one_hot := torch_zeros [batch_size; n_classes cb] in
    targets_one_hot ⇐ lift (index_put_2d targets_one_hot
                              (torch_arange batch_size) targets 1%Q) ;;
    input_store (one_hot_target_key cb) targets_one_hot.

End OneHotTransformCallback.

Module SameClassFeaturesRepeatCallback.

Record self : Type := {
  data_key : string;
  same_class_data_key : string;
  targets_key : option string
}.

Definition __init__ (data_key same_class_data_key : string)
    (targets_key : option string) : self :=
  {| data_key := data_key; same_class_data_key := same_class_data_key;
     targets_key := targets_key |}.

Definition half (batch_size : nat) : Z := Z.of_nat (batch_size / 2).

(** The sanity check on the targets. *)
Definition check_targets (key : string) (batch_size : nat) : M RunnerState unit :=
  st ⇐ get ;;
  assert (dict_mem (input st) key) ;;;
  target ⇐ lift (dict_get (input st) key) ;;
  n ⇐ lift (size0 target) ;;
  assert (n =? batch_size)%nat ;;;
  assert (batch_size mod 2 =? 0)%nat ;;;
  first ⇐ lift (slice0 target None (Some (half batch_size))) ;;
  second ⇐ lift (slice0 target (Some (half batch_size)) None) ;;
  assert (torch_equal first second).

Definition on_batch_start (cb : self) : M RunnerState unit :=
  batch_size ⇐ get_batch_size (data_key cb) ;;
  match targets_key cb with
  | Some key => check_targets key batch_size
  | None => ret tt
  end ;;;
  st ⇐ get ;;
  data ⇐ lift (dict_get (input st) (data_key cb)) ;;
  assert (negb (dict_mem (input st) (same_class_data_key cb))) ;;;
  first ⇐ lift (slice0 data None (Some (half batch_size))) ;;
  second ⇐ lift (slice0 data (Some (half batch_size)) None) ;;
  same_class_data ⇐ lift (cat [first; second] 0) ;;
  input_store (same_class_data_key cb) same_class_data.

End SameClassFeaturesRepeatCallback.

(** ** Metric callbacks ([examples/mnist_gans/callbacks.py] and
    [examples/mnist_advanced_gans/callbacks.py], which agree) *)

(** The [input_key] / [output_key] arguments: [None], one key or a list of
    keys. *)
Inductive key_spec : Type :=
| NoKey
| OneKey (key : string)
| KeyList (keys : list string).

(** What [_get] hands to the metric: the whole dictionary, a dictionary
    restricted to some keys, or one tensor. *)
Inductive selection : Type :=
| SelDict (d : gmap string tensor)
| SelTensor (t : tensor).

(** [{key: dictionary[key] for key in keys}] *)
Fixpoint dict_restrict (dictionary : gmap string tensor) (keys : list string)
    (acc : gmap string tensor) : result (gmap string tensor) :=
  match keys with
  | [] => Ok acc
  | key :: keys' =>
      match dictionary !! key with
      | Some v => dict_restrict dictionary keys' (<[key := v]> acc)
      | None => Raise (KeyError key)
      end
  end.

Module MultiKeyMetricCallback.

Record self : Type := {
  prefix : string;
  metric_fn : selection → selection → result scalar;
  input_key : key_spec;
  output_key : key_spec
}.

Definition _get (dictionary : gmap string tensor) (keys : key_spec)
    : result selection :=
  match keys with
  | NoKey => Ok (SelDict dictionary)
  | KeyList keys => d ⇐ dict_restrict dictionary keys ∅ ? Ok (SelDict d)
  | OneKey key => t ⇐ dict_get dictionary key ? Ok (SelTensor t)
  end.

Definition on_batch_end (cb : self) : M RunnerState unit :=
  st ⇐ get ;;
  outputs ⇐ lift (_get (output st) (output_key cb)) ;;
  targets ⇐ lift (_get (input st) (input_key cb)) ;;
  metric ⇐ lift (metric_fn cb outputs targets) ;;
  add_batch_value (prefix cb) metric.

End MultiKeyMetricCallback.

Module WassersteinDistanceCallback.

(** [outputs[key]]: a tensor indexed by a string raises. *)
Definition item (outputs : selection) (key : string) : result tensor :=
  match outputs with
  | SelDict d => dict_get d key
  | SelTensor _ => Raise IndexError
  end.

Definition get_wasserstein_distance (real_validity_key fake_validity_key : string)
    (outputs targets : selection) : result scalar :=
  real_validity ⇐ item outputs real_validity_key ?
  fake_validity ⇐ item outputs fake_validity_key ?
  real_mean ⇐ mean real_validity ?
  fake_mean ⇐ mean fake_validity ?
  Ok (scalar_sub real_mean fake_mean).

Record self : Type := {
  base : MultiKeyMetricCallback.self;
  real_validity_key : string;
  fake_validity_key : string
}.

Definition __init__ (prefix real_validity_output_key fake_validity_output_key : string)
    : self :=
  {| base :=
       {| MultiKeyMetricCallback.prefix := prefix;
          MultiKeyMetricCallback.metric_fn :=
            get_wasserstein_distance real_validity_output_key
                                     fake_validity_output_key;
          MultiKeyMetricCallback.input_key := NoKey;
          MultiKeyMetricCallback.output_key :=
            KeyList [real_validity_output_key; fake_validity_output_key] |};
     real_validity_key := real_validity_output_key;
     fake_validity_key := fake_validity_output_key |}.

(** Inherited from [MultiKeyMetricCallback]. *)
Definition on_batch_end (cb : self) : M RunnerState unit :=
  MultiKeyMetricCallback.on_batch_end (base cb).

End WassersteinDistanceCallback.

(** ** Optimizer callback with weight clamping
    ([WeightClampingOptimizerCallback] of [examples/mnist_gans/callbacks.py];
    [LipzOptimizerCallback] of [examples/mnist_advanced_gans/callbacks.py]
    has the same body) *)

(** The optimizer object is shared with the state: after an in-place update
    it is found again where [state.get_key] found it. *)
Definition put_optimizer (inner_key : option string) (o : Optimizer)
    (st : RunnerState) : RunnerState :=
  match inner_key, optimizer st with
  | Some k, OptimizerDict d => set_optimizer (OptimizerDict (<[k := o]> d)) st
  | _, _ => set_optimizer (OneOptimizer o) st
  end.

Module WeightClampingOptimizerCallback.

Record self : Type := {
  accumulation_steps : Z;
  optimizer_key : option string;
  loss_key : string;
  decouple_weight_decay : bool;
  _accumulation_counter : Z;
  weight_clamp_value : Q
}.

(** [for group in optimizer.param_groups: for param in group["params"]:
    param.data.clamp_(min=-value, max=value)] *)
Definition clamp_group (to_dtype : precision → Q → Q) (value : Q)
    (group : param_group) : param_group :=
  {| params := map (clamp_ to_dtype (- value) value) (params group);
     options := options group |}.

Definition clamp_optimizer (to_dtype : precision → Q → Q) (value : Q)
    (o : Optimizer) : Optimizer :=
  {| param_groups := map (clamp_group to_dtype value) (param_groups o) |}.

(** The constructor hands its arguments to [OptimizerCallback.__init__],
    which starts the accumulation counter at 0, and keeps the clamp value. *)
Definition __init__ (accumulation_steps : Z) (optimizer_key : option string)
    (loss_key : string) (decouple_weight_decay : bool) (weight_clamp_value : Q)
    : self :=
  {| accumulation_steps := accumulation_steps;
     optimizer_key := optimizer_key;
     loss_key := loss_key;
     decouple_weight_decay := decouple_weight_decay;
     _accumulation_counter := 0;
     weight_clamp_value := weight_clamp_value |}.

Section on_batch_end.

(** The conversion of a Python number to a floating-point type of the
    tensor library. *)
Variable to_dtype : precision → Q → Q.

(** [OptimizerCallback.on_batch_end] of the host framework: the backward
    pass and the optimizer step; it updates the accumulation counter. *)
Variable super_on_batch_end : M (self * RunnerState) unit.

Definition on_batch_end : M (self * RunnerState) unit :=
  super_on_batch_end ;;;
  s ⇐ get ;;
  let '(cb, state) := s in
  if negb (need_backward state) then ret tt
  else
    optimizer ⇐ lift (get_optimizer (optimizer_key cb) state) ;;
    r ⇐ lift (py_mod (_accumulation_counter cb) (accumulation_steps cb)) ;;
    let need_gradient_step := (r =? 0)%Z in
    if need_gradient_step then
      match optimizer with
      | OptimizerDict _ => raise (AttributeError "param_groups")
      | OneOptimizer o =>
          modify (λ s, (s.1, put_optimizer (optimizer_key cb)
                               (clamp_optimizer to_dtype (weight_clamp_value cb) o)
                               s.2))
      end
    else ret tt.

End on_batch_end.

End WeightClampingOptimizerCallback.

Module LipzOptimizerCallback := WeightClampingOptimizerCallback.

(** ** Python's [int(...)] *)

Definition is_space (c : Ascii.ascii) : bool :=
  let n := Ascii.nat_of_ascii c in
  (n =? 32)%nat || ((9 <=? n)%nat && (n <=? 13)%nat).

Fixpoint strip_left (cs : list Ascii.ascii) : list Ascii.ascii :=
  match cs with
  | c :: cs' => if is_space c then strip_left cs' else cs
  | [] => []
  end.

Definition strip (cs : list Ascii.ascii) : list Ascii.ascii :=
  rev (strip_left (rev (strip_left cs))).

Definition digit_of (c : Ascii.ascii) : option Z :=
  let n := Ascii.nat_of_ascii c in
  if (48 <=? n)%nat && (n <=? 57)%nat then Some (Z.of_nat (n - 48)) else None.

(** Decimal digits, single underscores allowed between two digits. *)
Fixpoint parse_digits (cs : list Ascii.ascii) (acc : Z) (after_digit : bool)
    : option Z :=
  match cs with
  | [] => if after_digit then Some acc else None
  | c :: cs' =>
      match digit_of c with
      | Some d => parse_digits cs' (10 * acc + d)%Z true
      | None =>
          if bool_decide (c = "_"%char) && after_digit
          then parse_digits cs' acc false
          else None
      end
  end.

Definition int_of_str (s : string) : option Z :=
  match strip (list_ascii_of_string s) with
  | "-"%char :: cs => Z.opp <$> parse_digits cs 0%Z false
  | "+"%char :: cs => parse_digits cs 0%Z false
  | cs => parse_digits cs 0%Z false
  end.

Definition py_int (v : pyval) : result Z :=
  match v with
  | PyInt z => Ok z
  | PyBool b => Ok (if b then 1 else 0)%Z
  | PyFloat q => Ok (Z.quot (Qnum q) (Z.pos (Qden q)))
  | PyStr s =>
      match int_of_str s with
      | Some z => Ok z
      | None => Raise (ValueError "invalid literal for int() with base 10")
      end
  | PyNone | PyTuple _ | PyList _ => Raise TypeError
  end.

(** ** Python dictionaries in insertion order *)

Fixpoint dict_set {V} (key : string) (v : V) (d : list (string * V))
    : list (string * V) :=
  match d with
  | [] => [(key, v)]
  | (k, w) :: d' =>
      if bool_decide (k = key) then (k, v) :: d' else (k, w) :: dict_set key v d'
  end.

(** [dict(pairs)] *)
Definition py_dict {V} (pairs : list (string * V)) : list (string * V) :=
  foldl (λ d p, dict_set p.1 p.2 d) [] pairs.

(** [[d[key] for key in keys]] *)
Fixpoint dict_get_all (d : gmap string tensor) (keys : list string)
    : result (list tensor) :=
  match keys with
  | [] => Ok []
  | key :: keys' =>
      t ⇐ dict_get d key ?
      ts ⇐ dict_get_all d keys' ?
      Ok (t :: ts)
  end.

(** ** The visualization callback *)

(** The three copies of [VisualizationCallback]; the one of
    [mnist_advanced_gans] is the one of [mnist_gans] line for line. *)
Inductive example : Type := mnist_gans | mnist_advanced_gans | autoencoders.

Global Instance example_eq_dec : EqDecision example.
Proof. solve_decision. Defined.

Global Instance pyval_eq_str_dec (v : pyval) (s : string) : Decision (v = PyStr s).
Proof.
  destruct v; try (right; discriminate).
  destruct (decide (s0 = s)) as [->|Hne]; [left; reflexivity|right; congruence].
Defined.

(** A reference to a writer held by the loggers of the state. *)
Inductive writer_ref : Type :=
| WriterInDict (key loader : string)
| WriterInList (index : nat) (loader : string).

Definition update_writer (f : SummaryWriter → SummaryWriter) (lg : Logger) (loader : string)
    : Logger :=
  match lg with
  | TensorboardLogger ws => TensorboardLogger (alter f loader ws)
  | _ => lg
  end.

Definition writer_update (r : writer_ref) (f : SummaryWriter → SummaryWriter)
    (st : RunnerState) : RunnerState :=
  match r, loggers st with
  | WriterInDict key loader, LoggerDict d =>
      set_loggers (LoggerDict (alter (λ lg, update_writer f lg loader) key d)) st
  | WriterInList i loader, LoggerList l =>
      set_loggers (LoggerList (alter (λ lg, update_writer f lg loader) i l)) st
  | _, _ => st
  end.

Definition writer_read (r : writer_ref) (st : RunnerState) : option SummaryWriter :=
  match r, loggers st with
  | WriterInDict key loader, LoggerDict d =>
      match d !! key with
      | Some (TensorboardLogger ws) => ws !! loader
      | _ => None
      end
  | WriterInList i loader, LoggerList l =>
      match l !! i with
      | Some (TensorboardLogger ws) => ws !! loader
      | _ => None
      end
  | _, _ => None
  end.

Module VisualizationCallback.

Definition TENSORBOARD_LOGGER_KEY : string := "tensorboard".

Record self : Type := {
  input_keys : list string;
  output_keys : list string;
  batch_frequency : Z;
  concat_images : bool;
  max_images : Z;
  denorm : tensor → tensor;
  _n_row : Z;
  _loader_batch_count : Z;
  _loader_visualized_in_current_epoch : bool
}.

Definition set_count (n : Z) (cb : self) : self :=
  {| input_keys := input_keys cb; output_keys := output_keys cb;
     batch_frequency := batch_frequency cb; concat_images := concat_images cb;
     max_images := max_images cb; denorm := denorm cb; _n_row := _n_row cb;
     _loader_batch_count := n;
     _loader_visualized_in_current_epoch := _loader_visualized_in_current_epoch cb |}.

Definition set_visualized (b : bool) (cb : self) : self :=
  {| input_keys := input_keys cb; output_keys := output_keys cb;
     batch_frequency := batch_frequency cb; concat_images := concat_images cb;
     max_images := max_images cb; denorm := denorm cb; _n_row := _n_row cb;
     _loader_batch_count := _loader_batch_count cb;
     _loader_visualized_in_current_epoch := b |}.

(** The normalization of [input_keys] and of [output_keys]. *)
Definition normalize_keys (arg_name : string) (keys : pyval) : result (list string) :=
  match keys with
  | PyNone => Ok []
  | PyStr s => Ok [s]
  | PyTuple ks | PyList ks =>
      if forallb is_str ks then Ok (omap str_of ks) else Raise AssertionError
  | _ => Raise (ValueError ("Unexpected format of '" ++ arg_name
                            ++ "' argument: must be string or list/tuple"))
  end.

(** [lambda x: x / 2 + .5] and [lambda x: x] *)
Definition denorm_default (x : Q) : Q := (x / 2 + (1 # 2))%Q.
Definition denorm_default_fn : tensor → tensor := tensor_map denorm_default.
Definition denorm_identity_fn : tensor → tensor := λ x, x.

(** [denorm.lower()] *)
Definition str_lower (v : pyval) : result string :=
  match v with
  | PyStr s => Ok (lower s)
  | _ => Raise (AttributeError "lower")
  end.

Definition is_none (v : pyval) : bool :=
  match v with PyNone => true | _ => false end.

(** The choice of the denormalization, which differs between the copies. *)
Definition select_denorm (ex : example) (denorm : pyval) : result (tensor → tensor) :=
  match ex with
  | mnist_gans | mnist_advanced_gans =>
      l ⇐ str_lower denorm ?
      if bool_decide (l = "default") then Ok denorm_default_fn
      else if is_none denorm then Ok denorm_identity_fn
      else
        l' ⇐ str_lower denorm ?
        if bool_decide (l' = "none") then Ok denorm_identity_fn
        else Raise (ValueError "unknown denorm fn")
  | autoencoders =>
      if bool_decide (denorm = PyStr "default") then Ok denorm_default_fn
      else if is_none denorm then Ok denorm_identity_fn
      else Raise (ValueError "unknown denorm fn")
  end.

Definition __init__ (ex : example) (input_keys output_keys batch_frequency : pyval)
    (concat_images : bool) (max_images n_row : Z) (denorm : pyval) : result self :=
  input_keys ⇐ normalize_keys "input_keys" input_keys ?
  output_keys ⇐ normalize_keys "output_keys" output_keys ?
  if (length input_keys + length output_keys =? 0)%nat
  then Raise (ValueError "Useless visualizer: pass at least one image key")
  else
    batch_frequency ⇐ py_int batch_frequency ?
    if negb (0 <? batch_frequency)%Z then Raise AssertionError
    else
      denorm ⇐ select_denorm ex denorm ?
      Ok {| input_keys := input_keys; output_keys := output_keys;
            batch_frequency := batch_frequency; concat_images := concat_images;
            max_images := max_images; denorm := denorm; _n_row := n_row;
            (* self._reset() *)
            _loader_batch_count := 0;
            _loader_visualized_in_current_epoch := false |}.


Definition not_found (state : RunnerState) : exn :=
  RuntimeError ("Cannot find Tensorboard logger for loader " ++ loader_name state).

(** [isinstance(logger, TensorboardLogger)] over the loggers in turn. *)
Fixpoint first_tensorboard (state : RunnerState) (l : list Logger) (i : nat)
    : result writer_ref :=
  match l with
  | [] => Raise (not_found state)
  | TensorboardLogger ws :: _ =>
      match ws !! loader_name state with
      | Some _ => Ok (WriterInList i (loader_name state))
      | None => Raise (KeyError (loader_name state))
      end
  | _ :: l' => first_tensorboard state l' (S i)
  end.

Definition _get_tensorboard_logger (ex : example) (state : RunnerState)
    : result writer_ref :=
  match ex with
  | mnist_gans | mnist_advanced_gans =>
      let tb_key := TENSORBOARD_LOGGER_KEY in
      match loggers state with
      | LoggerDict d =>
          match d !! tb_key with
          | Some (TensorboardLogger ws) =>
              if dict_mem ws (loader_name state)
              then Ok (WriterInDict tb_key (loader_name state))
              else Raise (not_found state)
          | Some _ => Raise (AttributeError "loggers")
          | None => Raise (not_found state)
          end
      | LoggerList _ =>
          (* no logger of a sequence equals the key *)
          Raise (not_found state)
      end
  | autoencoders =>
      match loggers state with
      | LoggerList l => first_tensorboard state l 0
      | LoggerDict _ =>
          (* iterating a dictionary yields its keys, none a logger *)
          Raise (not_found state)
      end
  end.

Definition compute_visualizations (cb : self) (state : RunnerState)
    : result (list (string * tensor)) :=
  input_tensors ⇐ dict_get_all (input state) (input_keys cb) ?
  output_tensors ⇐ dict_get_all (output state) (output_keys cb) ?
  if concat_images cb then
    let viz_name := String.concat "|" (input_keys cb ++ output_keys cb) in
    viz_tensor ⇐ cat (input_tensors ++ output_tensors) 3 ?
    Ok (dict_set viz_name (denorm cb viz_tensor) [])
  else
    Ok (py_dict (zip (input_keys cb ++ output_keys cb)
                     (map (denorm cb) (input_tensors ++ output_tensors)))).

(** The body of the loop of [save_visualizations], for one item
    [(key, batch_images)] of the dictionary. *)
Definition log_visualization (tb_logger : writer_ref) (kv : string * tensor)
    : M (self * RunnerState) unit :=
  s ⇐ get ;;
  batch_images ⇐ lift (slice0 kv.2 None (Some (max_images s.1))) ;;
  let image := make_grid batch_images (_n_row s.1) in
  modify (λ s, (s.1, writer_update tb_logger (add_image kv.1 image (step s.2)) s.2)).

Definition save_visualizations (ex : example)
    (visualizations : list (string * tensor)) : M (self * RunnerState) unit :=
  s ⇐ get ;;
  tb_logger ⇐ lift (_get_tensorboard_logger ex s.2) ;;
  for_each visualizations (log_visualization tb_logger) ;;;
  match ex with
  | autoencoders => modify (λ s, (s.1, writer_update tb_logger flush s.2))
  | _ => ret tt
  end.

Definition visualize (ex : example) : M (self * RunnerState) unit :=
  s ⇐ get ;;
  visualizations ⇐ lift (compute_visualizations s.1 s.2) ;;
  save_visualizations ex visualizations ;;;
  modify (λ s, (set_visualized true s.1, s.2)).



Definition on_batch_end (ex : example) : M (self * RunnerState) unit :=
  modify (λ s, (set_count (_loader_batch_count s.1 + 1) s.1, s.2)) ;;;
  s ⇐ get ;;
  r ⇐ lift (py_mod (_loader_batch_count s.1) (batch_frequency s.1)) ;;
  if negb (r =? 0)%Z then visualize ex
  else ret tt.

End VisualizationCallback.

(** ** Conditions used in the statements *)

(** The second half of the targets equals the first half. *)
Definition halves_equal (target : tensor) (batch_size : nat) : Prop :=
  ∃ first second,
    slice0 target None (Some (SameClassFeaturesRepeatCallback.half batch_size)) = Ok first
    ∧ slice0 target (Some (SameClassFeaturesRepeatCallback.half batch_size)) None = Ok second
    ∧ torch_equal first second = true.

(** When [targets_key] is set, the state holds under it as many targets as
    the batch has items, in two equal halves. *)
Definition targets_in_order (cb : SameClassFeaturesRepeatCallback.self)
    (state : RunnerState) (batch_size : nat) : Prop :=
  match SameClassFeaturesRepeatCallback.targets_key cb with
  | None => True
  | Some key =>
      ∃ target rest,
        input state !! key = Some target
        ∧ shape target = batch_size :: rest
        ∧ halves_equal target batch_size
  end.

(** [oh] is the one-hot encoding of the classes [zs] among [n] classes:
    a tensor of shape [(len(zs), n)] whose entry [(i, j)] is 1 when
    [zs[i] = j] and 0 otherwise. *)
Definition is_one_hot_of (zs : list Z) (n : nat) (oh : tensor) : Prop :=
  shape oh = [length zs; n]
  ∧ tensor_wf oh
  ∧ ∀ i j z, zs !! i = Some z → j < n →
      data oh !! (i * n + j)
      = Some (if bool_decide (z = Z.of_nat j) then 1%Q else 0%Q).

(** Every parameter value of every parameter group of the optimizer that
    is a number lies between the two bounds for the type of its
    parameter. *)
Definition params_between (lo hi : precision → Q) (o : Optimizer) : Prop :=
  ∀ group param x,
    In group (param_groups o) → In param (params group) →
    In (Num x) (p_data param) →
    (lo (p_precision param) <= x)%Q ∧ (x <= hi (p_precision param))%Q.

(** Every such value lies in the closed interval [[-c, c]]. *)
Definition params_within (c : Q) (o : Optimizer) : Prop :=
  params_between (λ _, (- c)%Q) (λ _, c) o.

(** Every such value is a value of the type of its parameter. *)
Definition params_representable (to_dtype : precision → Q → Q) (o : Optimizer)
    : Prop :=
  ∀ group param x,
    In group (param_groups o) → In param (params group) →
    In (Num x) (p_data param) →
    (to_dtype (p_precision param) x == x)%Q.

(** The conversion to a floating-point type keeps the order of the
    numbers, as rounding to the nearest value does. *)
Definition monotone (to_dtype : precision → Q → Q) : Prop :=
  ∀ p x y, (x <= y)%Q → (to_dtype p x <= to_dtype p y)%Q.

(** [None], a string, a tuple or a list. *)
Definition is_key_collection (v : pyval) : bool :=
  match v with
  | PyNone | PyStr _ | PyTuple _ | PyList _ => true
  | _ => false
  end.

Definition unexpected_format (arg_name : string) : exn :=
  ValueError ("Unexpected format of '" ++ arg_name
              ++ "' argument: must be string or list/tuple").

Definition useless_visualizer : exn :=
  ValueError "Useless visualizer: pass at least one image key".

(** No TensorBoard logger is registered for the current loader: the
    ["tensorboard"] key is absent from [state.loggers], or the loader name
    is absent from the [loggers] of that logger. *)
Definition no_tensorboard_writer (state : RunnerState) : Prop :=
  match loggers state with
  | LoggerDict d =>
      match d !! VisualizationCallback.TENSORBOARD_LOGGER_KEY with
      | None => True
      | Some (TensorboardLogger ws) => ws !! loader_name state = None
      | Some _ => False
      end
  | LoggerList _ => True (* a sequence of loggers has no keys *)
  end.

Definition is_runtime_error {A} (r : result A) : Prop :=
  ∃ msg, r = Raise (RuntimeError msg).

(** ** Loader passes as the host runs them *)

(** What a batch brings into the state. *)
Record batch_io : Type := {
  batch_input : gmap string tensor;
  batch_output : gmap string tensor
}.

Definition load_batch (b : batch_io) (state : RunnerState) : RunnerState :=
  {| input := batch_input b; output := batch_output b; metrics := metrics state;
     loggers := loggers state; loader_name := loader_name state;
     step := (step state + 1)%Z; need_backward := need_backward state;
     optimizer := optimizer state |}.

(** The batches of a loader: the host loads each one and the callback's
    [on_batch_end] runs. *)
Definition run_batches (ex : example) (bs : list batch_io)
    : M (VisualizationCallback.self * RunnerState) unit :=
  for_each bs (λ b,
    bind (modify (λ s, (s.1, load_batch b s.2)))
         (λ _, VisualizationCallback.on_batch_end ex)).


(** The number of images the writer of the current loader has received. *)
Definition images_logged (ex : example) (state : RunnerState) : nat :=
  match VisualizationCallback._get_tensorboard_logger ex state with
  | Ok ref =>
      match writer_read ref state with
      | Some w => length (images w)
      | None => 0
      end
  | Raise _ => 0
  end.

(** The settings of the callback, as opposed to its counters. *)
Definition same_config (cb cb' : VisualizationCallback.self) : Prop :=
  VisualizationCallback.input_keys cb = VisualizationCallback.input_keys cb'
  ∧ VisualizationCallback.output_keys cb = VisualizationCallback.output_keys cb'
  ∧ VisualizationCallback.batch_frequency cb = VisualizationCallback.batch_frequency cb'
  ∧ VisualizationCallback.concat_images cb = VisualizationCallback.concat_images cb'
  ∧ VisualizationCallback.max_images cb = VisualizationCallback.max_images cb'
  ∧ VisualizationCallback.denorm cb = VisualizationCallback.denorm cb'
  ∧ VisualizationCallback._n_row cb = VisualizationCallback._n_row cb'.

(** The test of [on_batch_end]: [self._loader_batch_count %
    self.batch_frequency] is a true value. *)
Definition due (batch_frequency count : Z) : bool :=
  negb (count mod batch_frequency =? 0)%Z.

(** The two states agree on everything but their loggers. *)
Definition same_outside_loggers (state state' : RunnerState) : Prop :=
  input state' = input state
  ∧ output state' = output state
  ∧ metrics state' = metrics state
  ∧ loader_name state' = loader_name state
  ∧ step state' = step state
  ∧ need_backward state' = need_backward state
  ∧ optimizer state' = optimizer state.



(** ** Sample inputs *)

Module Samples.

Definition writer0 : SummaryWriter := {| images := []; flushes := 0 |}.

Definition real : tensor := Tensor Float [2; 1] [(3 # 4); (1 # 4)]%Q.
Definition fake : tensor := Tensor Float [2; 1] [(- (1 # 2)); 0]%Q.
Definition images2 : tensor := Tensor Float [2; 1; 1; 1] [1; -1]%Q.

Definition classes : tensor := Tensor Long [2] [inject_Z 1; inject_Z 0].
Definition classes_2d : tensor := Tensor Long [2; 1] [inject_Z 1; inject_Z 0].

Definition weight : parameter :=
  Param Single [3] [Num (1 # 2); Num (- (3 # 8)); Num (1 # 8)].
Definition bias : parameter := Param Single [1; 2] [Num (- 7); NaN].

(** A conversion to a coarse type, for the examples: the nearest multiple
    of 1/8 (ties upwards). *)
Definition to_eighths (p : precision) (x : Q) : Q :=
  (Qfloor (x * 8 + (1 # 2)) # 8)%Q.

Definition group0 : param_group :=
  {| params := [weight; bias]; options := {[ "lr" := (1 # 100)%Q ]} |}.

Definition sgd : Optimizer := {| param_groups := [group0] |}.

(** A batch of two 1x1x1 images and their classes, during training. *)
Definition batch : RunnerState :=
  {| input := {[ "data" := images2;
                 "target" := classes;
                 "class_targets" := Tensor Long [2] [inject_Z 3; inject_Z 3] ]};
     output := {[ "real_validity" := real;
                  "fake_validity" := fake;
                  "generated" := Tensor Float [2; 1; 1; 1] [0; (1 # 2)]%Q ]};
     metrics := ∅;
     loggers := LoggerDict
       {[ "tensorboard" := TensorboardLogger {[ "train" := writer0 ]};
          "console" := ConsoleLogger ]};
     loader_name := "train";
     step := 7;
     need_backward := true;
     optimizer := OneOptimizer sgd |}.

(** The same batch once [one_hot_target] is in the input already, and then
    with two-dimensional targets. *)
Definition encoded_batch : RunnerState :=
  set_input (λ d, <["one_hot_target" := torch_zeros [1]]> d) batch.

Definition encoded_batch_2d : RunnerState :=
  set_input (λ d, <["target" := classes_2d]> d) encoded_batch.

(** A batch of three items. *)
Definition three : tensor := Tensor Float [3] [1; 2; 3]%Q.

Definition odd_batch : RunnerState :=
  set_input (λ d, <["data" := three]> d) batch.

Definition draws (i : nat) : Q := (Z.of_nat i # 10)%Q.

(** The loggers of a run of the autoencoder example in which the
    TensorBoard logger has a writer for the validation loader only. *)
Definition autoencoder_valid_only : RunnerState :=
  {| input := {[ "data" := images2 ]};
     output := ∅;
     metrics := ∅;
     loggers := LoggerList
       [ConsoleLogger; TensorboardLogger {[ "valid" := writer0 ]}];
     loader_name := "train";
     step := 7;
     need_backward := true;
     optimizer := OneOptimizer sgd |}.

(** The same registration in the framework version of the GAN examples. *)
Definition gan_valid_only : RunnerState :=
  set_loggers (LoggerDict
    {[ "tensorboard" := TensorboardLogger {[ "valid" := writer0 ]};
       "console" := ConsoleLogger ]}) autoencoder_valid_only.

(** The callback [VisualizationCallback(input_keys="data",
    output_keys="generated")] of the GAN examples, all defaults. *)
Definition visualizer : VisualizationCallback.self :=
  {| VisualizationCallback.input_keys := ["data"];
     VisualizationCallback.output_keys := ["generated"];
     VisualizationCallback.batch_frequency := 25;
     VisualizationCallback.concat_images := true;
     VisualizationCallback.max_images := 20;
     VisualizationCallback.denorm := VisualizationCallback.denorm_default_fn;
     VisualizationCallback._n_row := 1;
     VisualizationCallback._loader_batch_count := 0;
     VisualizationCallback._loader_visualized_in_current_epoch := false |}.

(** The callback [VisualizationCallback(input_keys="data")] of the
    autoencoder example. *)
Definition input_visualizer : VisualizationCallback.self :=
  {| VisualizationCallback.input_keys := ["data"];
     VisualizationCallback.output_keys := [];
     VisualizationCallback.batch_frequency := 25;
     VisualizationCallback.concat_images := true;
     VisualizationCallback.max_images := 20;
     VisualizationCallback.denorm := VisualizationCallback.denorm_default_fn;
     VisualizationCallback._n_row := 1;
     VisualizationCallback._loader_batch_count := 0;
     VisualizationCallback._loader_visualized_in_current_epoch := false |}.

Definition next_batch : batch_io :=
  {| batch_input := {[ "data" := images2 ]};
     batch_output := {[ "generated" := Tensor Float [2; 1; 1; 1] [0; (1 # 2)]%Q ]} |}.

(** The parent's [on_batch_end] seen as a step that leaves everything as it
    is (no backward pass pending). *)
Definition idle_super : M (WeightClampingOptimizerCallback.self * RunnerState) unit :=
  ret tt.

Definition clamping (value : Q) : WeightClampingOptimizerCallback.self :=
  WeightClampingOptimizerCallback.__init__ 1 None "loss" true value.

End Samples.

(** * Further callbacks and helpers of the examples *)

(** [torch.ones(shape)] *)
Definition torch_ones (sh : list nat) : tensor :=
  Tensor Float sh (replicate (numel_of sh) 1%Q).

(** ** [AddRealFakeTargetsCallback]
    ([examples/mnist_advanced_gans/callbacks.py]) *)

Module AddRealFakeTargetsCallback.

Record self : Type := {
  data_key : string;
  real_targets_key : string;
  fake_targets_key : string;
  fake_targets_zero : bool
}.

Definition __init__ (data_key real_targets_key fake_targets_key : string)
    (fake_targets_zero : bool) : self :=
  {| data_key := data_key; real_targets_key := real_targets_key;
     fake_targets_key := fake_targets_key;
     fake_targets_zero := fake_targets_zero |}.

Definition on_batch_start (cb : self) : M RunnerState unit :=
  st ⇐ get ;;
  assert (negb (dict_mem (input st) (real_targets_key cb))) ;;;
  assert (negb (dict_mem (input st) (fake_targets_key cb))) ;;;
  batch_size ⇐ get_batch_size (data_key cb) ;;
  let ones := torch_ones [batch_size; 1] in
  let zeros := torch_zeros [batch_size; 1] in
  let fake_targets := if fake_targets_zero cb then zeros else ones in
  let real_targets := if fake_targets_zero cb then ones else zeros in
  input_store (real_targets_key cb) real_targets ;;;
  input_store (fake_targets_key cb) fake_targets.

End AddRealFakeTargetsCallback.

(** ** [WeightedCriterionAggregatorCallback]
    ([examples/mnist_advanced_gans/callbacks.py]) *)

(** What [_preprocess_loss] may be handed: a dictionary of losses (0-dim
    tensors, identified with their entries), or something else. *)
Inductive loss_arg : Type :=
| LossDict (d : gmap string Q)
| LossValue (q : Q)
| LossList (l : list Q).

Module WeightedCriterionAggregatorCallback.

Record self : Type := {
  prefix : string;
  loss_keys : list string;
  weights : list Q;
  multiplier : Q
}.

(** [[w / sum(weights) for w in weights]]: nothing is divided when there
    is no weight, and a zero sum raises. *)
Definition normalized (weights : list Q) : result (list Q) :=
  match weights with
  | [] => Ok []
  | _ =>
      if Qeq_bool (Qsum weights) 0 then Raise ZeroDivisionError
      else Ok (map (λ w, w / Qsum weights)%Q weights)
  end.

(** The constructor. [super_loss_keys] is what the constructor of the
    parent class, which is handed [loss_aggregate_fn="sum"], has left in
    [self.loss_keys]. *)
Definition __init__ (prefix : string) (super_loss_keys : option (list string))
    (loss_aggregate_fn : string) (weights : option (list Q)) (multiplier : Q)
    : result self :=
  match super_loss_keys with
  | None => Raise AssertionError
  | Some keys =>
      match weights with
      | None => Raise AssertionError
      | Some ws =>
          if negb (length ws =? length keys)%nat then Raise AssertionError
          else
            ws' ⇐ (if bool_decide (loss_aggregate_fn = "mean")
                   then normalized ws else Ok ws) ?
            Ok {| prefix := prefix; loss_keys := keys; weights := ws';
                  multiplier := multiplier |}
      end
  end.

(** [[loss[key] * self.weights[i] for i, key in enumerate(self.loss_keys)]] *)
Fixpoint weighted_losses (loss : gmap string Q) (weights : list Q)
    (i : nat) (keys : list string) : result (list Q) :=
  match keys with
  | [] => Ok []
  | key :: keys' =>
      l ⇐ dict_get loss key ?
      w ⇐ (match weights !! i with Some w => Ok w | None => Raise IndexError end) ?
      rest ⇐ weighted_losses loss weights (S i) keys' ?
      Ok ((l * w)%Q :: rest)
  end.

Definition _preprocess_loss (cb : self) (loss : loss_arg) : result (list Q) :=
  match loss with
  | LossDict d => weighted_losses d (weights cb) 0 (loss_keys cb)
  | _ => Raise AssertionError
  end.

End WeightedCriterionAggregatorCallback.

(** ** The transforms of the autoencoder experiment
    ([examples/autoencoders/experiment.py]) *)

(** [transforms.Normalize(mean, std)] on an image tensor of shape
    [(C, H, W)]: the entries of channel [c] become [(x - mean[c]) / std[c]]. *)
Definition normalize (mean std : list Q) (t : tensor) : result tensor :=
  match shape t with
  | [c; h; w] =>
      if negb ((length mean =? c)%nat && (length std =? c)%nat)
      then Raise (RuntimeError "The size of tensor a must match the size of tensor b")
      else
        Ok (Tensor Float (shape t)
              (imap (λ i x,
                       let c := (i / (h * w))%nat in
                       ((x - default 0%Q (mean !! c)) / default 1%Q (std !! c))%Q)
                    (data t)))
  | _ => Raise TypeError
  end.

Module Experiment.

Section get_transforms.

(** The images of the dataset, and [transforms.ToTensor()], which turns an
    image into a tensor of shape [(C, H, W)] with entries in [[0, 1]]. *)
Variable picture : Type.
Variable ToTensor : picture → tensor.

(** [Compose([ToTensor(), Normalize((0.5, 0.5, 0.5), (0.5, 0.5, 0.5))])] *)
Definition get_transforms (x : picture) : result tensor :=
  normalize [1 # 2; 1 # 2; 1 # 2]%Q [1 # 2; 1 # 2; 1 # 2]%Q (ToTensor x).

End get_transforms.

End Experiment.

(** A class index as the indexed assignment reads it: counted from the
    end when negative. *)
Definition wrapped (n : nat) (z : Z) : Z :=
  if (z <? 0)%Z then (z + Z.of_nat n)%Z else z.

(** The layout of an optimizer: for every parameter group the types and
    shapes of its parameters, and its options. *)
Definition layout (o : Optimizer)
    : list (list (precision * list nat) * gmap string Q) :=
  map (λ g, (map (λ p, (p_precision p, p_shape p)) (params g), options g))
      (param_groups o).

(** Where the parameters of an optimizer hold NaN. *)
Definition is_nan (x : scalar) : bool :=
  match x with NaN => true | Num _ => false end.

Definition nan_entries (o : Optimizer) : list (list (list bool)) :=
  map (λ g, map (λ p, map is_nan (p_data p)) (params g)) (param_groups o).

(** [batch[:m]] for a count [m] that is not negative: the first [m] items
    of the batch, all of them when it has fewer. *)
Definition first_items (m : nat) (t : tensor) : tensor :=
  match shape t with
  | n :: rest =>
      Tensor (t_dtype t) (Nat.min n m :: rest)
        (take (Nat.min n m * numel_of rest) (data t))
  | [] => t
  end.

(** [d.get(key)] on a dictionary kept in insertion order. *)
Fixpoint dict_item {V} (d : list (string * V)) (key : string) : option V :=
  match d with
  | [] => None
  | (k, v) :: d' => if bool_decide (k = key) then Some v else dict_item d' key
  end.

(** The mean of the entries of a floating-point tensor: NaN when it has
    no entry. *)
Definition mean_value (t : tensor) : scalar :=
  match data t with
  | [] => NaN
  | xs => Num (Qsum xs / inject_Z (Z.of_nat (length xs)))
  end.

(** No logger of the kind that holds TensorBoard writers. *)
Definition not_tensorboard (lg : Logger) : Prop :=
  ∀ ws, lg ≠ TensorboardLogger ws.

(** ** Further sample inputs *)

Module Cases.

(** The loggers of a run of the autoencoder example during validation:
    two TensorBoard loggers, the first with a writer for the validation
    loader. *)
Definition autoencoder_validation : RunnerState :=
  {| input := {[ "data" := Samples.images2 ]};
     output := {[ "generated" := Tensor Float [2; 1; 1; 1] [0; (1 # 2)]%Q ]};
     metrics := ∅;
     loggers := LoggerList
       [ConsoleLogger;
        TensorboardLogger {[ "valid" := Samples.writer0 ]};
        TensorboardLogger {[ "valid" := Samples.writer0;
                             "train" := Samples.writer0 ]}];
     loader_name := "valid";
     step := 7;
     need_backward := false;
     optimizer := OneOptimizer Samples.sgd |}.

(** [VisualizationCallback(input_keys="data", output_keys=["generated",
    "data"], concat_images=False, max_images=1)] *)
Definition separate_visualizer : VisualizationCallback.self :=
  {| VisualizationCallback.input_keys := ["data"];
     VisualizationCallback.output_keys := ["generated"; "data"];
     VisualizationCallback.batch_frequency := 25;
     VisualizationCallback.concat_images := false;
     VisualizationCallback.max_images := 1;
     VisualizationCallback.denorm := VisualizationCallback.denorm_default_fn;
     VisualizationCallback._n_row := 1;
     VisualizationCallback._loader_batch_count := 0;
     VisualizationCallback._loader_visualized_in_current_epoch := false |}.

(** A 3x1x2 picture already turned into a tensor. *)
Definition picture : tensor :=
  Tensor Float [3; 1; 2] [0; 1; (1 # 2); (1 # 4); (3 # 4); 1]%Q.

(** A batch whose outputs hold a tensor named as the input images are. *)
Definition renamed_output : RunnerState :=
  {| input := {[ "data" := Samples.images2 ]};
     output := {[ "generated" := Tensor Float [2; 1; 1; 1] [0; (1 # 2)]%Q;
                  "data" := Samples.three ]};
     metrics := ∅;
     loggers := LoggerDict
       {[ "tensorboard" := TensorboardLogger {[ "train" := Samples.writer0 ]} ]};
     loader_name := "train";
     step := 7;
     need_backward := true;
     optimizer := OneOptimizer Samples.sgd |}.

(** A batch whose real validities are integers. *)
Definition integer_validity : RunnerState :=
  {| input := {[ "data" := Samples.images2 ]};
     output := {[ "real_validity" := Samples.classes;
                  "fake_validity" := Samples.fake ]};
     metrics := ∅;
     loggers := LoggerDict
       {[ "tensorboard" := TensorboardLogger {[ "train" := Samples.writer0 ]} ]};
     loader_name := "train";
     step := 7;
     need_backward := true;
     optimizer := OneOptimizer Samples.sgd |}.

(** A batch whose generated images are a one-dimensional tensor without
    entries. *)
Definition with_empty_output : RunnerState :=
  {| input := {[ "data" := Samples.images2 ]};
     output := {[ "generated" := Tensor Float [0] [] ]};
     metrics := ∅;
     loggers := LoggerDict
       {[ "tensorboard" := TensorboardLogger {[ "train" := Samples.writer0 ]} ]};
     loader_name := "train";
     step := 7;
     need_backward := true;
     optimizer := OneOptimizer Samples.sgd |}.

End Cases.

(** * Properties *)

(** Unfolding of the monadic plumbing of a method body. *)
Ltac run_method :=
  cbv beta delta [bind get gets lift ret raise modify assert result_bind] in *;
  cbn beta iota zeta in *.

(** ** The Wasserstein-distance metric *)

Section wasserstein.
Import WassersteinDistanceCallback.

Lemma restricted_outputs (outputs : gmap string tensor) rk fk real fake :
  outputs !! rk = Some real →
  outputs !! fk = Some fake →
  dict_restrict outputs [rk; fk] ∅ = Ok (<[fk := fake]> (<[rk := real]> ∅)).
Proof. intros Hr Hf. cbn. rewrite Hr, Hf. reflexivity. Qed.

Lemma restricted_lookup_real (rk fk : string) (real fake : tensor) :
  (rk = fk → real = fake) →
  (<[fk := fake]> (<[rk := real]> (∅ : gmap string tensor))) !! rk = Some real.
Proof.
  intros Heq. destruct (decide (rk = fk)) as [->|Hne].
  - rewrite lookup_insert_eq. f_equal. symmetry. auto.
  - rewrite lookup_insert_ne by congruence. apply lookup_insert_eq.
Qed.

Lemma mean_of_float (t : tensor) :
  t_dtype t = Float → mean t = Ok (mean_value t).
Proof.
  intros Hdt. unfold mean, mean_value. rewrite Hdt.
  destruct (data t); reflexivity.
Qed.

Lemma mean_of_long (t : tensor) :
  t_dtype t = Long → is_runtime_error (mean t).
Proof. intros Hdt. unfold mean. rewrite Hdt. eexists. reflexivity. Qed.

Lemma wasserstein_fn_run (rk fk : string) (real fake : tensor) (targets : selection) :
  get_wasserstein_distance rk fk
    (SelDict (<[fk := fake]> (<[rk := real]> ∅))) targets
  = match mean (if bool_decide (rk = fk) then fake else real) with
    | Raise e => Raise e
    | Ok real_mean =>
        match mean fake with
        | Raise e => Raise e
        | Ok fake_mean => Ok (scalar_sub real_mean fake_mean)
        end
    end.
Proof.
  unfold get_wasserstein_distance, item, dict_get, result_bind.
  rewrite lookup_insert_eq.
  destruct (decide (rk = fk)) as [->|Hne].
  - rewrite lookup_insert_eq, bool_decide_eq_true_2 by reflexivity. reflexivity.
  - rewrite lookup_insert_ne by congruence. rewrite lookup_insert_eq.
    rewrite bool_decide_eq_false_2 by assumption. reflexivity.
Qed.

Lemma wasserstein_on_batch_end_run (prefix rk fk : string) (state : RunnerState)
    (real fake : tensor) :
  output state !! rk = Some real →
  output state !! fk = Some fake →
  on_batch_end (__init__ prefix rk fk) state
  = match mean real with
    | Raise e => (Raise e, state)
    | Ok real_mean =>
        match mean fake with
        | Raise e => (Raise e, state)
        | Ok fake_mean =>
            (Ok tt, set_metrics (λ m, <[prefix := scalar_sub real_mean fake_mean]> m)
                      state)
        end
    end.
Proof.
  intros Hr Hf.
  assert (Hsame : (if bool_decide (rk = fk) then fake else real) = real).
  { destruct (decide (rk = fk)) as [->|Hne].
    - rewrite bool_decide_eq_true_2 by reflexivity. congruence.
    - rewrite bool_decide_eq_false_2 by assumption. reflexivity. }
  unfold on_batch_end, MultiKeyMetricCallback.on_batch_end, add_batch_value.
  run_method. cbn [base __init__ MultiKeyMetricCallback.output_key
                   MultiKeyMetricCallback.input_key
                   MultiKeyMetricCallback.metric_fn
                   MultiKeyMetricCallback.prefix
                   MultiKeyMetricCallback._get].
  unfold result_bind.
  rewrite (restricted_outputs _ _ _ _ _ Hr Hf), wasserstein_fn_run, Hsame.
  destruct (mean real) as [real_mean|]; [|reflexivity].
  destruct (mean fake) as [fake_mean|]; reflexivity.
Qed.

(** C1, as amended. For every state whose output dictionary holds
    floating-point tensors under the real-validity key and the
    fake-validity key, [on_batch_end] of the Wasserstein-distance callback
    returns normally, the value it computes is
    [mean(real_validity) - mean(fake_validity)] - the mean of a tensor
    without entries being NaN, and the difference with it - and exactly
    that value is what [state.metrics] holds under the prefix of the
    callback afterwards; nothing else in the state changes. *)
Theorem wasserstein_distance_recorded
    (prefix rk fk : string) (state : RunnerState) (real fake : tensor) :
  output state !! rk = Some real →
  output state !! fk = Some fake →
  t_dtype real = Float →
  t_dtype fake = Float →
  let cb := __init__ prefix rk fk in
  let distance := scalar_sub (mean_value real) (mean_value fake) in
  mean real = Ok (mean_value real)
  ∧ mean fake = Ok (mean_value fake)
  ∧ MultiKeyMetricCallback.metric_fn (base cb)
      (SelDict (<[fk := fake]> (<[rk := real]> ∅))) (SelDict (input state))
    = Ok distance
  ∧ on_batch_end cb state
    = (Ok tt, set_metrics (λ m, <[prefix := distance]> m) state)
  ∧ metrics (on_batch_end cb state).2 !! prefix = Some distance.
Proof.
  intros Hr Hf Hreal Hfake cb distance.
  pose proof (mean_of_float real Hreal) as Hmr.
  pose proof (mean_of_float fake Hfake) as Hmf.
  assert (Hrun : on_batch_end cb state
                 = (Ok tt, set_metrics (λ m, <[prefix := distance]> m) state)).
  { unfold cb. rewrite (wasserstein_on_batch_end_run _ _ _ _ _ _ Hr Hf), Hmr, Hmf.
    reflexivity. }
  split; [exact Hmr|]. split; [exact Hmf|]. split; [|split; [exact Hrun|]].
  - cbn [cb base __init__ MultiKeyMetricCallback.metric_fn].
    rewrite wasserstein_fn_run.
    assert (Hsame : (if bool_decide (rk = fk) then fake else real) = real).
    { destruct (decide (rk = fk)) as [->|Hne].
      - rewrite bool_decide_eq_true_2 by reflexivity. congruence.
      - rewrite bool_decide_eq_false_2 by assumption. reflexivity. }
    rewrite Hsame, Hmr, Hmf. reflexivity.
  - rewrite Hrun. cbn. apply lookup_insert_eq.
Qed.

(** C1 as stated fails for integer tensors, which the outputs of a state
    may hold as well: [mean] is defined for floating-point tensors only,
    so that [on_batch_end] raises [RuntimeError] and records nothing. *)
Lemma wasserstein_distance_integer_counterexample :
  let cb := __init__ "wasserstein_distance" "real_validity" "fake_validity" in
  let state := Cases.integer_validity in
  output state !! "real_validity" = Some Samples.classes
  ∧ output state !! "fake_validity" = Some Samples.fake
  ∧ is_runtime_error (on_batch_end cb state).1
  ∧ (on_batch_end cb state).2 = state
  ∧ metrics (on_batch_end cb state).2 !! "wasserstein_distance" = None.
Proof.
  cbv zeta. split; [reflexivity|]. split; [reflexivity|].
  rewrite (wasserstein_on_batch_end_run "wasserstein_distance" "real_validity"
             "fake_validity" Cases.integer_validity Samples.classes Samples.fake
             eq_refl eq_refl).
  split; [eexists; reflexivity|]. split; reflexivity.
Qed.

End wasserstein.

Lemma wasserstein_distance_recorded_witness :
  ∃ d, metrics (WassersteinDistanceCallback.on_batch_end
                  (WassersteinDistanceCallback.__init__
                     "wasserstein_distance" "real_validity" "fake_validity")
                  Samples.batch).2 !! "wasserstein_distance"
       = Some (Num d)
       ∧ (d == 3 # 4)%Q.
Proof.
  destruct (wasserstein_distance_recorded "wasserstein_distance"
              "real_validity" "fake_validity" Samples.batch Samples.real
              Samples.fake eq_refl eq_refl eq_refl eq_refl)
    as (_ & _ & _ & _ & Hrecorded).
  eexists. split; [exact Hrecorded|]. reflexivity.
Defined.

(** ** Noise injection *)

Section add_batch_noise.
Import AddBatchNoiseCallback.

Lemma get_batch_size_ok (key : string) (state : RunnerState) (t : tensor) n rest :
  input state !! key = Some t →
  shape t = n :: rest →
  get_batch_size key state = (Ok n, state).
Proof.
  intros Hin Hsh. unfold get_batch_size, dict_mem, dict_get, size0. run_method.
  rewrite Hin, Hsh. rewrite bool_decide_eq_true_2 by eauto. reflexivity.
Qed.



End add_batch_noise.

(** ** Repetition of same-class features *)

Section same_class.
Import SameClassFeaturesRepeatCallback.

Lemma slice_bounds_upto (n k : nat) :
  k ≤ n → slice_bounds n None (Some (Z.of_nat k)) = (0, k).
Proof.
  intros Hk. unfold slice_bounds, slice_index, default. cbn [from_option id].
  repeat match goal with
         | |- context [(?a <? ?b)%Z] => destruct (Z.ltb_spec a b)
         end; f_equal; lia.
Qed.

Lemma slice_bounds_from (n k : nat) :
  k ≤ n → slice_bounds n (Some (Z.of_nat k)) None = (k, n - k).
Proof.
  intros Hk. unfold slice_bounds, slice_index, default. cbn [from_option id].
  repeat match goal with
         | |- context [(?a <? ?b)%Z] => destruct (Z.ltb_spec a b)
         end; f_equal; lia.
Qed.

Lemma cat_dtype_pair (a b : tensor) :
  t_dtype a = t_dtype b → cat_dtype [a; b] = t_dtype a.
Proof.
  intros Hab. unfold cat_dtype. cbn. rewrite <- Hab.
  destruct (t_dtype a); reflexivity.
Qed.

(** Two pieces of a tensor cut along dimension 0, concatenated along
    dimension 0, make the tensor. *)
Lemma cat_operands_pieces (dt : dtype) (n k : nat) (rest : list nat)
    (xs : list Q) :
  length xs = n * numel_of rest →
  k ≤ n →
  cat_operands dt
    [Tensor dt (k :: rest) (take (k * numel_of rest) (drop (0 * numel_of rest) xs));
     Tensor dt ((n - k) :: rest)
       (take ((n - k) * numel_of rest) (drop (k * numel_of rest) xs))] 0
  = Ok (Tensor dt (n :: rest) xs).
Proof.
  intros Hwf Hk.
  unfold cat_operands, ndim, cat_compatible, extent, chunk.
  cbn -[Nat.mul Nat.add Nat.sub firstn skipn numel_of].
  rewrite Nat.eqb_refl, !bool_decide_eq_true_2 by reflexivity.
  cbn -[Nat.mul Nat.add Nat.sub firstn skipn numel_of].
  change (take 0 (k :: rest)) with (@nil nat).
  change (drop 1 (k :: rest)) with rest.
  change (numel_of []) with 1. cbn [seq map concat app].
  rewrite !Nat.mul_0_l, !drop_0, !Nat.add_0_r, !app_nil_r.
  rewrite !take_take, !Nat.min_id.
  f_equal. f_equal.
  - f_equal. lia.
  - rewrite <- (take_drop (k * numel_of rest) xs) at 3.
    f_equal. apply take_ge. rewrite length_drop, Hwf. nia.
Qed.

(** One operand alone is the result. *)
Lemma cat_operands_one (dt : dtype) (m : nat) (rest : list nat) (xs : list Q) :
  length xs ≤ m * numel_of rest →
  cat_operands dt [Tensor dt (m :: rest) xs] 0 = Ok (Tensor dt (m :: rest) xs).
Proof.
  intros Hlen.
  unfold cat_operands, ndim, cat_compatible, extent, chunk.
  cbn -[Nat.mul Nat.add Nat.sub firstn skipn numel_of].
  rewrite Nat.eqb_refl, !bool_decide_eq_true_2 by reflexivity.
  cbn -[Nat.mul Nat.add Nat.sub firstn skipn numel_of].
  change (take 0 (m :: rest)) with (@nil nat).
  change (drop 1 (m :: rest)) with rest.
  change (numel_of []) with 1. cbn [seq map concat app].
  rewrite !Nat.mul_0_l, !drop_0, !Nat.add_0_r, !app_nil_r.
  f_equal. f_equal. apply take_ge. exact Hlen.
Qed.

Lemma skipped_shape (dt : dtype) (m : nat) (rest : list nat) (xs : list Q) :
  skipped (Tensor dt (m :: rest) xs) = true ↔ m = 0 ∧ rest = [].
Proof.
  unfold skipped. cbn [shape]. rewrite bool_decide_eq_true.
  split; [intros [= -> ->]; auto|intros [-> ->]; reflexivity].
Qed.

(** Cutting a tensor in two along dimension 0 and concatenating the pieces
    along dimension 0 gives the tensor back. *)
Lemma cat_of_slices (t : tensor) (n k : nat) (rest : list nat) :
  shape t = n :: rest →
  tensor_wf t →
  k ≤ n →
  ∃ first second,
    slice0 t None (Some (Z.of_nat k)) = Ok first
    ∧ slice0 t (Some (Z.of_nat k)) None = Ok second
    ∧ cat [first; second] 0 = Ok t.
Proof.
  intros Hsh Hwf Hk. unfold slice0. rewrite Hsh.
  rewrite slice_bounds_upto, slice_bounds_from by assumption.
  eexists _, _. split; [reflexivity|]. split; [reflexivity|].
  destruct t as [dt sh xs]. cbn [t_dtype shape data] in *. subst sh.
  unfold tensor_wf in Hwf. cbn [shape data] in Hwf.
  change (numel_of (n :: rest)) with (n * numel_of rest) in Hwf.
  unfold cat. rewrite cat_dtype_pair by reflexivity. cbn [t_dtype].
  cbn [List.filter].
  destruct (skipped (Tensor dt (k :: rest) _)) eqn:Hfirst;
    destruct (skipped (Tensor dt ((n - k) :: rest) _)) eqn:Hsecond;
    cbn [negb].
  - apply skipped_shape in Hfirst as [-> ->].
    apply skipped_shape in Hsecond as [Hn _].
    assert (n = 0) by lia. subst n. cbn [cat_operands].
    destruct xs; [reflexivity|]. cbn in Hwf. discriminate Hwf.
  - apply skipped_shape in Hfirst as [-> ->].
    rewrite Nat.sub_0_r, Nat.mul_0_l, drop_0.
    rewrite (take_ge xs) by lia. apply cat_operands_one. lia.
  - apply skipped_shape in Hsecond as [Hn ->].
    assert (k = n) by lia. subst k.
    rewrite Nat.mul_0_l, drop_0. rewrite (take_ge xs) by lia.
    apply cat_operands_one. lia.
  - apply cat_operands_pieces; assumption.
Qed.

(** The sanity check reads the state and leaves it as it is. *)
Lemma check_targets_state (key : string) (n : nat) (state : RunnerState) :
  (check_targets key n state).2 = state.
Proof.
  unfold check_targets. run_method.
  destruct (dict_mem (input state) key); [|reflexivity].
  destruct (dict_get (input state) key) as [target|]; [|reflexivity].
  destruct (size0 target) as [m|]; [|reflexivity].
  destruct (m =? n)%nat; [|reflexivity].
  destruct (n mod 2 =? 0)%nat; [|reflexivity].
  destruct (slice0 target None _); [|reflexivity].
  destruct (slice0 target (Some _) None); [|reflexivity].
  destruct (torch_equal _ _); reflexivity.
Qed.

Lemma check_targets_ok (key : string) (n : nat) (state : RunnerState)
    (target : tensor) (rest : list nat) :
  input state !! key = Some target →
  shape target = n :: rest →
  Nat.Even n →
  halves_equal target n →
  check_targets key n state = (Ok tt, state).
Proof.
  intros Hin Hsh Heven (first & second & Hf & Hs & Heq).
  unfold check_targets, dict_mem, dict_get, size0. run_method.
  rewrite Hin, Hsh, bool_decide_eq_true_2 by eauto.
  rewrite Nat.eqb_refl.
  replace (n mod 2 =? 0)%nat with true.
  - rewrite Hf, Hs, Heq. reflexivity.
  - symmetry. apply Nat.eqb_eq. destruct Heven as [m ->].
    rewrite Nat.mul_comm. apply Nat.Div0.mod_mul.
Qed.

(** What [on_batch_start] does once the batch size is known. *)
Lemma same_class_on_batch_start_run (cb : self) (state : RunnerState)
    (batch : tensor) (n : nat) (rest : list nat) :
  input state !! data_key cb = Some batch →
  shape batch = n :: rest →
  tensor_wf batch →
  on_batch_start cb state =
    match (match targets_key cb with
           | Some key => check_targets key n
           | None => ret tt
           end state).1 with
    | Raise e => (Raise e, state)
    | Ok _ =>
        if dict_mem (input state) (same_class_data_key cb)
        then (Raise AssertionError, state)
        else (Ok tt, set_input (λ d, <[same_class_data_key cb := batch]> d) state)
    end.
Proof.
  intros Hin Hsh Hwf. unfold on_batch_start, input_store.
  unfold bind at 1. rewrite (get_batch_size_ok _ _ _ _ _ Hin Hsh).
  unfold bind at 1.
  assert (Hst : (match targets_key cb with
                 | Some key => check_targets key n
                 | None => ret tt
                 end state).2 = state).
  { destruct (targets_key cb); [apply check_targets_state|reflexivity]. }
  destruct (match targets_key cb with
            | Some key => check_targets key n
            | None => ret tt
            end state) as [r state1].
  cbn [fst snd] in *. subst state1. destruct r as [[]|e]; [|reflexivity].
  destruct (cat_of_slices batch n (n / 2) rest Hsh Hwf) as (a & b & Ha & Hb & Hcat).
  { apply Nat.Div0.div_le_upper_bound. lia. }
  unfold dict_get. run_method. rewrite Hin.
  destruct (dict_mem (input state) (same_class_data_key cb)); [reflexivity|].
  cbn [negb]. unfold half. rewrite Ha, Hb, Hcat. reflexivity.
Qed.

(** C9. For every state whose input holds a data tensor under [data_key]:
    whenever [on_batch_start] stores a tensor under [same_class_data_key],
    that tensor - the concatenation along dimension 0 of the first and the
    second half of the data - is the data tensor itself, and the rest of the
    state is untouched; and it does store it when the batch size is even,
    the targets (when [targets_key] is set) come in two equal halves and
    the key is still free. *)
Theorem same_class_data_is_the_data
    (cb : self) (state : RunnerState) (batch : tensor) :
  input state !! data_key cb = Some batch →
  tensor_wf batch →
  (∀ state',
     on_batch_start cb state = (Ok tt, state') →
     input state' !! same_class_data_key cb = Some batch
     ∧ state' = set_input (λ d, <[same_class_data_key cb := batch]> d) state)
  ∧ (∀ batch_size rest,
       shape batch = batch_size :: rest →
       Nat.Even batch_size →
       targets_in_order cb state batch_size →
       input state !! same_class_data_key cb = None →
       ∃ state', on_batch_start cb state = (Ok tt, state')).
Proof.
  intros Hin Hwf. split.
  - intros state' Hrun. destruct (shape batch) as [|n rest] eqn:Hsh.
    + exfalso. revert Hrun. unfold on_batch_start, get_batch_size, dict_mem,
        dict_get, size0. run_method.
      rewrite Hin, Hsh, bool_decide_eq_true_2 by eauto. discriminate.
    + rewrite (same_class_on_batch_start_run cb state batch n rest Hin Hsh Hwf) in Hrun.
      destruct (_.1) in Hrun; [|discriminate].
      destruct (dict_mem _ _) in Hrun; [discriminate|].
      injection Hrun as <-. split; [apply lookup_insert_eq|reflexivity].
  - intros n rest Hsh Heven Htargets Hfree.
    rewrite (same_class_on_batch_start_run cb state batch n rest Hin Hsh Hwf).
    assert (Hcheck : (match targets_key cb with
                      | Some key => check_targets key n
                      | None => ret tt
                      end state).1 = Ok tt).
    { unfold targets_in_order in Htargets. destruct (targets_key cb) as [key|].
      - destruct Htargets as (target & trest & Ht & Htsh & Hhalves).
        rewrite (check_targets_ok key n state target trest); auto.
      - reflexivity. }
    rewrite Hcheck. unfold dict_mem. rewrite Hfree.
    rewrite bool_decide_eq_false_2 by (intros [? ?]; discriminate).
    eauto.
Qed.

Lemma same_class_data_is_the_data_witness :
  ∃ state',
    on_batch_start (__init__ "data" "same_class_data" (Some "class_targets"))
      Samples.batch = (Ok tt, state')
    ∧ input state' !! "same_class_data" = Some Samples.images2.
Proof.
  pose proof (same_class_data_is_the_data
                (__init__ "data" "same_class_data" (Some "class_targets"))
                Samples.batch Samples.images2 eq_refl eq_refl) as [Hstored Hruns].
  destruct (Hruns 2 [1; 1; 1]) as [state' Hrun].
  - reflexivity.
  - exists 1. reflexivity.
  - exists (Tensor Long [2] [inject_Z 3; inject_Z 3]), [].
    split; [reflexivity|]. split; [reflexivity|].
    eexists _, _. split; [reflexivity|]. split; reflexivity.
  - reflexivity.
  - exists state'. split; [exact Hrun|]. apply (Hstored state' Hrun).
Defined.

End same_class.

(** ** One-hot encoding of the targets *)

Section one_hot.
Import OneHotTransformCallback.

Lemma wrap_index_in_range (n : nat) (i : Z) :
  (0 ≤ i < Z.of_nat n)%Z → wrap_index n i = Ok (Z.to_nat i).
Proof.
  intros Hi. unfold wrap_index.
  destruct (Z.ltb_spec i 0); [lia|].
  destruct (Z.leb_spec 0 i); [|lia].
  destruct (Z.ltb_spec i (Z.of_nat n)); [reflexivity|lia].
Qed.

Lemma cell_unique (n i j i' j' : nat) :
  j < n → j' < n → i * n + j = i' * n + j' → i = i' ∧ j = j'.
Proof.
  intros Hj Hj' Heq.
  assert (Hrow : i = i').
  { destruct (Nat.lt_trichotomy i i') as [Hlt|[Heq'|Hgt]]; [|assumption|].
    - pose proof (Nat.mul_le_mono_r (S i) i' n Hlt) as Hle.
      cbn [Nat.mul] in Hle. lia.
    - pose proof (Nat.mul_le_mono_r (S i') i n Hgt) as Hle.
      cbn [Nat.mul] in Hle. lia. }
  subst i'. split; [reflexivity|lia].
Qed.

(** Writing [v] at row [s + k], column [zs[k]], for every [k]. *)
Lemma put_all_rows (n_rows n_cols : nat) (v : Q) (zs : list Z) :
  Forall (λ z, (0 ≤ z < Z.of_nat n_cols)%Z) zs →
  ∀ (s : nat) (xs : list Q),
    s + length zs ≤ n_rows →
    length xs = n_rows * n_cols →
    ∃ xs',
      put_all n_rows n_cols
        (zip (map (λ i, Z.of_nat i) (seq s (length zs))) zs) v xs = Ok xs'
      ∧ length xs' = length xs
      ∧ ∀ i j, j < n_cols →
          xs' !! (i * n_cols + j)
          = if bool_decide (s ≤ i ∧ zs !! (i - s) = Some (Z.of_nat j))
            then Some v else xs !! (i * n_cols + j).
Proof.
  induction 1 as [|z zs Hz Hzs IH]; intros s xs Hs Hlen.
  - exists xs. split; [reflexivity|]. split; [reflexivity|].
    intros i j Hj. rewrite bool_decide_eq_false_2; [reflexivity|].
    intros [_ Hnone]. rewrite lookup_nil in Hnone. discriminate.
  - cbn [length] in Hs.
    destruct (IH (S s) (<[s * n_cols + Z.to_nat z := v]> xs)) as (xs' & Hput & Hlen' & Hget).
    { lia. }
    { rewrite length_insert. exact Hlen. }
    exists xs'. split; [|split].
    + cbn [length seq map zip zip_with put_all].
      rewrite (wrap_index_in_range n_rows) by lia.
      rewrite Nat2Z.id, (wrap_index_in_range n_cols) by lia.
      exact Hput.
    + rewrite Hlen'. apply length_insert.
    + intros i j Hj. rewrite (Hget i j Hj).
      destruct (decide (i = s)) as [->|Hne].
      * rewrite Nat.sub_diag. cbn [lookup list_lookup].
        rewrite (bool_decide_eq_false_2 (S s ≤ s ∧ _)) by lia.
        destruct (decide (z = Z.of_nat j)) as [->|Hzj].
        -- rewrite Nat2Z.id, bool_decide_eq_true_2 by auto.
           apply list_lookup_insert_eq. rewrite Hlen. nia.
        -- rewrite bool_decide_eq_false_2 by (intros [_ [=]]; contradiction).
           apply list_lookup_insert_ne. intros Heq.
           apply cell_unique in Heq as [_ Heq]; [|lia|assumption].
           apply Hzj. lia.
      * rewrite list_lookup_insert_ne.
        2:{ intros Heq. apply cell_unique in Heq as [Heq _]; [|lia|assumption].
            congruence. }
        destruct (decide (s < i)) as [Hlt|Hge].
        -- replace (i - s) with (S (i - S s)) by lia. cbn [lookup list_lookup].
           rewrite (bool_decide_ext (S s ≤ i ∧ zs !! (i - S s) = Some (Z.of_nat j))
                      (s ≤ i ∧ zs !! (i - S s) = Some (Z.of_nat j)))
             by intuition lia.
           reflexivity.
        -- rewrite !bool_decide_eq_false_2 by lia. reflexivity.
Qed.

Lemma Qfloor_inject_all (zs : list Z) : map Qfloor (map inject_Z zs) = zs.
Proof.
  induction zs as [|z zs IH]; [reflexivity|].
  cbn [map]. rewrite Qfloor_Z, IH. reflexivity.
Qed.

Lemma arange_indices (n : nat) :
  map Qfloor (data (torch_arange n)) = map (λ i, Z.of_nat i) (seq 0 n).
Proof.
  unfold torch_arange. cbn [data]. rewrite map_map.
  apply map_ext. intros i. apply Qfloor_Z.
Qed.

Lemma one_hot_index_put (n : nat) (zs : list Z) (targets : tensor) :
  t_dtype targets = Long →
  data targets = map inject_Z zs →
  Forall (λ z, (0 ≤ z < Z.of_nat n)%Z) zs →
  ∃ oh,
    index_put_2d (torch_zeros [length zs; n]) (torch_arange (length zs)) targets 1
      = Ok oh
    ∧ is_one_hot_of zs n oh.
Proof.
  intros Hdt Hdata Hrange. unfold index_put_2d.
  cbn [torch_zeros shape t_dtype data].
  rewrite Hdt, !bool_decide_eq_true_2 by reflexivity. cbn [andb negb].
  rewrite arange_indices, Hdata, Qfloor_inject_all.
  unfold broadcast_indices. rewrite length_map, length_seq, Nat.eqb_refl.
  destruct (put_all_rows (length zs) n 1%Q zs Hrange 0
              (replicate (numel_of [length zs; n]) 0%Q)) as (xs' & Hput & Hlen & Hget).
  { lia. }
  { rewrite length_replicate. cbn. lia. }
  rewrite Hput. eexists. split; [reflexivity|].
  split; [reflexivity|]. split.
  - unfold tensor_wf. cbn [data shape]. rewrite Hlen. apply length_replicate.
  - intros i j z Hz Hj. cbn [data]. rewrite (Hget i j Hj).
    rewrite Nat.sub_0_r, Hz.
    destruct (decide (z = Z.of_nat j)) as [->|Hne].
    + rewrite !bool_decide_eq_true_2; [reflexivity|reflexivity|split; [lia|reflexivity]].
    + rewrite !bool_decide_eq_false_2; [|assumption|intros [_ [=]]; contradiction].
      apply lookup_replicate_2. apply lookup_lt_Some in Hz. cbn.
      pose proof (Nat.mul_le_mono_r (S i) (length zs) n Hz) as Hle.
      cbn [Nat.mul] in Hle. lia.
Qed.

(** C3, as amended. For every state whose input holds a batch under
    [data_key] and targets under [target_key], and does not yet hold
    [one_hot_target_key]: when the targets have more than one dimension
    [on_batch_start] raises [NotImplementedError] and leaves the state as it
    is; when they are a one-dimensional integer tensor with one entry per
    item of the batch, every entry in [[0, n_classes)], it stores under
    [one_hot_target_key] a tensor of shape [(batch_size, n_classes)] whose
    entry [(i, j)] is 1 if [targets[i] = j] and 0 otherwise, and leaves
    the other entries of [state.input] as they were. *)
Theorem one_hot_transform_encodes
    (cb : self) (state : RunnerState) (batch targets : tensor)
    (batch_size : nat) (rest : list nat) :
  input state !! data_key cb = Some batch →
  shape batch = batch_size :: rest →
  input state !! target_key cb = Some targets →
  input state !! one_hot_target_key cb = None →
  (1 < ndim targets →
     on_batch_start cb state = (Raise NotImplementedError, state))
  ∧ (∀ zs : list Z,
       t_dtype targets = Long →
       shape targets = [batch_size] →
       data targets = map inject_Z zs →
       length zs = batch_size →
       Forall (λ z, (0 ≤ z < Z.of_nat (n_classes cb))%Z) zs →
       ∃ state' one_hot,
         on_batch_start cb state = (Ok tt, state')
         ∧ input state' !! one_hot_target_key cb = Some one_hot
         ∧ is_one_hot_of zs (n_classes cb) one_hot
         ∧ ∀ key, key ≠ one_hot_target_key cb →
             input state' !! key = input state !! key).
Proof.
  intros Hbatch Hsh Htargets Hfree.
  assert (Hrun : on_batch_start cb state =
                 if (1 <? ndim targets)%nat then (Raise NotImplementedError, state)
                 else match index_put_2d (torch_zeros [batch_size; n_classes cb])
                              (torch_arange batch_size) targets 1 with
                      | Ok oh => (Ok tt, set_input (λ d, <[one_hot_target_key cb := oh]> d) state)
                      | Raise e => (Raise e, state)
                      end).
  { unfold on_batch_start, input_store. unfold bind at 1.
    rewrite (get_batch_size_ok _ _ _ _ _ Hbatch Hsh).
    unfold dict_mem, dict_get. run_method. rewrite Htargets, Hfree.
    rewrite bool_decide_eq_true_2 by eauto.
    rewrite bool_decide_eq_false_2 by (intros [? ?]; discriminate).
    cbn [negb]. destruct (1 <? ndim targets)%nat; [reflexivity|].
    destruct (index_put_2d _ _ _ _); reflexivity. }
  split.
  - intros Hdim. rewrite Hrun.
    rewrite (proj2 (Nat.ltb_lt 1 (ndim targets)) Hdim). reflexivity.
  - intros zs Hdt Htsh Hdata Hlen Hrange. subst batch_size.
    destruct (one_hot_index_put (n_classes cb) zs targets Hdt Hdata Hrange)
      as (oh & Hput & Hoh).
    exists (set_input (λ d, <[one_hot_target_key cb := oh]> d) state), oh.
    split; [|split; [apply lookup_insert_eq|split; [exact Hoh|]]].
    + rewrite Hrun. unfold ndim. rewrite Htsh. cbn [length Nat.ltb Nat.leb].
      rewrite Hput. reflexivity.
    + intros key Hne. cbn. apply lookup_insert_ne. congruence.
Qed.

Lemma one_hot_transform_encodes_witness :
  ∃ state' one_hot,
    on_batch_start (__init__ 10 "data" "target" "one_hot_target") Samples.batch
      = (Ok tt, state')
    ∧ input state' !! "one_hot_target" = Some one_hot
    ∧ is_one_hot_of [1%Z; 0%Z] 10 one_hot.
Proof.
  destruct (one_hot_transform_encodes
              (__init__ 10 "data" "target" "one_hot_target") Samples.batch
              Samples.images2 Samples.classes
              2 [1; 1; 1] eq_refl eq_refl eq_refl eq_refl) as [_ Hstore].
  destruct (Hstore [1%Z; 0%Z]) as (state' & oh & Hrun & Hin & Hoh & _);
    [reflexivity | reflexivity | reflexivity | reflexivity | | ].
  - repeat constructor; cbn; lia.
  - exists state', oh. auto.
Defined.

(** C3 as stated fails where the guard of [on_batch_start] stops it: on a
    state that already holds [one_hot_target_key], which the statement does
    not exclude, nothing is stored and [AssertionError] is raised, whether
    the targets have one dimension or more. *)
Lemma one_hot_transform_guard_counterexample :
  let cb := __init__ 10 "data" "target" "one_hot_target" in
  (input Samples.encoded_batch !! "data" = Some Samples.images2
   ∧ input Samples.encoded_batch !! "target" = Some Samples.classes
   ∧ on_batch_start cb Samples.encoded_batch
     = (Raise AssertionError, Samples.encoded_batch)
   ∧ ¬ ∃ one_hot,
         input (on_batch_start cb Samples.encoded_batch).2 !! "one_hot_target"
         = Some one_hot
         ∧ is_one_hot_of [1%Z; 0%Z] 10 one_hot)
  ∧ (input Samples.encoded_batch_2d !! "target" = Some Samples.classes_2d
     ∧ 1 < ndim Samples.classes_2d
     ∧ on_batch_start cb Samples.encoded_batch_2d
       = (Raise AssertionError, Samples.encoded_batch_2d)).
Proof.
  cbv zeta.
  split; [split; [reflexivity|split; [reflexivity|split; [reflexivity|]]]|].
  - intros (oh & Hin & Hshape & _). vm_compute in Hin. injection Hin as <-.
    discriminate Hshape.
  - split; [reflexivity|]. split; [cbn; lia|reflexivity].
Qed.

End one_hot.

(** ** Weight clamping after the optimizer step *)

Section weight_clamping.
Import WeightClampingOptimizerCallback.

Lemma clamp_scalar_bounds (lo hi x : Q) :
  (lo <= hi)%Q → (lo <= clamp_scalar lo hi x)%Q ∧ (clamp_scalar lo hi x <= hi)%Q.
Proof.
  intros Hord. unfold clamp_scalar. split.
  - apply Q.min_glb; [apply Q.le_max_r|exact Hord].
  - apply Q.le_min_r.
Qed.

Lemma opp_le_self (c : Q) : (0 <= c)%Q → (- c <= c)%Q.
Proof.
  intros Hc. apply Qle_trans with 0%Q; [|assumption].
  rewrite <- (Qopp_opp 0). apply Qopp_le_compat. exact Hc.
Qed.

Lemma clamp_optimizer_between (to_dtype : precision → Q → Q) (c : Q)
    (o : Optimizer) :
  (∀ p, (to_dtype p (- c) <= to_dtype p c)%Q) →
  params_between (λ p, to_dtype p (- c)) (λ p, to_dtype p c)
    (clamp_optimizer to_dtype c o).
Proof.
  intros Hord group param x Hgroup Hparam Hx.
  unfold clamp_optimizer in Hgroup. cbn [param_groups] in Hgroup.
  apply in_map_iff in Hgroup as (group0 & <- & _).
  cbn [clamp_group params] in Hparam.
  apply in_map_iff in Hparam as (param0 & <- & _).
  cbn [clamp_ p_data p_precision] in *.
  apply in_map_iff in Hx as (x0 & Hx0 & _).
  destruct x0 as [q|]; [|discriminate]. cbn [clamp_entry] in Hx0.
  injection Hx0 as <-. apply clamp_scalar_bounds. apply Hord.
Qed.

(** Clamping neither makes nor removes NaN. *)
Lemma clamp_optimizer_nan (to_dtype : precision → Q → Q) (c : Q) (o : Optimizer) :
  nan_entries (clamp_optimizer to_dtype c o) = nan_entries o.
Proof.
  unfold nan_entries, clamp_optimizer. cbn [param_groups]. rewrite map_map.
  apply map_ext. intros g. cbn [clamp_group params options].
  rewrite map_map. apply map_ext. intros p. cbn [clamp_ p_data].
  rewrite map_map. apply map_ext. intros [q|]; reflexivity.
Qed.

(** Between bounds that equal [-c] and [c] is within [[-c, c]]. *)
Lemma params_between_exact (lo hi : precision → Q) (c : Q) (o : Optimizer) :
  (∀ p, (lo p == - c)%Q ∧ (hi p == c)%Q) →
  params_between lo hi o → params_within c o.
Proof.
  intros Hexact Hbetween group param x Hgroup Hparam Hx.
  destruct (Hbetween group param x Hgroup Hparam Hx) as [Hlo Hhi].
  destruct (Hexact (p_precision param)) as [Hl Hh]. cbv beta.
  rewrite Hl in Hlo. rewrite Hh in Hhi. auto.
Qed.

(** The optimizer updated in place is the one [state.get_key] finds again. *)
Lemma get_put_optimizer (key : option string) (state : RunnerState) (o o' : Optimizer) :
  get_optimizer key state = Ok (OneOptimizer o) →
  get_optimizer key (put_optimizer key o' state) = Ok (OneOptimizer o').
Proof.
  unfold get_optimizer, put_optimizer. destruct key as [k|].
  - destruct (optimizer state) as [o1|d]; [discriminate|].
    intros _. cbn. rewrite lookup_insert_eq. reflexivity.
  - intros Hget. destruct (optimizer state); reflexivity.
Qed.

(** The body of [on_batch_end] after the call of the parent method. *)
Lemma clamping_step_run (to_dtype : precision → Q → Q)
    (super : M (self * RunnerState) unit)
    (s : self * RunnerState) (cb1 : self) (state1 : RunnerState) :
  super s = (Ok tt, (cb1, state1)) →
  need_backward state1 = true →
  on_batch_end to_dtype super s =
    match get_optimizer (optimizer_key cb1) state1 with
    | Raise e => (Raise e, (cb1, state1))
    | Ok slot =>
        match py_mod (_accumulation_counter cb1) (accumulation_steps cb1) with
        | Raise e => (Raise e, (cb1, state1))
        | Ok r =>
            if (r =? 0)%Z then
              match slot with
              | OptimizerDict _ => (Raise (AttributeError "param_groups"), (cb1, state1))
              | OneOptimizer o =>
                  (Ok tt, (cb1, put_optimizer (optimizer_key cb1)
                                  (clamp_optimizer to_dtype (weight_clamp_value cb1) o)
                                  state1))
              end
            else (Ok tt, (cb1, state1))
        end
    end.
Proof.
  intros Hsuper Hback. unfold on_batch_end. unfold bind at 1. rewrite Hsuper.
  run_method. rewrite Hback. cbn [negb].
  destruct (get_optimizer _ _) as [slot|]; [|reflexivity].
  destruct (py_mod _ _) as [r|]; [|reflexivity].
  destruct (r =? 0)%Z; [|reflexivity]. destruct slot; reflexivity.
Qed.

Lemma to_eighths_monotone : monotone Samples.to_eighths.
Proof.
  intros p x y Hxy. unfold Samples.to_eighths.
  assert (Hfloor : (Qfloor (x * 8 + (1 # 2)) ≤ Qfloor (y * 8 + (1 # 2)))%Z).
  { apply Qfloor_resp_le. lra. }
  unfold Qle. cbn [Qnum Qden]. lia.
Qed.

(** C2, as amended. Let the parent's [on_batch_end] have run. If
    [state.need_backward] is true, the accumulation counter is a multiple
    of [accumulation_steps] and [weight_clamp_value] is not negative, then
    once [on_batch_end] has returned every parameter value of every
    parameter group of the selected optimizer that is a number (not NaN)
    lies between the two bounds [clamp_] has used: [-weight_clamp_value]
    and [weight_clamp_value] as converted to the type of the parameter,
    the conversion keeping the order of numbers. These are
    [-weight_clamp_value] and [weight_clamp_value] themselves when the
    type of the parameter has them among its values, and then the values
    lie in [[-weight_clamp_value, weight_clamp_value]]. An entry of a
    parameter is NaN afterwards exactly when it was NaN before. If
    [state.need_backward] is false, the clamping step changes nothing: the
    outcome is the one of the parent's method. *)
Theorem weight_clamping_bounds_parameters
    (to_dtype : precision → Q → Q)
    (super : M (self * RunnerState) unit) (s : self * RunnerState) :
  (∀ cb1 state1 cb' state' o,
     super s = (Ok tt, (cb1, state1)) →
     need_backward state1 = true →
     (_accumulation_counter cb1 mod accumulation_steps cb1 = 0)%Z →
     (0 <= weight_clamp_value cb1)%Q →
     monotone to_dtype →
     on_batch_end to_dtype super s = (Ok tt, (cb', state')) →
     get_optimizer (optimizer_key cb') state' = Ok (OneOptimizer o) →
     cb' = cb1
     ∧ params_between (λ p, to_dtype p (- weight_clamp_value cb'))
                      (λ p, to_dtype p (weight_clamp_value cb')) o
     ∧ ((∀ p, (to_dtype p (- weight_clamp_value cb') == - weight_clamp_value cb')%Q
              ∧ (to_dtype p (weight_clamp_value cb') == weight_clamp_value cb')%Q) →
        params_within (weight_clamp_value cb') o)
     ∧ ∃ o0, get_optimizer (optimizer_key cb1) state1 = Ok (OneOptimizer o0)
             ∧ nan_entries o = nan_entries o0)
  ∧ (∀ cb1 state1 o,
       super s = (Ok tt, (cb1, state1)) →
       need_backward state1 = true →
       accumulation_steps cb1 ≠ 0%Z →
       get_optimizer (optimizer_key cb1) state1 = Ok (OneOptimizer o) →
       ∃ state', on_batch_end to_dtype super s = (Ok tt, (cb1, state')))
  ∧ (∀ r cb1 state1,
       super s = (r, (cb1, state1)) →
       need_backward state1 = false →
       on_batch_end to_dtype super s = super s).
Proof.
  split; [|split].
  - intros cb1 state1 cb' state' o Hsuper Hback Hmult Hc Hmono Hrun Hsel.
    rewrite (clamping_step_run to_dtype super s cb1 state1 Hsuper Hback) in Hrun.
    destruct (get_optimizer (optimizer_key cb1) state1) as [slot|] eqn:Hget;
      [|discriminate].
    unfold py_mod in Hrun.
    destruct (accumulation_steps cb1 =? 0)%Z; [discriminate|].
    rewrite Hmult in Hrun. cbn [Z.eqb] in Hrun.
    destruct slot as [o0|d]; [|discriminate].
    injection Hrun as <- <-. split; [reflexivity|].
    rewrite (get_put_optimizer _ _ _ _ Hget) in Hsel. injection Hsel as <-.
    assert (Hbetween : params_between (λ p, to_dtype p (- weight_clamp_value cb1))
                         (λ p, to_dtype p (weight_clamp_value cb1))
                         (clamp_optimizer to_dtype (weight_clamp_value cb1) o0)).
    { apply clamp_optimizer_between. intros p. apply Hmono.
      apply opp_le_self. exact Hc. }
    split; [exact Hbetween|]. split.
    + intros Hexact. apply (params_between_exact _ _ _ _ Hexact Hbetween).
    + exists o0. split; [reflexivity|]. apply clamp_optimizer_nan.
  - intros cb1 state1 o Hsuper Hback Hsteps Hget.
    rewrite (clamping_step_run to_dtype super s cb1 state1 Hsuper Hback), Hget.
    unfold py_mod. rewrite (proj2 (Z.eqb_neq _ _) Hsteps).
    destruct (_ =? 0)%Z; eauto.
  - intros r cb1 state1 Hsuper Hback. unfold on_batch_end.
    unfold bind at 1. rewrite Hsuper. destruct r as [[]|e]; [|reflexivity].
    run_method. rewrite Hback. reflexivity.
Qed.

Lemma weight_clamping_bounds_parameters_witness :
  ∃ state' o,
    on_batch_end Samples.to_eighths Samples.idle_super
      (Samples.clamping (1 # 10), Samples.batch)
      = (Ok tt, (Samples.clamping (1 # 10), state'))
    ∧ get_optimizer None state' = Ok (OneOptimizer o)
    ∧ params_between (λ _, (- 1 # 8)%Q) (λ _, (1 # 8)%Q) o.
Proof.
  pose proof (weight_clamping_bounds_parameters Samples.to_eighths
                Samples.idle_super
                (Samples.clamping (1 # 10), Samples.batch)) as (Hbounds & Hruns & _).
  destruct (Hruns (Samples.clamping (1 # 10)) Samples.batch Samples.sgd)
    as [state' Hrun]; [reflexivity | reflexivity | discriminate | reflexivity |].
  exists state', (clamp_optimizer Samples.to_eighths (1 # 10) Samples.sgd).
  assert (Hsel : get_optimizer None state'
                 = Ok (OneOptimizer
                         (clamp_optimizer Samples.to_eighths (1 # 10) Samples.sgd))).
  { vm_compute in Hrun. injection Hrun as <-. reflexivity. }
  split; [exact Hrun|]. split; [exact Hsel|].
  apply (Hbounds (Samples.clamping (1 # 10)) Samples.batch
           (Samples.clamping (1 # 10)) state');
    [reflexivity | reflexivity | reflexivity | discriminate
     | exact to_eighths_monotone | exact Hrun | exact Hsel].
Defined.

(** C2 as stated fails for a negative [weight_clamp_value], which nothing
    in the callback excludes: with the value -1 the bounds passed to
    [clamp_] are [min=1] and [max=-1], every parameter that is a number
    becomes -1, and the interval [[1, -1]] holds no value at all. *)
Lemma weight_clamping_negative_value_counterexample :
  let cb := Samples.clamping (- 1) in
  let outcome :=
    on_batch_end Samples.to_eighths Samples.idle_super (cb, Samples.batch) in
  need_backward Samples.batch = true
  ∧ (_accumulation_counter cb mod accumulation_steps cb = 0)%Z
  ∧ outcome.1 = Ok tt
  ∧ get_optimizer (optimizer_key cb) outcome.2.2
    = Ok (OneOptimizer (clamp_optimizer Samples.to_eighths (- 1) Samples.sgd))
  ∧ ¬ params_within (weight_clamp_value cb)
        (clamp_optimizer Samples.to_eighths (- 1) Samples.sgd).
Proof.
  cbv zeta. repeat (split; [reflexivity|]).
  intros Hwithin.
  destruct (Hwithin (clamp_group Samples.to_eighths (- 1) Samples.group0)
              (clamp_ Samples.to_eighths (- - 1) (- 1) Samples.weight)
              (clamp_scalar (Samples.to_eighths Single (- - 1))
                 (Samples.to_eighths Single (- 1)) (1 # 2))) as [Hlow _].
  - left. reflexivity.
  - left. reflexivity.
  - left. reflexivity.
  - vm_compute in Hlow. apply Hlow. reflexivity.
Qed.

End weight_clamping.

(** ** The constructor of the visualization callback *)

Section visualization_init.
Import VisualizationCallback.

Lemma normalize_keys_rejects (arg_name : string) (v : pyval) :
  normalize_keys arg_name v = Raise (unexpected_format arg_name)
  ↔ is_key_collection v = false.
Proof.
  destruct v; cbn; try (split; [discriminate|discriminate]);
    try (split; reflexivity);
    destruct (forallb is_str items); split; discriminate.
Qed.

Lemma normalize_keys_accepts (arg_name : string) (v : pyval) (l : list string) :
  normalize_keys arg_name v = Ok l → is_key_collection v = true.
Proof. destruct v; cbn; intros; try discriminate; reflexivity. Qed.

(** The constructor once both key arguments are normalized. *)
Lemma init_after_keys (ex : example) (ik ok bf : pyval) (concat : bool)
    (max_images n_row : Z) (dn : pyval) (l1 l2 : list string) :
  normalize_keys "input_keys" ik = Ok l1 →
  normalize_keys "output_keys" ok = Ok l2 →
  __init__ ex ik ok bf concat max_images n_row dn =
    if (length l1 + length l2 =? 0)%nat then Raise useless_visualizer
    else
      match py_int bf with
      | Raise e => Raise e
      | Ok z =>
          if negb (0 <? z)%Z then Raise AssertionError
          else
            match select_denorm ex dn with
            | Raise e => Raise e
            | Ok f =>
                Ok {| input_keys := l1; output_keys := l2; batch_frequency := z;
                      concat_images := concat; max_images := max_images;
                      denorm := f; _n_row := n_row; _loader_batch_count := 0;
                      _loader_visualized_in_current_epoch := false |}
            end
      end.
Proof.
  intros H1 H2. unfold __init__, result_bind. rewrite H1, H2. reflexivity.
Qed.

Lemma select_denorm_not_useless (ex : example) (dn : pyval) :
  select_denorm ex dn ≠ Raise useless_visualizer.
Proof.
  unfold select_denorm, str_lower, result_bind.
  destruct ex, dn; cbn; repeat case_bool_decide; discriminate.
Qed.

Lemma py_int_not_useless (v : pyval) : py_int v ≠ Raise useless_visualizer.
Proof. destruct v; cbn; try discriminate. destruct (int_of_str s); discriminate. Qed.

(** C4, as amended. Whatever the arguments: the normalization turns a
    single string into a one-element list and [None] into the empty list,
    and raises [ValueError] for an argument that is not [None], a string, a
    tuple or a list - the constructor raising it for such an [input_keys],
    and for such an [output_keys] once [input_keys] has passed its own
    normalization; with both arguments normalized the constructor raises
    [ValueError] ("Useless visualizer") exactly when both lists are empty;
    and the callback it returns holds the normalized lists and a positive
    [batch_frequency], the integer conversion of the argument, a
    non-positive one being refused. *)
Theorem visualization_init_normalizes
    (ex : example) (ik ok bf : pyval) (concat : bool) (max_images n_row : Z)
    (dn : pyval) :
  let r := __init__ ex ik ok bf concat max_images n_row dn in
  (∀ name s, normalize_keys name (PyStr s) = Ok [s])
  ∧ (∀ name, normalize_keys name PyNone = Ok [])
  ∧ (∀ name v, normalize_keys name v = Raise (unexpected_format name)
               ↔ is_key_collection v = false)
  ∧ (is_key_collection ik = false → r = Raise (unexpected_format "input_keys"))
  ∧ (∀ l1, normalize_keys "input_keys" ik = Ok l1 →
           is_key_collection ok = false →
           r = Raise (unexpected_format "output_keys"))
  ∧ (∀ l1 l2, normalize_keys "input_keys" ik = Ok l1 →
              normalize_keys "output_keys" ok = Ok l2 →
              (r = Raise useless_visualizer ↔ l1 = [] ∧ l2 = []))
  ∧ (∀ cb, r = Ok cb →
           normalize_keys "input_keys" ik = Ok (input_keys cb)
           ∧ normalize_keys "output_keys" ok = Ok (output_keys cb)
           ∧ py_int bf = Ok (batch_frequency cb)
           ∧ (0 < batch_frequency cb)%Z)
  ∧ (∀ l1 l2 z, normalize_keys "input_keys" ik = Ok l1 →
                normalize_keys "output_keys" ok = Ok l2 →
                ¬ (l1 = [] ∧ l2 = []) →
                py_int bf = Ok z → (z ≤ 0)%Z →
                r = Raise AssertionError).
Proof.
  intros r. split; [reflexivity|]. split; [reflexivity|].
  split; [apply normalize_keys_rejects|]. split; [|split; [|split; [|split]]].
  - intros Hbad. apply (normalize_keys_rejects "input_keys") in Hbad.
    subst r. unfold __init__, result_bind. rewrite Hbad. reflexivity.
  - intros l1 H1 Hbad. apply (normalize_keys_rejects "output_keys") in Hbad.
    subst r. unfold __init__, result_bind. rewrite H1, Hbad. reflexivity.
  - intros l1 l2 H1 H2. subst r. rewrite (init_after_keys _ _ _ _ _ _ _ _ _ _ H1 H2).
    destruct (length l1 + length l2 =? 0)%nat eqn:Hlen.
    + apply Nat.eqb_eq in Hlen. split; [|reflexivity].
      intros _. destruct l1, l2; try discriminate. auto.
    + split; [|intros [-> ->]; discriminate Hlen].
      intros Hr. exfalso.
      destruct (py_int bf) as [z|e] eqn:Hbf;
        [|apply (py_int_not_useless bf); congruence].
      destruct (negb (0 <? z)%Z); [discriminate|].
      destruct (select_denorm ex dn) as [f|e] eqn:Hdn;
        [discriminate|apply (select_denorm_not_useless ex dn); congruence].
  - intros cb Hr. subst r. unfold __init__, result_bind in Hr.
    destruct (normalize_keys "input_keys" ik) as [l1|]; [|discriminate].
    destruct (normalize_keys "output_keys" ok) as [l2|]; [|discriminate].
    destruct (length l1 + length l2 =? 0)%nat; [discriminate|].
    destruct (py_int bf) as [z|]; [|discriminate].
    destruct (0 <? z)%Z eqn:Hz; [|discriminate]. cbn [negb] in Hr.
    destruct (select_denorm ex dn); [|discriminate].
    injection Hr as <-. cbn. apply Z.ltb_lt in Hz. auto.
  - intros l1 l2 z H1 H2 Hne Hbf Hz. subst r.
    rewrite (init_after_keys _ _ _ _ _ _ _ _ _ _ H1 H2), Hbf.
    replace (length l1 + length l2 =? 0)%nat with false.
    + rewrite (proj2 (Z.ltb_ge 0 z)) by lia. reflexivity.
    + symmetry. apply Nat.eqb_neq. intros Hlen. apply Hne.
      destruct l1, l2; try discriminate. auto.
Qed.

Lemma visualization_init_normalizes_witness :
  ∃ cb,
    __init__ mnist_gans (PyStr "data") PyNone (PyInt 25) true 20 1 (PyStr "default")
      = Ok cb
    ∧ input_keys cb = ["data"] ∧ output_keys cb = []
    ∧ (0 < batch_frequency cb)%Z
    ∧ __init__ mnist_gans PyNone (PyTuple []) (PyInt 25) true 20 1 (PyStr "default")
      = Raise useless_visualizer
    ∧ __init__ mnist_gans (PyStr "data") (PyInt 3) (PyInt 25) true 20 1 (PyStr "default")
      = Raise (unexpected_format "output_keys")
    ∧ __init__ mnist_gans (PyStr "data") PyNone (PyFloat (1 # 2)) true 20 1 (PyStr "default")
      = Raise AssertionError.
Proof.
  destruct (__init__ mnist_gans (PyStr "data") PyNone (PyInt 25) true 20 1
              (PyStr "default")) as [cb|e] eqn:Hcb; [|discriminate Hcb].
  exists cb.
  pose proof (visualization_init_normalizes mnist_gans (PyStr "data") PyNone
                (PyInt 25) true 20 1 (PyStr "default"))
    as (_ & _ & _ & _ & _ & _ & Hok & _).
  destruct (Hok cb Hcb) as (Hin & Hout & _ & Hpos). cbn in Hin, Hout.
  split; [reflexivity|]. split; [congruence|]. split; [congruence|].
  split; [exact Hpos|]. split; [|split].
  - apply (visualization_init_normalizes mnist_gans PyNone (PyTuple [])
             (PyInt 25) true 20 1 (PyStr "default")) with (l1 := []) (l2 := []);
      [reflexivity | reflexivity | auto].
  - apply (visualization_init_normalizes mnist_gans (PyStr "data") (PyInt 3)
             (PyInt 25) true 20 1 (PyStr "default")) with (l1 := ["data"]);
      reflexivity.
  - apply (visualization_init_normalizes mnist_gans (PyStr "data") PyNone
             (PyFloat (1 # 2)) true 20 1 (PyStr "default"))
      with (l1 := ["data"]) (l2 := []) (z := 0%Z);
      [reflexivity | reflexivity | intros [? _]; discriminate | reflexivity | lia].
Defined.

(** C4 as stated fails where the assertion on the items of [input_keys]
    comes first: with a list holding a non-string for [input_keys], an
    [output_keys] that is none of [None], a string, a tuple or a list is
    never looked at, and the constructor raises [AssertionError], not
    [ValueError], in each of the three copies. *)
Lemma visualization_init_assertion_counterexample :
  is_key_collection (PyInt 5) = false
  ∧ is_key_collection (PyList [PyInt 1]) = true
  ∧ ∀ ex, __init__ ex (PyList [PyInt 1]) (PyInt 5) (PyInt 25) true 20 1
            (PyStr "default")
          = Raise AssertionError.
Proof. split; [reflexivity|]. split; [reflexivity|]. intros []; reflexivity. Qed.

End visualization_init.

(** ** The denormalization *)

Section denormalization.
Import VisualizationCallback.

(** [x / 2 + .5] takes [[-1, 1]] into [[0, 1]]. *)
Lemma denorm_default_range (x : Q) :
  (- 1 <= x)%Q → (x <= 1)%Q →
  (0 <= denorm_default x)%Q ∧ (denorm_default x <= 1)%Q.
Proof.
  intros Hlo Hhi. unfold denorm_default, Qdiv, Qle in *.
  destruct x as [p q]. cbn in *. split; nia.
Qed.

Lemma denorm_default_entries (t : tensor) (i : nat) (x : Q) :
  data t !! i = Some x →
  data (denorm_default_fn t) !! i = Some (x / 2 + (1 # 2))%Q.
Proof.
  intros Hx. unfold denorm_default_fn, tensor_map. cbn [data].
  change (map denorm_default (data t)) with (denorm_default <$> data t).
  rewrite list_lookup_fmap, Hx. reflexivity.
Qed.

Lemma select_denorm_default (ex : example) :
  select_denorm ex (PyStr "default") = Ok denorm_default_fn.
Proof. destruct ex; reflexivity. Qed.

(** In the autoencoder example [None] selects the identity and everything
    but ["default"] and [None] is refused. *)
Lemma select_denorm_autoencoders (dn : pyval) :
  select_denorm autoencoders dn =
    if bool_decide (dn = PyStr "default") then Ok denorm_default_fn
    else if is_none dn then Ok denorm_identity_fn
    else Raise (ValueError "unknown denorm fn").
Proof. reflexivity. Qed.

(** In the GAN examples a string selects by its lower-case form. *)
Lemma select_denorm_gans_str (ex : example) (s : string) :
  ex ≠ autoencoders →
  select_denorm ex (PyStr s) =
    if bool_decide (lower s = "default") then Ok denorm_default_fn
    else if bool_decide (lower s = "none") then Ok denorm_identity_fn
    else Raise (ValueError "unknown denorm fn").
Proof. intros Hex. destruct ex; [reflexivity|reflexivity|contradiction]. Qed.

(** C6, at [denorm=None] in the GAN examples. The test [denorm is None]
    comes after [denorm.lower()] has been evaluated, so that [None] never
    reaches it: the choice of the denormalization raises [AttributeError]
    and the constructor returns no callback, whatever the other arguments,
    while the copy of the autoencoder example selects the identity. *)
Theorem denorm_none_in_gan_examples
    (ik ok bf : pyval) (concat : bool) (max_images n_row : Z) :
  select_denorm mnist_gans PyNone = Raise (AttributeError "lower")
  ∧ select_denorm mnist_advanced_gans PyNone = Raise (AttributeError "lower")
  ∧ (∀ cb, __init__ mnist_gans ik ok bf concat max_images n_row PyNone ≠ Ok cb)
  ∧ (∀ cb, __init__ mnist_advanced_gans ik ok bf concat max_images n_row PyNone ≠ Ok cb)
  ∧ __init__ mnist_gans (PyStr "data") PyNone (PyInt 25) true 20 1 PyNone
    = Raise (AttributeError "lower")
  ∧ select_denorm autoencoders PyNone = Ok denorm_identity_fn.
Proof.
  split; [reflexivity|]. split; [reflexivity|].
  assert (Hnone : ∀ ex, ex ≠ autoencoders → ∀ cb,
            __init__ ex ik ok bf concat max_images n_row PyNone ≠ Ok cb).
  { intros ex Hex cb. unfold __init__, result_bind.
    destruct (normalize_keys "input_keys" ik); [|discriminate].
    destruct (normalize_keys "output_keys" ok); [|discriminate].
    destruct (_ =? 0)%nat; [discriminate|].
    destruct (py_int bf) as [z|]; [|discriminate].
    destruct (negb (0 <? z)%Z); [discriminate|].
    destruct ex; [discriminate|discriminate|contradiction]. }
  split; [apply Hnone; discriminate|]. split; [apply Hnone; discriminate|].
  split; reflexivity.
Qed.

End denormalization.

(** ** The TensorBoard writer of the current loader *)

Section tensorboard_lookup.
Import VisualizationCallback.

(** In the GAN examples the lookup raises [RuntimeError] exactly when no
    writer is registered for the loader, and otherwise finds the writer of
    [state.loader_name], provided that the logger under the key has
    [loggers] at all. *)
Lemma gan_lookup_runtime_error_iff (ex : example) (state : RunnerState) :
  ex ≠ autoencoders →
  (is_runtime_error (_get_tensorboard_logger ex state) ↔ no_tensorboard_writer state)
  ∧ (¬ no_tensorboard_writer state →
     (∃ d other, loggers state = LoggerDict d
                 ∧ d !! TENSORBOARD_LOGGER_KEY = Some other
                 ∧ ∀ ws, other ≠ TensorboardLogger ws)
     ∨ ∃ w, _get_tensorboard_logger ex state
              = Ok (WriterInDict TENSORBOARD_LOGGER_KEY (loader_name state))
            ∧ writer_read (WriterInDict TENSORBOARD_LOGGER_KEY (loader_name state)) state
              = Some w).
Proof.
  intros Hex.
  assert (Hgan : _get_tensorboard_logger ex state
                 = _get_tensorboard_logger mnist_gans state)
    by (destruct ex; [reflexivity|reflexivity|contradiction]).
  rewrite Hgan. unfold _get_tensorboard_logger, no_tensorboard_writer,
    is_runtime_error, writer_read, not_found, dict_mem.
  destruct (loggers state) as [d|l].
  - destruct (d !! TENSORBOARD_LOGGER_KEY) as [[ws| |]|] eqn:Hd.
    + destruct (ws !! loader_name state) as [w|] eqn:Hw.
      * rewrite bool_decide_eq_true_2 by eauto. split.
        -- split; [intros [? [=]]|discriminate].
        -- intros _. right. exists w. auto.
      * rewrite bool_decide_eq_false_2 by (intros [? ?]; discriminate). split.
        -- split; eauto.
        -- intros Hn. contradiction.
    + split; [split; [intros [? [=]]|contradiction]|].
      intros _. left. exists d, ConsoleLogger. repeat split; [assumption|discriminate].
    + split; [split; [intros [? [=]]|contradiction]|].
      intros _. left. exists d, VerboseLogger. repeat split; [assumption|discriminate].
    + split; [split; eauto|]. intros Hn. contradiction.
  - split; [split; eauto|]. intros Hn. contradiction.
Qed.

(** The loop of [save_visualizations] raises nothing but the [IndexError]
    of a slice. *)
Lemma log_loop_outcome (ref : writer_ref) (viz : list (string * tensor))
    (s : self * RunnerState) :
  (for_each viz (log_visualization ref) s).1 = Ok tt
  ∨ (for_each viz (log_visualization ref) s).1 = Raise IndexError.
Proof.
  revert s. induction viz as [|kv viz IH]; intros s; [left; reflexivity|].
  cbn [for_each]. unfold bind at 1, log_visualization. run_method.
  unfold slice0. destruct (shape kv.2) as [|n rest]; [right; reflexivity|].
  destruct (slice_bounds n None (Some (max_images s.1))) as [lo len].
  apply IH.
Qed.

Lemma gan_save_runtime_error_iff (ex : example)
    (viz : list (string * tensor)) (s : self * RunnerState) :
  ex ≠ autoencoders →
  is_runtime_error (save_visualizations ex viz s).1 ↔ no_tensorboard_writer s.2.
Proof.
  intros Hex. rewrite <- (proj1 (gan_lookup_runtime_error_iff ex s.2 Hex)).
  unfold save_visualizations. unfold bind at 1. unfold get.
  unfold bind at 1. unfold lift.
  destruct (_get_tensorboard_logger ex s.2) as [ref|e];
    [|cbn [fst]; unfold is_runtime_error; split; intros [msg [= ->]]; eauto].
  unfold bind at 1.
  pose proof (log_loop_outcome ref viz s) as Hloop.
  destruct (for_each viz _ s) as [[[]|e] s1]; cbn [fst] in Hloop.
  - destruct ex; [| |contradiction]; cbn; split; intros [? [=]].
  - destruct Hloop as [[=]|[= ->]]. cbn. split; intros [? [=]].
Qed.

(** C7, at a state of the autoencoder example in which the TensorBoard
    logger is registered but has no writer for the current loader. The
    lookup takes [logger.loggers[state.loader_name]] unguarded and so
    raises [KeyError], not [RuntimeError], and [save_visualizations] and
    [visualize] with it; on the same registration the copy of the GAN
    examples raises [RuntimeError]. *)
Theorem autoencoder_lookup_key_error :
  let state := Samples.autoencoder_valid_only in
  ∀ cb viz,
    _get_tensorboard_logger autoencoders state = Raise (KeyError "train")
    ∧ (save_visualizations autoencoders viz (cb, state)).1 = Raise (KeyError "train")
    ∧ (compute_visualizations cb state = Ok viz →
       (visualize autoencoders (cb, state)).1 = Raise (KeyError "train"))
    ∧ ¬ is_runtime_error (save_visualizations autoencoders viz (cb, state)).1
    ∧ is_runtime_error
        (save_visualizations mnist_gans viz (cb, Samples.gan_valid_only)).1.
Proof.
  intros state cb viz.
  assert (Hsave : (save_visualizations autoencoders viz (cb, state)).1
                  = Raise (KeyError "train")) by reflexivity.
  split; [reflexivity|]. split; [exact Hsave|]. split; [|split].
  - intros Hviz. unfold visualize. unfold bind at 1. unfold get.
    unfold bind at 1. unfold lift. cbn [fst snd]. rewrite Hviz.
    unfold bind at 1.
    destruct (save_visualizations autoencoders viz (cb, state)) as [r s1].
    cbn [fst] in Hsave. subst r. reflexivity.
  - rewrite Hsave. intros [? [=]].
  - apply gan_save_runtime_error_iff; [discriminate|]. reflexivity.
Qed.

End tensorboard_lookup.

(** ** Writers and the images they receive *)

Section writers.
Import VisualizationCallback.

Lemma update_writer_is_tensorboard (f : SummaryWriter → SummaryWriter)
    (lg : Logger) (loader : string) :
  match lg with
  | TensorboardLogger ws =>
      update_writer f lg loader = TensorboardLogger (alter f loader ws)
  | _ => update_writer f lg loader = lg
  end.
Proof. destruct lg; reflexivity. Qed.

Lemma first_tensorboard_name (state state' : RunnerState) (l : list Logger) :
  loader_name state' = loader_name state →
  ∀ k, first_tensorboard state' l k = first_tensorboard state l k.
Proof.
  intros Hname. induction l as [|lg l IH]; intros k.
  - cbn. unfold not_found. rewrite Hname. reflexivity.
  - cbn [first_tensorboard]. rewrite Hname. destruct lg; auto.
Qed.

Lemma first_tensorboard_alter (f : SummaryWriter → SummaryWriter) (loader : string)
    (state state' : RunnerState) (l : list Logger) :
  loader_name state' = loader_name state →
  ∀ i k,
    first_tensorboard state' (alter (λ lg, update_writer f lg loader) i l) k
    = first_tensorboard state l k.
Proof.
  intros Hname. induction l as [|lg l IH]; intros i k.
  - destruct i; cbn; unfold not_found; rewrite Hname; reflexivity.
  - destruct i as [|i]; cbn [alter list_alter first_tensorboard].
    + destruct lg as [ws| |]; cbn [update_writer]; rewrite ?Hname.
      * destruct (decide (loader = loader_name state)) as [->|Hne].
        -- rewrite lookup_alter_eq. destruct (ws !! loader_name state); reflexivity.
        -- rewrite lookup_alter_ne by assumption. reflexivity.
      * apply first_tensorboard_name. exact Hname.
      * apply first_tensorboard_name. exact Hname.
    + rewrite Hname. destruct lg as [ws| |]; try apply IH. reflexivity.
Qed.

(** Handing images to a writer leaves the registration of the writers as
    it is: the lookup finds the same writer before and after. *)
Lemma lookup_after_update (ex : example) (ref : writer_ref)
    (f : SummaryWriter → SummaryWriter) (state : RunnerState) :
  _get_tensorboard_logger ex (writer_update ref f state)
  = _get_tensorboard_logger ex state.
Proof.
  assert (Hname : loader_name (writer_update ref f state) = loader_name state).
  { unfold writer_update. destruct ref, (loggers state); reflexivity. }
  unfold _get_tensorboard_logger, not_found. rewrite Hname.
  unfold writer_update.
  destruct ref as [key loader|i loader], (loggers state) as [d|l] eqn:Hl;
    try (rewrite Hl; reflexivity); cbn [loggers set_loggers].
  - destruct ex; try reflexivity;
      (destruct (decide (key = TENSORBOARD_LOGGER_KEY)) as [->|Hne];
       [|rewrite lookup_alter_ne by assumption; reflexivity]);
      rewrite lookup_alter_eq;
      (destruct (d !! TENSORBOARD_LOGGER_KEY) as [[ws| |]|]; try reflexivity);
      cbn [fmap option_fmap option_map update_writer]; unfold dict_mem;
      (destruct (decide (loader = loader_name state)) as [->|Hne];
       [rewrite lookup_alter_eq; destruct (ws !! loader_name state); reflexivity
       |rewrite lookup_alter_ne by assumption; reflexivity]).
  - destruct ex; try reflexivity.
    apply (first_tensorboard_alter f loader state). reflexivity.
Qed.

Lemma writer_read_update (ref : writer_ref) (f : SummaryWriter → SummaryWriter)
    (state : RunnerState) (w : SummaryWriter) :
  writer_read ref state = Some w →
  writer_read ref (writer_update ref f state) = Some (f w).
Proof.
  unfold writer_read, writer_update.
  destruct ref as [key loader|i loader], (loggers state) as [d|l] eqn:Hl;
    try discriminate; cbn [loggers set_loggers].
  - rewrite lookup_alter_eq. destruct (d !! key) as [[ws| |]|]; try discriminate.
    cbn. rewrite lookup_alter_eq. intros ->. reflexivity.
  - rewrite list_lookup_alter_eq. destruct (l !! i) as [[ws| |]|]; try discriminate.
    cbn. rewrite lookup_alter_eq. intros ->. reflexivity.
Qed.

Lemma first_tensorboard_found (state : RunnerState) (l : list Logger) :
  ∀ k ref,
    first_tensorboard state l k = Ok ref →
    ∃ i ws w, ref = WriterInList (k + i) (loader_name state)
              ∧ l !! i = Some (TensorboardLogger ws)
              ∧ ws !! loader_name state = Some w.
Proof.
  induction l as [|lg l IH]; intros k ref; [discriminate|].
  cbn [first_tensorboard].
  assert (Hnext : first_tensorboard state l (S k) = Ok ref →
                  ∃ i ws w, ref = WriterInList (k + i) (loader_name state)
                            ∧ (lg :: l) !! i = Some (TensorboardLogger ws)
                            ∧ ws !! loader_name state = Some w).
  { intros Hf. destruct (IH _ _ Hf) as (i & ws & w & -> & Hi & Hw).
    exists (S i), ws, w. split; [f_equal; lia|]. auto. }
  destruct lg as [ws| |]; try exact Hnext.
  destruct (ws !! loader_name state) as [w|] eqn:Hw; [|discriminate].
  intros [= <-]. exists 0, ws, w. rewrite Nat.add_0_r. auto.
Qed.

(** The writer the lookup returns is there. *)
Lemma lookup_finds_writer (ex : example) (state : RunnerState) (ref : writer_ref) :
  _get_tensorboard_logger ex state = Ok ref →
  ∃ w, writer_read ref state = Some w.
Proof.
  unfold _get_tensorboard_logger, writer_read, dict_mem.
  destruct (loggers state) as [d|l] eqn:Hl.
  - destruct ex; try discriminate;
      (destruct (d !! TENSORBOARD_LOGGER_KEY) as [[ws| |]|] eqn:Hd; try discriminate);
      (destruct (ws !! loader_name state) as [w|] eqn:Hw;
       [|rewrite bool_decide_eq_false_2 by (intros [? ?]; discriminate); discriminate]);
      rewrite bool_decide_eq_true_2 by eauto; intros [= <-];
      rewrite Hd, Hw; eauto.
  - destruct ex; try discriminate. intros Hf.
    destruct (first_tensorboard_found state l 0 ref Hf) as (i & ws & w & -> & Hi & Hw).
    cbn [Nat.add]. rewrite Hi, Hw. eauto.
Qed.

(** The lookup and the writers depend on the loggers and the loader name
    only. *)
Lemma lookup_depends_on_loggers (ex : example) (state state' : RunnerState) :
  loggers state' = loggers state →
  loader_name state' = loader_name state →
  _get_tensorboard_logger ex state' = _get_tensorboard_logger ex state
  ∧ images_logged ex state' = images_logged ex state.
Proof.
  intros Hl Hn.
  assert (Hlookup : _get_tensorboard_logger ex state'
                    = _get_tensorboard_logger ex state).
  { unfold _get_tensorboard_logger, not_found. rewrite Hl, Hn.
    destruct ex, (loggers state); try reflexivity.
    apply first_tensorboard_name. exact Hn. }
  split; [exact Hlookup|]. unfold images_logged, writer_read.
  rewrite Hlookup, Hl. reflexivity.
Qed.

End writers.

(** ** What a visualization does to the state *)

Section visualize.
Import VisualizationCallback.

Lemma same_outside_loggers_update (ref : writer_ref)
    (f : SummaryWriter → SummaryWriter) (state : RunnerState) :
  same_outside_loggers state (writer_update ref f state).
Proof.
  unfold same_outside_loggers, writer_update.
  destruct ref, (loggers state); repeat split; reflexivity.
Qed.

Lemma same_outside_loggers_trans (a b c : RunnerState) :
  same_outside_loggers a b → same_outside_loggers b c → same_outside_loggers a c.
Proof.
  unfold same_outside_loggers. intros (?&?&?&?&?&?&?) (?&?&?&?&?&?&?).
  repeat split; congruence.
Qed.

Lemma log_visualization_run (ref : writer_ref) (kv : string * tensor)
    (s : self * RunnerState) :
  log_visualization ref kv s =
    match slice0 kv.2 None (Some (max_images s.1)) with
    | Ok batch_images =>
        (Ok tt, (s.1, writer_update ref
                        (add_image kv.1 (make_grid batch_images (_n_row s.1)) (step s.2))
                        s.2))
    | Raise e => (Raise e, s)
    end.
Proof.
  unfold log_visualization. run_method. destruct (slice0 _ _ _); reflexivity.
Qed.

Lemma log_loop_cons (ref : writer_ref) (kv : string * tensor)
    (viz : list (string * tensor)) (s : self * RunnerState) :
  for_each (kv :: viz) (log_visualization ref) s =
    match slice0 kv.2 None (Some (max_images s.1)) with
    | Ok batch_images =>
        for_each viz (log_visualization ref)
          (s.1, writer_update ref
                  (add_image kv.1 (make_grid batch_images (_n_row s.1)) (step s.2))
                  s.2)
    | Raise e => (Raise e, s)
    end.
Proof.
  cbn [for_each]. unfold bind. rewrite log_visualization_run.
  destruct (slice0 _ _ _); reflexivity.
Qed.

(** The loop of [save_visualizations] hands one image per item to the
    writer and touches nothing else. *)
Lemma log_loop_spec (ref : writer_ref) (viz : list (string * tensor)) :
  ∀ (s : self * RunnerState) (w : SummaryWriter),
    writer_read ref s.2 = Some w →
    let r := for_each viz (log_visualization ref) s in
    r.2.1 = s.1
    ∧ same_outside_loggers s.2 r.2.2
    ∧ (∀ ex, _get_tensorboard_logger ex r.2.2 = _get_tensorboard_logger ex s.2)
    ∧ ∃ w', writer_read ref r.2.2 = Some w'
            ∧ length (images w) ≤ length (images w')
            ∧ (r.1 = Ok tt → length (images w') = length (images w) + length viz).
Proof.
  induction viz as [|kv viz IH]; intros s w Hw; cbv zeta.
  - cbn. split; [reflexivity|]. split; [repeat split|]. split; [reflexivity|].
    exists w. split; [assumption|]. split; lia.
  - rewrite log_loop_cons.
    destruct (slice0 kv.2 None (Some (max_images s.1))) as [b|e].
    + set (f := add_image kv.1 (make_grid b (_n_row s.1)) (step s.2)).
      pose proof (writer_read_update ref f s.2 w Hw) as Hw1.
      destruct (IH (s.1, writer_update ref f s.2) (f w) Hw1)
        as (Hcb & Hsame & Hlookup & w' & Hw' & Hle & Hlen).
      cbn [fst snd] in *.
      destruct (for_each viz (log_visualization ref) (s.1, writer_update ref f s.2))
        as [r s'] eqn:Hrun.
      cbn [fst snd] in *.
      assert (Hgrow : length (images (f w)) = S (length (images w))).
      { unfold f, add_image. cbn [images]. rewrite length_app. cbn. lia. }
      assert (Hres : s'.1 = s.1
                ∧ same_outside_loggers s.2 s'.2
                ∧ (∀ ex, _get_tensorboard_logger ex s'.2 = _get_tensorboard_logger ex s.2)
                ∧ ∃ w'0, writer_read ref s'.2 = Some w'0
                         ∧ length (images w) ≤ length (images w'0)
                         ∧ (r = Ok tt → length (images w'0)
                                        = length (images w) + length (kv :: viz))).
      { split; [exact Hcb|]. split.
        { eapply same_outside_loggers_trans; [apply same_outside_loggers_update|exact Hsame]. }
        split.
        { intros ex. rewrite Hlookup. apply lookup_after_update. }
        exists w'. split; [exact Hw'|]. split; [lia|].
        intros Hr. rewrite (Hlen Hr). cbn [length]. lia. }
      exact Hres.
    + cbn [fst snd]. split; [reflexivity|]. split; [repeat split|].
      split; [reflexivity|]. exists w. split; [assumption|]. split; [lia|].
      discriminate.
Qed.

Lemma save_visualizations_run (ex : example) (viz : list (string * tensor))
    (s : self * RunnerState) :
  save_visualizations ex viz s =
    match _get_tensorboard_logger ex s.2 with
    | Raise e => (Raise e, s)
    | Ok ref =>
        match for_each viz (log_visualization ref) s with
        | (Ok _, s1) =>
            (Ok tt, (s1.1, match ex with
                           | autoencoders => writer_update ref flush s1.2
                           | _ => s1.2
                           end))
        | (Raise e, s1) => (Raise e, s1)
        end
    end.
Proof.
  unfold save_visualizations. run_method.
  destruct (_get_tensorboard_logger ex s.2) as [ref|e]; [|reflexivity].
  destruct (for_each viz (log_visualization ref) s) as [[[]|e] [cb1 st1]];
    [|reflexivity].
  destruct ex; reflexivity.
Qed.

Lemma save_visualizations_spec (ex : example) (viz : list (string * tensor))
    (s : self * RunnerState) :
  let r := save_visualizations ex viz s in
  r.2.1 = s.1
  ∧ same_outside_loggers s.2 r.2.2
  ∧ (∀ ex', _get_tensorboard_logger ex' r.2.2 = _get_tensorboard_logger ex' s.2)
  ∧ images_logged ex s.2 ≤ images_logged ex r.2.2
  ∧ (r.1 = Ok tt → images_logged ex r.2.2 = images_logged ex s.2 + length viz).
Proof.
  cbv zeta. rewrite save_visualizations_run.
  destruct (_get_tensorboard_logger ex s.2) as [ref|e] eqn:Href.
  2:{ cbn [fst snd]. split; [reflexivity|]. split; [repeat split|].
      split; [reflexivity|]. split; [lia|discriminate]. }
  destruct (lookup_finds_writer ex s.2 ref Href) as [w Hw].
  destruct (log_loop_spec ref viz s w Hw) as (Hcb & Hsame & Hlookup & w' & Hw' & Hle & Hlen).
  destruct (for_each viz (log_visualization ref) s) as [r s1].
  cbn [fst snd] in *.
  assert (Hbefore : images_logged ex s.2 = length (images w)).
  { unfold images_logged. rewrite Href, Hw. reflexivity. }
  destruct r as [[]|e]; cbn [fst snd].
  - set (s2 := match ex with
               | autoencoders => writer_update ref flush s1.2
               | _ => s1.2
               end).
    assert (Hs2 : same_outside_loggers s1.2 s2
                  ∧ (∀ ex', _get_tensorboard_logger ex' s2
                            = _get_tensorboard_logger ex' s1.2)
                  ∧ ∃ w2, writer_read ref s2 = Some w2 ∧ images w2 = images w').
    { subst s2. destruct ex;
        try (split; [repeat split|split; [reflexivity|eauto]]).
      split; [apply same_outside_loggers_update|].
      split; [intros ex'; apply lookup_after_update|].
      exists (flush w'). split; [apply writer_read_update; exact Hw'|reflexivity]. }
    destruct Hs2 as (Hsame2 & Hlookup2 & w2 & Hw2 & Himg).
    assert (Hafter : images_logged ex s2 = length (images w')).
    { unfold images_logged. rewrite Hlookup2, Hlookup, Href, Hw2, Himg. reflexivity. }
    split; [exact Hcb|].
    split; [eapply same_outside_loggers_trans; eassumption|].
    split; [intros ex'; rewrite Hlookup2; apply Hlookup|].
    rewrite Hbefore, Hafter. split; [exact Hle|]. intros _. apply Hlen. reflexivity.
  - assert (Hafter : images_logged ex s1.2 = length (images w')).
    { unfold images_logged. rewrite Hlookup, Href, Hw'. reflexivity. }
    split; [exact Hcb|]. split; [exact Hsame|]. split; [exact Hlookup|].
    rewrite Hbefore, Hafter. split; [exact Hle|discriminate].
Qed.

(** [visualize] once the visualizations are computed. *)
Lemma visualize_run (ex : example) (s : self * RunnerState) :
  visualize ex s =
    match compute_visualizations s.1 s.2 with
    | Raise e => (Raise e, s)
    | Ok viz =>
        match save_visualizations ex viz s with
        | (Ok _, s1) => (Ok tt, (set_visualized true s1.1, s1.2))
        | (Raise e, s1) => (Raise e, s1)
        end
    end.
Proof.
  unfold visualize. run_method.
  destruct (compute_visualizations s.1 s.2) as [viz|e]; [|reflexivity].
  destruct (save_visualizations ex viz s) as [[[]|e] [cb1 st1]]; reflexivity.
Qed.

(** A visualization that returns has set the flag and handed its images to
    the writer of the loader; whether it returns or raises, it keeps the
    settings and the batch counter of the callback and touches nothing of
    the state but the loggers. *)
Lemma visualize_spec (ex : example) (s : self * RunnerState) :
  let r := visualize ex s in
  same_config r.2.1 s.1
  ∧ _loader_batch_count r.2.1 = _loader_batch_count s.1
  ∧ same_outside_loggers s.2 r.2.2
  ∧ (∀ ex', _get_tensorboard_logger ex' r.2.2 = _get_tensorboard_logger ex' s.2)
  ∧ images_logged ex s.2 ≤ images_logged ex r.2.2
  ∧ match r.1 with
    | Ok _ =>
        _loader_visualized_in_current_epoch r.2.1 = true
        ∧ ∃ viz, compute_visualizations s.1 s.2 = Ok viz
                 ∧ images_logged ex r.2.2 = images_logged ex s.2 + length viz
    | Raise _ =>
        _loader_visualized_in_current_epoch r.2.1
        = _loader_visualized_in_current_epoch s.1
    end.
Proof.
  cbv zeta. rewrite visualize_run.
  destruct (compute_visualizations s.1 s.2) as [viz|e] eqn:Hviz.
  2:{ cbn [fst snd]. split; [repeat split|]. split; [reflexivity|].
      split; [repeat split|]. split; [reflexivity|]. split; [lia|reflexivity]. }
  destruct (save_visualizations_spec ex viz s) as (Hcb & Hsame & Hlookup & Hle & Hlen).
  destruct (save_visualizations ex viz s) as [r s1]. cbn [fst snd] in *.
  destruct r as [[]|e]; cbn [fst snd].
  - rewrite Hcb. split; [repeat split|]. split; [reflexivity|].
    split; [exact Hsame|]. split; [exact Hlookup|]. split; [exact Hle|].
    split; [reflexivity|]. exists viz. split; [reflexivity|]. apply Hlen. reflexivity.
  - rewrite Hcb. split; [repeat split|]. split; [reflexivity|].
    split; [exact Hsame|]. split; [exact Hlookup|]. split; [exact Hle|reflexivity].
Qed.

End visualize.

(** ** The batch counter and the visualized flag *)

Section batch_counter.
Import VisualizationCallback.

Lemma on_batch_end_run (ex : example) (s : self * RunnerState) :
  (0 < batch_frequency s.1)%Z →
  on_batch_end ex s =
    let count := (_loader_batch_count s.1 + 1)%Z in
    if due (batch_frequency s.1) count
    then visualize ex (set_count count s.1, s.2)
    else (Ok tt, (set_count count s.1, s.2)).
Proof.
  intros Hpos. unfold on_batch_end, py_mod, due. run_method.
  cbn [fst snd set_count batch_frequency _loader_batch_count].
  rewrite (proj2 (Z.eqb_neq (batch_frequency s.1) 0)) by lia.
  destruct (negb _); reflexivity.
Qed.

Lemma due_iff_not_multiple (bf count : Z) :
  (0 < bf)%Z → due bf count = true ↔ ¬ (bf | count)%Z.
Proof.
  intros Hpos. unfold due. rewrite negb_true_iff, Z.eqb_neq.
  rewrite Z.mod_divide by lia. reflexivity.
Qed.

Lemma div_succ (bf m : Z) :
  (0 < bf)%Z →
  ((m + 1) / bf = m / bf + if ((m + 1) mod bf =? 0)%Z then 1 else 0)%Z.
Proof.
  intros Hpos. destruct (Z.eqb_spec ((m + 1) mod bf) 0) as [Hz|Hnz];
    Z.div_mod_to_equations; nia.
Qed.

(** Among the counter values [n + 1, ..., n + k] the multiples of the
    frequency number [(n + k) / bf - n / bf]. *)
Lemma multiples_in_window (bf n : Z) (k : nat) :
  (0 < bf)%Z →
  Z.of_nat (length (List.filter (λ c, negb (due bf c))
                      (map (λ i, (n + Z.of_nat i)%Z) (seq 1 k))))
  = ((n + Z.of_nat k) / bf - n / bf)%Z.
Proof.
  intros Hpos. induction k as [|k IH].
  - cbn [seq map List.filter length]. rewrite Z.add_0_r. lia.
  - rewrite seq_S, map_app, List.filter_app, List.length_app, Nat2Z.inj_add, IH.
    cbn [map List.filter]. unfold due at 1. rewrite negb_involutive.
    replace (n + Z.of_nat (S k))%Z with ((n + Z.of_nat k) + 1)%Z by lia.
    replace (n + Z.of_nat (1 + k))%Z with ((n + Z.of_nat k) + 1)%Z by lia.
    rewrite (div_succ bf (n + Z.of_nat k) Hpos).
    destruct (((n + Z.of_nat k + 1) mod bf =? 0)%Z); cbn [length]; lia.
Qed.

Lemma filter_split {A} (f : A → bool) (l : list A) :
  length (List.filter f l) + length (List.filter (λ x, negb (f x)) l) = length l.
Proof.
  induction l as [|x l IH]; [reflexivity|].
  cbn [List.filter]. destruct (f x); cbn [negb length]; lia.
Qed.

(** Of any [bf] batches in a row, all but one are due. *)
Lemma due_in_window (bf n : Z) :
  (0 < bf)%Z →
  length (List.filter (due bf)
            (map (λ i, (n + Z.of_nat i)%Z) (seq 1 (Z.to_nat bf))))
  = Z.to_nat bf - 1.
Proof.
  intros Hpos.
  pose proof (multiples_in_window bf n (Z.to_nat bf) Hpos) as Hmult.
  pose proof (filter_split (due bf)
                (map (λ i, (n + Z.of_nat i)%Z) (seq 1 (Z.to_nat bf)))) as Hsplit.
  rewrite length_map, length_seq in Hsplit.
  rewrite Z2Nat.id in Hmult by lia.
  replace (n + bf)%Z with (n + 1 * bf)%Z in Hmult by lia.
  rewrite Z.div_add in Hmult by lia. lia.
Qed.

End batch_counter.

(** ** Loader passes *)

Section loader_pass.
Import VisualizationCallback.










Lemma load_batch_images (ex : example) (b : batch_io) (state : RunnerState) :
  images_logged ex (load_batch b state) = images_logged ex state.
Proof. apply lookup_depends_on_loggers; reflexivity. Qed.






End loader_pass.

(** ** Counting the visualizations of a run of batches *)

Section batch_runs.
Import VisualizationCallback.

(** With [concat_images] a visualization is one image. *)
Lemma concat_visualization_single (cb : self) (state : RunnerState)
    (viz : list (string * tensor)) :
  concat_images cb = true →
  compute_visualizations cb state = Ok viz →
  length viz = 1.
Proof.
  unfold compute_visualizations, result_bind. intros ->.
  destruct (dict_get_all _ _); [|discriminate].
  destruct (dict_get_all _ _); [|discriminate].
  destruct (cat _ _); [|discriminate]. intros [= <-]. reflexivity.
Qed.

Lemma on_batch_end_images (ex : example) (s s' : self * RunnerState) :
  (0 < batch_frequency s.1)%Z →
  concat_images s.1 = true →
  on_batch_end ex s = (Ok tt, s') →
  same_config s'.1 s.1
  ∧ _loader_batch_count s'.1 = (_loader_batch_count s.1 + 1)%Z
  ∧ images_logged ex s'.2
    = images_logged ex s.2
      + (if due (batch_frequency s.1) (_loader_batch_count s.1 + 1) then 1 else 0).
Proof.
  intros Hpos Hconcat. rewrite on_batch_end_run by exact Hpos. cbv zeta.
  destruct (due _ _).
  - intros Hrun.
    destruct (visualize_spec ex (set_count (_loader_batch_count s.1 + 1) s.1, s.2))
      as (Hcfg & Hcount & _ & _ & _ & Hok).
    rewrite Hrun in Hcfg, Hcount, Hok. cbn [fst snd] in *.
    destruct Hok as (_ & viz & Hviz & Himg).
    rewrite (concat_visualization_single _ _ _ Hconcat Hviz) in Himg.
    split; [exact Hcfg|]. split; [exact Hcount|exact Himg].
  - intros [= <-]. cbn [fst snd]. split; [repeat split|]. split; [reflexivity|lia].
Qed.

(** A run of batches that returns has handed the writer one image for
    every batch that was due. *)
Lemma run_batches_images (ex : example) (bs : list batch_io) :
  ∀ s s',
    (0 < batch_frequency s.1)%Z →
    concat_images s.1 = true →
    run_batches ex bs s = (Ok tt, s') →
    images_logged ex s'.2
    = images_logged ex s.2
      + length (List.filter (due (batch_frequency s.1))
                  (map (λ i, (_loader_batch_count s.1 + Z.of_nat i)%Z)
                       (seq 1 (length bs)))).
Proof.
  unfold run_batches. induction bs as [|b bs IH]; intros s s' Hpos Hconcat.
  - intros [= <-]. cbn. lia.
  - cbn [for_each]. unfold bind at 1 2. unfold modify at 1.
    destruct (on_batch_end ex (s.1, load_batch b s.2)) as [[[]|e] s1] eqn:Hstep;
      [|discriminate].
    intros Hrest.
    apply on_batch_end_images in Hstep as (Hcfg & Hcount & Himg);
      [|exact Hpos|exact Hconcat].
    cbn [fst snd] in Hcfg, Hcount, Himg. rewrite load_batch_images in Himg.
    destruct Hcfg as (_ & _ & Hbf & Hcc & _).
    rewrite (IH s1 s') by (try exact Hrest; congruence).
    rewrite Himg, Hbf, Hcount.
    cbn [length seq map List.filter].
    rewrite <- (seq_shift (length bs) 1), map_map.
    replace (_loader_batch_count s.1 + Z.of_nat 1)%Z
      with (_loader_batch_count s.1 + 1)%Z by lia.
    rewrite (map_ext (λ i, (_loader_batch_count s.1 + Z.of_nat (S i))%Z)
                     (λ i, (_loader_batch_count s.1 + 1 + Z.of_nat i)%Z))
      by (intros; lia).
    destruct (due _ _); cbn [length]; lia.
Qed.

(** C8. For a positive [batch_frequency], [on_batch_end] increments the
    batch counter of the loader - also when the visualization raises - and
    calls [visualize] exactly when the incremented counter is not a
    multiple of [batch_frequency], the test being that
    [count % batch_frequency] is not zero; hence of any [batch_frequency]
    batches in a row all but one are visualized, 24 of every 25 with
    [batch_frequency = 25], and a run of that many batches that returns
    has handed the writer that many images (one per visualization, with
    [concat_images]). *)
Theorem on_batch_end_visualizes_off_multiples
    (ex : example) (cb : self) (state : RunnerState) :
  (0 < batch_frequency cb)%Z →
  let count := (_loader_batch_count cb + 1)%Z in
  let r := on_batch_end ex (cb, state) in
  _loader_batch_count r.2.1 = count
  ∧ r = (if due (batch_frequency cb) count
         then visualize ex (set_count count cb, state)
         else (Ok tt, (set_count count cb, state)))
  ∧ (due (batch_frequency cb) count = true ↔ (count mod batch_frequency cb ≠ 0)%Z)
  ∧ (due (batch_frequency cb) count = true ↔ ¬ (batch_frequency cb | count)%Z)
  ∧ (∀ n, length (List.filter (due (batch_frequency cb))
                    (map (λ i, (n + Z.of_nat i)%Z)
                         (seq 1 (Z.to_nat (batch_frequency cb)))))
          = Z.to_nat (batch_frequency cb) - 1)
  ∧ (∀ n, length (List.filter (due 25)
                    (map (λ i, (n + Z.of_nat i)%Z) (seq 1 25))) = 24)
  ∧ (∀ bs s',
       concat_images cb = true →
       length bs = Z.to_nat (batch_frequency cb) →
       run_batches ex bs (cb, state) = (Ok tt, s') →
       images_logged ex s'.2
       = images_logged ex state + (Z.to_nat (batch_frequency cb) - 1)).
Proof.
  intros Hpos count r.
  assert (Hrun : r = (if due (batch_frequency cb) count
                      then visualize ex (set_count count cb, state)
                      else (Ok tt, (set_count count cb, state)))).
  { subst r. rewrite on_batch_end_run by exact Hpos. reflexivity. }
  split; [|split; [exact Hrun|split; [|split; [|split; [|split]]]]].
  - rewrite Hrun. destruct (due (batch_frequency cb) count); [|reflexivity].
    destruct (visualize_spec ex (set_count count cb, state)) as (_ & Hcount & _).
    exact Hcount.
  - unfold due. rewrite negb_true_iff, Z.eqb_neq. reflexivity.
  - apply due_iff_not_multiple. exact Hpos.
  - intros n. apply due_in_window. exact Hpos.
  - intros n. apply (due_in_window 25 n). lia.
  - intros bs s' Hconcat Hlen Hbs.
    rewrite (run_batches_images ex bs (cb, state) s' Hpos Hconcat Hbs).
    cbn [fst snd]. rewrite Hlen, due_in_window by exact Hpos. reflexivity.
Qed.

Lemma on_batch_end_visualizes_off_multiples_witness :
  _loader_batch_count
    (on_batch_end mnist_gans (Samples.visualizer, Samples.batch)).2.1 = 1%Z
  ∧ on_batch_end mnist_gans (Samples.visualizer, Samples.batch)
    = visualize mnist_gans (set_count 1 Samples.visualizer, Samples.batch)
  ∧ ∃ s', run_batches mnist_gans (replicate 25 Samples.next_batch)
            (Samples.visualizer, Samples.batch) = (Ok tt, s')
          ∧ images_logged mnist_gans s'.2 = 24.
Proof.
  pose proof (on_batch_end_visualizes_off_multiples mnist_gans Samples.visualizer
                Samples.batch eq_refl) as (Hcount & Hrun & _ & _ & _ & _ & Himages).
  split; [exact Hcount|]. split; [exact Hrun|].
  destruct (run_batches mnist_gans (replicate 25 Samples.next_batch)
              (Samples.visualizer, Samples.batch)) as [[[]|e] s'] eqn:Hbs;
    [|vm_compute in Hbs; discriminate Hbs].
  exists s'. split; [reflexivity|].
  apply (Himages (replicate 25 Samples.next_batch) s' eq_refl eq_refl Hbs).
Defined.

End batch_runs.

Section loader_pass_example.
Import VisualizationCallback.


End loader_pass_example.

Section evaluations.
Import VisualizationCallback.

Lemma denorm_none_in_gan_examples_witness :
  __init__ mnist_gans (PyStr "data") (PyStr "generated") (PyInt 25) true 20 1 PyNone
    = Raise (AttributeError "lower")
  ∧ ∃ cb, __init__ autoencoders (PyStr "data") (PyStr "generated") (PyInt 25)
            true 20 1 PyNone = Ok cb
          ∧ denorm cb Samples.images2 = Samples.images2.
Proof.
  split.
  - destruct (__init__ mnist_gans (PyStr "data") (PyStr "generated") (PyInt 25)
                true 20 1 PyNone) as [cb|e] eqn:Hinit; [|vm_compute in Hinit; congruence].
    exfalso.
    apply (proj1 (proj2 (proj2 (denorm_none_in_gan_examples
             (PyStr "data") (PyStr "generated") (PyInt 25) true 20 1))) cb Hinit).
  - eexists. split; reflexivity.
Defined.

Lemma autoencoder_lookup_key_error_witness :
  (visualize autoencoders
     (Samples.input_visualizer, Samples.autoencoder_valid_only)).1
  = Raise (KeyError "train").
Proof.
  destruct (compute_visualizations Samples.input_visualizer
              Samples.autoencoder_valid_only) as [viz|e] eqn:Hviz;
    [|vm_compute in Hviz; discriminate Hviz].
  apply (autoencoder_lookup_key_error Samples.input_visualizer viz). exact Hviz.
Defined.

End evaluations.

(** * Further properties of the callbacks *)

(** ** Preparing the batch input *)

Section batch_input.

Lemma get_batch_size_run (key : string) (state : RunnerState) :
  get_batch_size key state =
    (match input state !! key with
     | None => Raise AssertionError
     | Some t => size0 t
     end, state).
Proof.
  unfold get_batch_size, dict_mem, dict_get. run_method.
  destruct (input state !! key) as [t|].
  - rewrite bool_decide_eq_true_2 by eauto. destruct (size0 t); reflexivity.
  - rewrite bool_decide_eq_false_2 by (intros [? ?]; discriminate). reflexivity.
Qed.

Lemma dict_mem_false {V} (d : gmap string V) (key : string) :
  dict_mem d key = false ↔ d !! key = None.
Proof.
  unfold dict_mem. destruct (d !! key) as [v|].
  - rewrite bool_decide_eq_true_2 by eauto. split; discriminate.
  - rewrite bool_decide_eq_false_2 by (intros [? ?]; discriminate). tauto.
Qed.

Lemma real_fake_on_batch_start_run (cb : AddRealFakeTargetsCallback.self)
    (state : RunnerState) :
  AddRealFakeTargetsCallback.on_batch_start cb state =
    if dict_mem (input state) (AddRealFakeTargetsCallback.real_targets_key cb)
       || dict_mem (input state) (AddRealFakeTargetsCallback.fake_targets_key cb)
    then (Raise AssertionError, state)
    else
      match (get_batch_size (AddRealFakeTargetsCallback.data_key cb) state).1 with
      | Raise e => (Raise e, state)
      | Ok n =>
          let zero := AddRealFakeTargetsCallback.fake_targets_zero cb in
          (Ok tt,
           set_input (λ d,
             <[AddRealFakeTargetsCallback.fake_targets_key cb :=
                 if zero then torch_zeros [n; 1] else torch_ones [n; 1]]>
               (<[AddRealFakeTargetsCallback.real_targets_key cb :=
                    if zero then torch_ones [n; 1] else torch_zeros [n; 1]]> d))
             state)
      end.
Proof.
  unfold AddRealFakeTargetsCallback.on_batch_start, input_store.
  unfold bind at 1. unfold get at 1. unfold bind at 1. unfold assert at 1.
  destruct (dict_mem (input state) (AddRealFakeTargetsCallback.real_targets_key cb));
    [reflexivity|].
  cbn [negb orb]. unfold ret at 1. unfold bind at 1. unfold assert at 1.
  destruct (dict_mem (input state) (AddRealFakeTargetsCallback.fake_targets_key cb));
    [reflexivity|].
  cbn [negb]. unfold ret at 1. unfold bind at 1.
  rewrite get_batch_size_run. cbn [fst].
  destruct (match input state !! _ with Some t => size0 t | None => _ end) as [n|e];
    [|reflexivity].
  unfold bind, modify. reflexivity.
Qed.

Lemma replicate_entries (n : nat) (x : Q) (i : nat) :
  i < n → replicate n x !! i = Some x.
Proof. intros Hi. apply lookup_replicate_2. exact Hi. Qed.

(** The real and the fake targets: with data under [data_key] and both
    target keys free and distinct, [on_batch_start] stores two tensors of
    shape [(batch_size, 1)], all ones for the real targets and all zeros
    for the fake ones, or the other way round when [fake_targets_zero] is
    false; entry by entry they add up to 1, and the other entries of
    [state.input] stay as they were. *)
Theorem real_fake_targets_stored
    (cb : AddRealFakeTargetsCallback.self) (state : RunnerState)
    (batch : tensor) (batch_size : nat) (rest : list nat) :
  let real_key := AddRealFakeTargetsCallback.real_targets_key cb in
  let fake_key := AddRealFakeTargetsCallback.fake_targets_key cb in
  let zero := AddRealFakeTargetsCallback.fake_targets_zero cb in
  input state !! AddRealFakeTargetsCallback.data_key cb = Some batch →
  shape batch = batch_size :: rest →
  input state !! real_key = None →
  input state !! fake_key = None →
  real_key ≠ fake_key →
  ∃ state' real fake,
    AddRealFakeTargetsCallback.on_batch_start cb state = (Ok tt, state')
    ∧ input state' !! real_key = Some real
    ∧ input state' !! fake_key = Some fake
    ∧ shape real = [batch_size; 1] ∧ shape fake = [batch_size; 1]
    ∧ tensor_wf real ∧ tensor_wf fake
    ∧ (∀ i, i < batch_size →
         data real !! i = Some (if zero then 1%Q else 0%Q)
         ∧ data fake !! i = Some (if zero then 0%Q else 1%Q))
    ∧ (∀ key, key ≠ real_key → key ≠ fake_key →
         input state' !! key = input state !! key).
Proof.
  intros real_key fake_key zero Hdata Hsh Hreal Hfake Hne.
  rewrite real_fake_on_batch_start_run, get_batch_size_run.
  fold real_key fake_key zero.
  rewrite (proj2 (dict_mem_false _ real_key) Hreal),
          (proj2 (dict_mem_false _ fake_key) Hfake).
  cbn [orb fst]. rewrite Hdata. unfold size0. rewrite Hsh. cbv zeta.
  eexists _, _, _. split; [reflexivity|]. cbn [input set_input].
  split; [rewrite lookup_insert_ne by congruence; apply lookup_insert_eq|].
  split; [apply lookup_insert_eq|].
  assert (Hnumel : numel_of [batch_size; 1] = batch_size) by (cbn; lia).
  destruct zero; cbn [shape data torch_ones torch_zeros];
    (split; [reflexivity|]); (split; [reflexivity|]);
    (split; [unfold tensor_wf; cbn [data shape]; apply length_replicate|]);
    (split; [unfold tensor_wf; cbn [data shape]; apply length_replicate|]);
    (split; [intros i Hi; rewrite Hnumel; split; apply replicate_entries; exact Hi|]);
    intros key H1 H2; rewrite !lookup_insert_ne by congruence; reflexivity.
Qed.

Lemma real_fake_targets_stored_witness :
  ∃ state' real fake,
    AddRealFakeTargetsCallback.on_batch_start
      (AddRealFakeTargetsCallback.__init__ "data" "real_targets" "fake_targets" true)
      Samples.batch = (Ok tt, state')
    ∧ input state' !! "real_targets" = Some real
    ∧ input state' !! "fake_targets" = Some fake
    ∧ data real = [1; 1]%Q ∧ data fake = [0; 0]%Q.
Proof.
  destruct (real_fake_targets_stored
              (AddRealFakeTargetsCallback.__init__ "data" "real_targets" "fake_targets" true)
              Samples.batch Samples.images2 2 [1; 1; 1])
    as (state' & real & fake & Hrun & Hreal & Hfake & _);
    [reflexivity | reflexivity | reflexivity | reflexivity | discriminate |].
  exists state', real, fake. split; [exact Hrun|].
  split; [exact Hreal|]. split; [exact Hfake|].
  vm_compute in Hrun. injection Hrun as <-.
  vm_compute in Hreal, Hfake. injection Hreal as <-. injection Hfake as <-.
  split; reflexivity.
Defined.

(** When the two target keys are the same key, the fake targets, stored
    last, are what the key holds afterwards: the real targets are lost. *)
Theorem real_fake_targets_same_key
    (cb : AddRealFakeTargetsCallback.self) (state : RunnerState)
    (batch : tensor) (batch_size : nat) (rest : list nat) :
  input state !! AddRealFakeTargetsCallback.data_key cb = Some batch →
  shape batch = batch_size :: rest →
  input state !! AddRealFakeTargetsCallback.real_targets_key cb = None →
  AddRealFakeTargetsCallback.fake_targets_key cb
    = AddRealFakeTargetsCallback.real_targets_key cb →
  ∃ state',
    AddRealFakeTargetsCallback.on_batch_start cb state = (Ok tt, state')
    ∧ input state' !! AddRealFakeTargetsCallback.real_targets_key cb
      = Some (if AddRealFakeTargetsCallback.fake_targets_zero cb
              then torch_zeros [batch_size; 1] else torch_ones [batch_size; 1]).
Proof.
  intros Hdata Hsh Hreal Hsame.
  rewrite real_fake_on_batch_start_run, get_batch_size_run, Hsame.
  rewrite (proj2 (dict_mem_false _ _) Hreal).
  cbn [orb fst]. rewrite Hdata. unfold size0. rewrite Hsh. cbv zeta.
  eexists. split; [reflexivity|]. cbn [input set_input]. apply lookup_insert_eq.
Qed.

Lemma real_fake_targets_same_key_witness :
  ∃ state',
    AddRealFakeTargetsCallback.on_batch_start
      (AddRealFakeTargetsCallback.__init__ "data" "targets" "targets" true)
      Samples.batch = (Ok tt, state')
    ∧ input state' !! "targets" = Some (torch_zeros [2; 1]).
Proof.
  apply (real_fake_targets_same_key
           (AddRealFakeTargetsCallback.__init__ "data" "targets" "targets" true)
           Samples.batch Samples.images2 2 [1; 1; 1]); reflexivity.
Defined.

Lemma add_batch_noise_run (cb : AddBatchNoiseCallback.self) (draws : nat → Q)
    (state : RunnerState) :
  AddBatchNoiseCallback.on_batch_start cb draws state =
    match (get_batch_size (AddBatchNoiseCallback.data_key cb) state).1 with
    | Raise e => (Raise e, state)
    | Ok n =>
        if dict_mem (input state) (AddBatchNoiseCallback.injected_noise_key cb)
        then (Raise AssertionError, state)
        else (Ok tt,
              set_input (λ d,
                <[AddBatchNoiseCallback.injected_noise_key cb :=
                    torch_randn ([n] ++ AddBatchNoiseCallback.noise_shape cb) draws]> d)
                state)
    end.
Proof.
  unfold AddBatchNoiseCallback.on_batch_start, input_store. unfold bind at 1.
  rewrite get_batch_size_run. cbn [fst].
  destruct (match input state !! _ with Some t => size0 t | None => _ end) as [n|e];
    [|reflexivity].
  run_method. destruct (dict_mem _ _); reflexivity.
Qed.

Lemma one_hot_run (cb : OneHotTransformCallback.self) (state : RunnerState) :
  OneHotTransformCallback.on_batch_start cb state =
    match (get_batch_size (OneHotTransformCallback.data_key cb) state).1 with
    | Raise e => (Raise e, state)
    | Ok n =>
        match input state !! OneHotTransformCallback.target_key cb with
        | None => (Raise AssertionError, state)
        | Some targets =>
            if dict_mem (input state) (OneHotTransformCallback.one_hot_target_key cb)
            then (Raise AssertionError, state)
            else if (1 <? ndim targets)%nat then (Raise NotImplementedError, state)
            else
              match index_put_2d (torch_zeros [n; OneHotTransformCallback.n_classes cb])
                      (torch_arange n) targets 1 with
              | Ok oh =>
                  (Ok tt, set_input (λ d,
                     <[OneHotTransformCallback.one_hot_target_key cb := oh]> d) state)
              | Raise e => (Raise e, state)
              end
        end
    end.
Proof.
  unfold OneHotTransformCallback.on_batch_start, input_store. unfold bind at 1.
  rewrite get_batch_size_run. cbn [fst].
  destruct (match input state !! _ with Some t => size0 t | None => _ end) as [n|e];
    [|reflexivity].
  unfold dict_mem at 1. unfold dict_get. run_method.
  destruct (input state !! OneHotTransformCallback.target_key cb) as [targets|].
  - rewrite bool_decide_eq_true_2 by eauto. cbn [negb].
    destruct (dict_mem _ _); [reflexivity|]. cbn [negb].
    destruct (1 <? ndim targets)%nat; [reflexivity|].
    destruct (index_put_2d _ _ _ _); reflexivity.
  - rewrite bool_decide_eq_false_2 by (intros [? ?]; discriminate). reflexivity.
Qed.

Lemma same_class_state_on_raise (cb : SameClassFeaturesRepeatCallback.self)
    (state : RunnerState) :
  is_ok (SameClassFeaturesRepeatCallback.on_batch_start cb state).1 = false →
  (SameClassFeaturesRepeatCallback.on_batch_start cb state).2 = state.
Proof.
  destruct (SameClassFeaturesRepeatCallback.on_batch_start cb state)
    as [r state'] eqn:Hrun.
  cbn [fst snd]. intros Hr. revert Hrun.
  unfold SameClassFeaturesRepeatCallback.on_batch_start, input_store.
  unfold bind at 1. rewrite get_batch_size_run. cbn [fst].
  destruct (match input state !! _ with Some t => size0 t | None => _ end) as [n|e];
    [|intros [= _ <-]; reflexivity].
  unfold bind at 1.
  assert (Hst : (match SameClassFeaturesRepeatCallback.targets_key cb with
                 | Some key => SameClassFeaturesRepeatCallback.check_targets key n
                 | None => ret tt
                 end state).2 = state).
  { destruct (SameClassFeaturesRepeatCallback.targets_key cb);
      [apply check_targets_state|reflexivity]. }
  destruct (match SameClassFeaturesRepeatCallback.targets_key cb with
            | Some key => SameClassFeaturesRepeatCallback.check_targets key n
            | None => ret tt
            end state) as [r1 state1].
  cbn [snd] in Hst. subst state1.
  destruct r1 as [[]|e]; [|intros [= _ <-]; reflexivity].
  run_method.
  destruct (dict_get _ _) as [data|]; [|intros [= _ <-]; reflexivity].
  destruct (dict_mem _ _); [intros [= _ <-]; reflexivity|]. cbn [negb].
  destruct (slice0 data None _); [|intros [= _ <-]; reflexivity].
  destruct (slice0 data (Some _) None); [|intros [= _ <-]; reflexivity].
  destruct (cat _ _); [|intros [= _ <-]; reflexivity].
  intros [= <- _]. discriminate Hr.
Qed.

(** A batch-preparing callback whose [on_batch_start] raises has not
    touched the state: every check comes before the one store. *)
Theorem on_batch_start_raises_untouched (state : RunnerState) :
  (∀ cb draws,
     is_ok (AddBatchNoiseCallback.on_batch_start cb draws state).1 = false →
     (AddBatchNoiseCallback.on_batch_start cb draws state).2 = state)
  ∧ (∀ cb,
       is_ok (AddRealFakeTargetsCallback.on_batch_start cb state).1 = false →
       (AddRealFakeTargetsCallback.on_batch_start cb state).2 = state)
  ∧ (∀ cb,
       is_ok (OneHotTransformCallback.on_batch_start cb state).1 = false →
       (OneHotTransformCallback.on_batch_start cb state).2 = state)
  ∧ (∀ cb,
       is_ok (SameClassFeaturesRepeatCallback.on_batch_start cb state).1 = false →
       (SameClassFeaturesRepeatCallback.on_batch_start cb state).2 = state).
Proof.
  split; [|split; [|split]].
  - intros cb draws. rewrite add_batch_noise_run.
    destruct (get_batch_size _ state).1; [|reflexivity].
    destruct (dict_mem _ _); [reflexivity|discriminate].
  - intros cb. rewrite real_fake_on_batch_start_run.
    destruct (_ || _); [reflexivity|].
    destruct (get_batch_size _ state).1; [discriminate|reflexivity].
  - intros cb. rewrite one_hot_run.
    destruct (get_batch_size _ state).1; [|reflexivity].
    destruct (input state !! _) as [targets|]; [|reflexivity].
    destruct (dict_mem _ _); [reflexivity|].
    destruct (1 <? ndim targets)%nat; [reflexivity|].
    destruct (index_put_2d _ _ _ _); [discriminate|reflexivity].
  - intros cb. apply same_class_state_on_raise.
Qed.

Lemma on_batch_start_raises_untouched_witness :
  (OneHotTransformCallback.on_batch_start
     (OneHotTransformCallback.__init__ 10 "data" "target" "one_hot_target")
     Samples.encoded_batch).2 = Samples.encoded_batch
  ∧ (AddBatchNoiseCallback.on_batch_start
       (AddBatchNoiseCallback.__init__ (AddBatchNoiseCallback.ShapeInt 4) "data" "data")
       Samples.draws Samples.batch).2 = Samples.batch.
Proof.
  split.
  - apply (on_batch_start_raises_untouched Samples.encoded_batch). reflexivity.
  - apply (on_batch_start_raises_untouched Samples.batch). reflexivity.
Defined.



(** One row of a one-hot tensor. *)
Lemma indicator_sum (n : nat) (z : Z) (s : nat) :
  (Z.of_nat s ≤ z < Z.of_nat (s + n))%Z →
  (Qsum (map (λ j, if bool_decide (z = Z.of_nat j) then 1 else 0) (seq s n)) == 1)%Q.
Proof.
  revert s. induction n as [|n IH]; intros s Hz; [lia|].
  cbn [seq map Qsum foldr]. fold (Qsum (map (λ j, if bool_decide (z = Z.of_nat j)
                                                then 1%Q else 0%Q) (seq (S s) n))).
  destruct (decide (z = Z.of_nat s)) as [->|Hne].
  - rewrite bool_decide_eq_true_2 by reflexivity.
    assert (Hzero : ∀ m t, s < t →
              Qsum (map (λ j, if bool_decide (Z.of_nat s = Z.of_nat j)
                              then 1%Q else 0%Q) (seq t m)) = 0%Q).
    { induction m as [|m IHm]; intros t Ht; [reflexivity|].
      cbn [seq map Qsum foldr]. rewrite bool_decide_eq_false_2 by lia.
      fold (Qsum (map (λ j, if bool_decide (Z.of_nat s = Z.of_nat j)
                            then 1%Q else 0%Q) (seq (S t) m))).
      rewrite IHm by lia. reflexivity. }
    rewrite Hzero by lia. reflexivity.
  - rewrite bool_decide_eq_false_2 by assumption.
    rewrite IH by lia. reflexivity.
Qed.

Lemma one_hot_row (zs : list Z) (n : nat) (oh : tensor) (i : nat) (z : Z) :
  is_one_hot_of zs n oh →
  zs !! i = Some z →
  take n (drop (i * n) (data oh))
  = map (λ j, if bool_decide (z = Z.of_nat j) then 1%Q else 0%Q) (seq 0 n).
Proof.
  intros (Hsh & Hwf & Hcells) Hz.
  apply list_eq. intros j.
  change (map ?f ?l) with (f <$> l). rewrite list_lookup_fmap.
  destruct (decide (j < n)) as [Hj|Hj].
  - rewrite lookup_take_lt, lookup_drop by exact Hj.
    rewrite (Hcells i j z Hz Hj). rewrite lookup_seq_lt by exact Hj. reflexivity.
  - rewrite lookup_take_ge by lia. rewrite lookup_seq_ge by lia. reflexivity.
Qed.

(** Every row of the tensor [OneHotTransformCallback] stores encodes
    exactly one class: its entries add up to 1, and the entries of the
    whole tensor to the batch size. *)
Theorem one_hot_rows_sum_to_one
    (cb : OneHotTransformCallback.self) (state : RunnerState)
    (batch targets : tensor) (rest : list nat) (zs : list Z) :
  input state !! OneHotTransformCallback.data_key cb = Some batch →
  shape batch = length zs :: rest →
  input state !! OneHotTransformCallback.target_key cb = Some targets →
  input state !! OneHotTransformCallback.one_hot_target_key cb = None →
  t_dtype targets = Long →
  shape targets = [length zs] →
  data targets = map inject_Z zs →
  Forall (λ z, (0 ≤ z < Z.of_nat (OneHotTransformCallback.n_classes cb))%Z) zs →
  ∃ state' one_hot,
    OneHotTransformCallback.on_batch_start cb state = (Ok tt, state')
    ∧ input state' !! OneHotTransformCallback.one_hot_target_key cb = Some one_hot
    ∧ ∀ i, i < length zs →
        (Qsum (take (OneHotTransformCallback.n_classes cb)
                 (drop (i * OneHotTransformCallback.n_classes cb) (data one_hot)))
         == 1)%Q.
Proof.
  intros Hbatch Hsh Htargets Hfree Hdt Htsh Hdata Hrange.
  destruct (one_hot_index_put (OneHotTransformCallback.n_classes cb) zs targets
              Hdt Hdata Hrange) as (oh & Hput & Hoh).
  assert (Hrun : OneHotTransformCallback.on_batch_start cb state
                 = (Ok tt, set_input (λ d,
                      <[OneHotTransformCallback.one_hot_target_key cb := oh]> d) state)).
  { rewrite one_hot_run, get_batch_size_run. cbn [fst].
    rewrite Hbatch, Htargets. unfold size0. rewrite Hsh.
    rewrite (proj2 (dict_mem_false _ _) Hfree).
    unfold ndim. rewrite Htsh. cbn [length Nat.ltb Nat.leb]. rewrite Hput.
    reflexivity. }
  assert (Hin : input (set_input (λ d,
                  <[OneHotTransformCallback.one_hot_target_key cb := oh]> d) state)
                !! OneHotTransformCallback.one_hot_target_key cb = Some oh)
    by apply lookup_insert_eq.
  set (state' := set_input _ state) in *.
  exists state', oh. split; [exact Hrun|]. split; [exact Hin|].
  intros i Hi. destruct (lookup_lt_is_Some_2 zs i Hi) as [z Hz].
  rewrite (one_hot_row zs _ oh i z Hoh Hz).
  apply indicator_sum. rewrite Forall_forall in Hrange.
  assert (Hin' : z ∈ zs) by (apply list_elem_of_lookup; eauto).
  specialize (Hrange z Hin'). cbn beta in Hrange. lia.
Qed.

Lemma one_hot_rows_sum_to_one_witness :
  ∃ state' one_hot,
    OneHotTransformCallback.on_batch_start
      (OneHotTransformCallback.__init__ 10 "data" "target" "one_hot_target")
      Samples.batch = (Ok tt, state')
    ∧ input state' !! "one_hot_target" = Some one_hot
    ∧ (Qsum (take 10 (drop 10 (data one_hot))) == 1)%Q.
Proof.
  destruct (one_hot_rows_sum_to_one
              (OneHotTransformCallback.__init__ 10 "data" "target" "one_hot_target")
              Samples.batch Samples.images2 Samples.classes [1; 1; 1] [1%Z; 0%Z])
    as (state' & oh & Hrun & Hin & Hrows);
    [reflexivity | reflexivity | reflexivity | reflexivity | reflexivity
    | reflexivity | reflexivity | repeat constructor; cbn; lia |].
  exists state', oh. split; [exact Hrun|]. split; [exact Hin|].
  apply (Hrows 1). cbn. lia.
Defined.

Lemma wrap_index_wrapped (n : nat) (z : Z) :
  (- Z.of_nat n ≤ z < Z.of_nat n)%Z →
  wrap_index n z = wrap_index n (wrapped n z)
  ∧ (0 ≤ wrapped n z < Z.of_nat n)%Z.
Proof.
  intros Hz. unfold wrap_index, wrapped.
  destruct (Z.ltb_spec z 0) as [Hneg|Hpos].
  - destruct (Z.ltb_spec (z + Z.of_nat n) 0); [lia|]. split; [reflexivity|lia].
  - rewrite (proj2 (Z.ltb_ge z 0)) by lia. split; [reflexivity|lia].
Qed.

Lemma wrap_index_outside (n : nat) (z : Z) :
  (z < - Z.of_nat n ∨ Z.of_nat n ≤ z)%Z → wrap_index n z = Raise IndexError.
Proof.
  intros Hz. unfold wrap_index.
  destruct (Z.ltb_spec z 0).
  - destruct (Z.leb_spec 0 (z + Z.of_nat n)); [|reflexivity].
    destruct (Z.ltb_spec (z + Z.of_nat n) (Z.of_nat n)); [lia|reflexivity].
  - destruct (Z.leb_spec 0 z); [|lia].
    destruct (Z.ltb_spec z (Z.of_nat n)); [lia|reflexivity].
Qed.

Lemma put_all_wrapped (n_rows n_cols : nat) (v : Q) (zs : list Z) :
  Forall (λ z, (- Z.of_nat n_cols ≤ z < Z.of_nat n_cols)%Z) zs →
  ∀ (rows : list Z) (xs : list Q),
    put_all n_rows n_cols (zip rows zs) v xs
    = put_all n_rows n_cols (zip rows (map (wrapped n_cols) zs)) v xs.
Proof.
  induction 1 as [|z zs Hz Hzs IH]; intros rows xs.
  - destruct rows; reflexivity.
  - destruct rows as [|r rows]; [reflexivity|].
    cbn [map zip zip_with put_all].
    rewrite <- (proj1 (wrap_index_wrapped n_cols z Hz)).
    destruct (wrap_index n_rows r); [|reflexivity].
    destruct (wrap_index n_cols z); [|reflexivity]. apply IH.
Qed.

Lemma put_all_outside (n_rows n_cols : nat) (v : Q) (zs : list Z) :
  Exists (λ z, (z < - Z.of_nat n_cols ∨ Z.of_nat n_cols ≤ z)%Z) zs →
  ∀ (s : nat) (xs : list Q),
    s + length zs ≤ n_rows →
    put_all n_rows n_cols (zip (map (λ i, Z.of_nat i) (seq s (length zs))) zs) v xs
    = Raise IndexError.
Proof.
  induction zs as [|z zs IH]; intros Hex s xs Hs; [inversion Hex|].
  cbn [length seq map zip zip_with put_all]. cbn [length] in Hs.
  rewrite (wrap_index_in_range n_rows) by lia.
  destruct (wrap_index n_cols z) as [j|e] eqn:Hj.
  - apply IH; [|lia]. inversion Hex as [? ? Hout|]; subst; [|assumption].
    rewrite wrap_index_outside in Hj by exact Hout. discriminate.
  - unfold wrap_index in Hj.
    destruct (_ && _) in Hj; [discriminate|]. injection Hj as <-. reflexivity.
Qed.

(** The indices of [OneHotTransformCallback] outside [[0, n_classes)]: a
    target in [[-n_classes, 0)] is a class counted from the end (-1 is the
    last class), and the stored tensor is the one-hot encoding of those
    classes; a target below [-n_classes] or from [n_classes] on raises
    [IndexError], and nothing is stored. *)
Theorem one_hot_index_bounds
    (cb : OneHotTransformCallback.self) (state : RunnerState)
    (batch targets : tensor) (rest : list nat) (zs : list Z) :
  let n := OneHotTransformCallback.n_classes cb in
  input state !! OneHotTransformCallback.data_key cb = Some batch →
  shape batch = length zs :: rest →
  input state !! OneHotTransformCallback.target_key cb = Some targets →
  input state !! OneHotTransformCallback.one_hot_target_key cb = None →
  t_dtype targets = Long →
  shape targets = [length zs] →
  data targets = map inject_Z zs →
  (Forall (λ z, (- Z.of_nat n ≤ z < Z.of_nat n)%Z) zs →
   ∃ state' one_hot,
     OneHotTransformCallback.on_batch_start cb state = (Ok tt, state')
     ∧ input state' !! OneHotTransformCallback.one_hot_target_key cb = Some one_hot
     ∧ is_one_hot_of (map (wrapped n) zs) n one_hot)
  ∧ (Exists (λ z, (z < - Z.of_nat n ∨ Z.of_nat n ≤ z)%Z) zs →
     OneHotTransformCallback.on_batch_start cb state = (Raise IndexError, state)).
Proof.
  intros n Hbatch Hsh Htargets Hfree Hdt Htsh Hdata.
  assert (Hrun : OneHotTransformCallback.on_batch_start cb state =
                 match index_put_2d (torch_zeros [length zs; n])
                         (torch_arange (length zs)) targets 1 with
                 | Ok oh => (Ok tt, set_input (λ d,
                      <[OneHotTransformCallback.one_hot_target_key cb := oh]> d) state)
                 | Raise e => (Raise e, state)
                 end).
  { rewrite one_hot_run, get_batch_size_run. cbn [fst].
    rewrite Hbatch, Htargets. unfold size0. rewrite Hsh.
    rewrite (proj2 (dict_mem_false _ _) Hfree).
    unfold ndim. rewrite Htsh. reflexivity. }
  assert (Hput : index_put_2d (torch_zeros [length zs; n])
                   (torch_arange (length zs)) targets 1 =
                 match put_all (length zs) n
                         (zip (map (λ i, Z.of_nat i) (seq 0 (length zs))) zs) 1
                         (replicate (numel_of [length zs; n]) 0%Q) with
                 | Ok xs => Ok (Tensor Float [length zs; n] xs)
                 | Raise e => Raise e
                 end).
  { unfold index_put_2d. cbn [torch_zeros shape t_dtype data].
    rewrite Hdt, !bool_decide_eq_true_2 by reflexivity. cbn [andb negb].
    rewrite arange_indices, Hdata, Qfloor_inject_all.
    unfold broadcast_indices. rewrite length_map, length_seq, Nat.eqb_refl.
    reflexivity. }
  split.
  - intros Hrange.
    set (ws := map (wrapped n) zs).
    assert (Hws : Forall (λ z, (0 ≤ z < Z.of_nat n)%Z) ws).
    { subst ws. apply Forall_map. eapply Forall_impl; [exact Hrange|].
      intros z Hz. apply (wrap_index_wrapped n z Hz). }
    destruct (one_hot_index_put n ws (Tensor Long [length ws] (map inject_Z ws))
                eq_refl eq_refl Hws) as (oh & Hoh & Hspec).
    assert (Hlen : length ws = length zs) by (subst ws; apply length_map).
    rewrite Hlen in Hoh.
    assert (Hsame : index_put_2d (torch_zeros [length zs; n])
                      (torch_arange (length zs)) targets 1 = Ok oh).
    { rewrite Hput, (put_all_wrapped (length zs) n 1 zs Hrange).
      fold ws. rewrite <- Hoh. unfold index_put_2d.
      cbn [torch_zeros shape t_dtype data].
      rewrite !bool_decide_eq_true_2 by reflexivity. cbn [andb negb].
      rewrite arange_indices, Qfloor_inject_all.
      unfold broadcast_indices. rewrite length_map, length_seq, Hlen, Nat.eqb_refl.
      reflexivity. }
    rewrite Hrun, Hsame. eexists _, oh. split; [reflexivity|].
    split; [apply lookup_insert_eq|exact Hspec].
  - intros Hout. rewrite Hrun, Hput.
    rewrite (put_all_outside (length zs) n 1 zs Hout 0) by lia. reflexivity.
Qed.

Lemma one_hot_index_bounds_witness :
  (∃ state' one_hot,
     OneHotTransformCallback.on_batch_start
       (OneHotTransformCallback.__init__ 10 "data" "class_targets" "one_hot_target")
       (set_input (λ d, <["class_targets" :=
                            Tensor Long [2] [inject_Z (- 1); inject_Z 3]]> d)
          Samples.batch) = (Ok tt, state')
     ∧ input state' !! "one_hot_target" = Some one_hot
     ∧ is_one_hot_of [9%Z; 3%Z] 10 one_hot)
  ∧ OneHotTransformCallback.on_batch_start
      (OneHotTransformCallback.__init__ 2 "data" "class_targets" "one_hot_target")
      Samples.batch = (Raise IndexError, Samples.batch).
Proof.
  split.
  - apply (one_hot_index_bounds
             (OneHotTransformCallback.__init__ 10 "data" "class_targets" "one_hot_target")
             (set_input (λ d, <["class_targets" :=
                                  Tensor Long [2] [inject_Z (- 1); inject_Z 3]]> d)
                Samples.batch)
             Samples.images2 (Tensor Long [2] [inject_Z (- 1); inject_Z 3])
             [1; 1; 1] [(- 1)%Z; 3%Z]);
      try reflexivity.
    repeat constructor; cbn; lia.
  - apply (one_hot_index_bounds
             (OneHotTransformCallback.__init__ 2 "data" "class_targets" "one_hot_target")
             Samples.batch Samples.images2
             (Tensor Long [2] [inject_Z 3; inject_Z 3]) [1; 1; 1] [3%Z; 3%Z]);
      try reflexivity.
    constructor. cbn. lia.
Defined.

Lemma check_targets_odd (key : string) (n : nat) (state : RunnerState) :
  Nat.Odd n →
  is_ok (SameClassFeaturesRepeatCallback.check_targets key n state).1 = false.
Proof.
  intros Hodd. unfold SameClassFeaturesRepeatCallback.check_targets. run_method.
  destruct (dict_mem (input state) key); [|reflexivity].
  destruct (dict_get (input state) key) as [target|]; [|reflexivity].
  destruct (size0 target) as [m|]; [|reflexivity].
  destruct (m =? n)%nat; [|reflexivity].
  replace (n mod 2 =? 0)%nat with false; [reflexivity|].
  symmetry. apply Nat.eqb_neq. destruct Hodd as [k ->].
  rewrite Nat.add_comm, Nat.mul_comm, Nat.Div0.mod_add. cbn. lia.
Qed.

(** A batch of odd size: with [targets_key] set the sanity check of
    [SameClassFeaturesRepeatCallback] stops it and nothing is stored;
    with [targets_key=None] there is no check and the data, cut at
    [batch_size // 2] and put together again, is stored as it is. *)
Theorem same_class_odd_batch
    (cb : SameClassFeaturesRepeatCallback.self) (state : RunnerState)
    (batch : tensor) (batch_size : nat) (rest : list nat) :
  input state !! SameClassFeaturesRepeatCallback.data_key cb = Some batch →
  shape batch = batch_size :: rest →
  tensor_wf batch →
  Nat.Odd batch_size →
  (∀ key, SameClassFeaturesRepeatCallback.targets_key cb = Some key →
          is_ok (SameClassFeaturesRepeatCallback.on_batch_start cb state).1 = false
          ∧ (SameClassFeaturesRepeatCallback.on_batch_start cb state).2 = state)
  ∧ (SameClassFeaturesRepeatCallback.targets_key cb = None →
     input state !! SameClassFeaturesRepeatCallback.same_class_data_key cb = None →
     SameClassFeaturesRepeatCallback.on_batch_start cb state
     = (Ok tt, set_input (λ d,
          <[SameClassFeaturesRepeatCallback.same_class_data_key cb := batch]> d) state)).
Proof.
  intros Hdata Hsh Hwf Hodd.
  pose proof (same_class_on_batch_start_run cb state batch batch_size rest
                Hdata Hsh Hwf) as Hrun.
  split.
  - intros key Hkey.
    assert (Hraise : is_ok (SameClassFeaturesRepeatCallback.on_batch_start cb state).1
                     = false).
    { rewrite Hrun, Hkey.
      pose proof (check_targets_odd key batch_size state Hodd) as Hcheck.
      destruct (SameClassFeaturesRepeatCallback.check_targets key batch_size state).1;
        [discriminate Hcheck|reflexivity]. }
    split; [exact Hraise|]. apply same_class_state_on_raise. exact Hraise.
  - intros Hnone Hfree. rewrite Hrun, Hnone. cbn [ret fst].
    rewrite (proj2 (dict_mem_false _ _) Hfree). reflexivity.
Qed.

Lemma same_class_odd_batch_witness :
  is_ok (SameClassFeaturesRepeatCallback.on_batch_start
           (SameClassFeaturesRepeatCallback.__init__ "data" "same_class_data"
              (Some "class_targets")) Samples.odd_batch).1 = false
  ∧ (SameClassFeaturesRepeatCallback.on_batch_start
       (SameClassFeaturesRepeatCallback.__init__ "data" "same_class_data" None)
       Samples.odd_batch).1 = Ok tt.
Proof.
  split.
  - destruct (same_class_odd_batch
                (SameClassFeaturesRepeatCallback.__init__ "data" "same_class_data"
                   (Some "class_targets"))
                Samples.odd_batch Samples.three 3 []) as [Hset _];
      [reflexivity | reflexivity | reflexivity | exists 1; reflexivity |].
    apply (Hset "class_targets"). reflexivity.
  - destruct (same_class_odd_batch
                (SameClassFeaturesRepeatCallback.__init__ "data" "same_class_data" None)
                Samples.odd_batch Samples.three 3 []) as [_ Hnone];
      [reflexivity | reflexivity | reflexivity | exists 1; reflexivity |].
    rewrite Hnone; reflexivity.
Defined.

End batch_input.

(** ** Metrics *)

Section metrics.

Lemma multi_key_on_batch_end_run (cb : MultiKeyMetricCallback.self)
    (state : RunnerState) :
  MultiKeyMetricCallback.on_batch_end cb state =
    match MultiKeyMetricCallback._get (output state)
            (MultiKeyMetricCallback.output_key cb) with
    | Raise e => (Raise e, state)
    | Ok outputs =>
        match MultiKeyMetricCallback._get (input state)
                (MultiKeyMetricCallback.input_key cb) with
        | Raise e => (Raise e, state)
        | Ok targets =>
            match MultiKeyMetricCallback.metric_fn cb outputs targets with
            | Raise e => (Raise e, state)
            | Ok metric =>
                (Ok tt, set_metrics
                          (λ m, <[MultiKeyMetricCallback.prefix cb := metric]> m) state)
            end
        end
    end.
Proof.
  unfold MultiKeyMetricCallback.on_batch_end, add_batch_value. run_method.
  destruct (MultiKeyMetricCallback._get (output state) _); [|reflexivity].
  destruct (MultiKeyMetricCallback._get (input state) _); [|reflexivity].
  destruct (MultiKeyMetricCallback.metric_fn cb _ _); reflexivity.
Qed.

Lemma dict_restrict_spec (d : gmap string tensor) (keys : list string) :
  ∀ acc,
    match dict_restrict d keys acc with
    | Ok r =>
        Forall (λ key, is_Some (d !! key)) keys
        ∧ ∀ key, r !! key = if bool_decide (key ∈ keys) then d !! key else acc !! key
    | Raise e =>
        ∃ before key after,
          keys = before ++ key :: after
          ∧ Forall (λ k, is_Some (d !! k)) before
          ∧ d !! key = None ∧ e = KeyError key
    end.
Proof.
  induction keys as [|key keys IH]; intros acc; cbn [dict_restrict].
  - split; [constructor|]. intros k.
    rewrite bool_decide_eq_false_2 by (apply not_elem_of_nil). reflexivity.
  - destruct (d !! key) as [v|] eqn:Hkey.
    + specialize (IH (<[key := v]> acc)).
      destruct (dict_restrict d keys (<[key := v]> acc)) as [r|e].
      * destruct IH as [Hall Hr]. split; [constructor; eauto|].
        intros k. rewrite Hr.
        destruct (decide (k ∈ keys)) as [Hin|Hnin].
        -- rewrite !bool_decide_eq_true_2; [reflexivity|right; exact Hin|exact Hin].
        -- rewrite (bool_decide_eq_false_2 (k ∈ keys)) by exact Hnin.
           destruct (decide (k = key)) as [->|Hne].
           ++ rewrite lookup_insert_eq, bool_decide_eq_true_2 by left.
              symmetry. exact Hkey.
           ++ rewrite lookup_insert_ne by congruence.
              rewrite bool_decide_eq_false_2; [reflexivity|].
              intros Hin. apply elem_of_cons in Hin as [?|?]; contradiction.
      * destruct IH as (before & k & after & -> & Hall & Hk & ->).
        exists (key :: before), k, after. split; [reflexivity|].
        split; [constructor; eauto|]. auto.
    + exists [], key, keys. split; [reflexivity|]. split; [constructor|]. auto.
Qed.

(** [MultiKeyMetricCallback.on_batch_end], whatever the metric function:
    when it returns, the one thing it has changed is the batch value of the
    metric under the prefix, which is what the metric function returned on
    the selected outputs and inputs; when it raises - a key is missing, or
    the metric function raises - the state is as before. A list of output
    keys with a key the outputs do not hold raises [KeyError] for the first
    such key. *)
Theorem metric_on_batch_end_frame
    (cb : MultiKeyMetricCallback.self) (state : RunnerState) :
  let r := MultiKeyMetricCallback.on_batch_end cb state in
  (r.1 = Ok tt →
   ∃ outputs targets metric,
     MultiKeyMetricCallback._get (output state)
       (MultiKeyMetricCallback.output_key cb) = Ok outputs
     ∧ MultiKeyMetricCallback._get (input state)
         (MultiKeyMetricCallback.input_key cb) = Ok targets
     ∧ MultiKeyMetricCallback.metric_fn cb outputs targets = Ok metric
     ∧ r.2 = set_metrics (λ m, <[MultiKeyMetricCallback.prefix cb := metric]> m) state)
  ∧ (is_ok r.1 = false → r.2 = state)
  ∧ (∀ keys before key after,
       MultiKeyMetricCallback.output_key cb = KeyList keys →
       keys = before ++ key :: after →
       Forall (λ k, is_Some (output state !! k)) before →
       output state !! key = None →
       r = (Raise (KeyError key), state)).
Proof.
  intros r. subst r. rewrite multi_key_on_batch_end_run. split; [|split].
  - destruct (MultiKeyMetricCallback._get (output state) _) as [outputs|] eqn:Ho;
      [|discriminate].
    destruct (MultiKeyMetricCallback._get (input state) _) as [targets|] eqn:Hi;
      [|discriminate].
    destruct (MultiKeyMetricCallback.metric_fn cb _ _) as [metric|] eqn:Hm;
      [|discriminate].
    intros _. exists outputs, targets, metric. auto.
  - destruct (MultiKeyMetricCallback._get (output state) _); [|reflexivity].
    destruct (MultiKeyMetricCallback._get (input state) _); [|reflexivity].
    destruct (MultiKeyMetricCallback.metric_fn cb _ _); [discriminate|reflexivity].
  - intros keys before key after Hkeys -> Hbefore Hmissing. rewrite Hkeys.
    unfold MultiKeyMetricCallback._get at 1, result_bind.
    pose proof (dict_restrict_spec (output state) (before ++ key :: after) ∅) as Hspec.
    destruct (dict_restrict (output state) (before ++ key :: after) ∅) as [d|e].
    + exfalso. destruct Hspec as [Hall _].
      apply Forall_app in Hall as [_ Hall]. apply Forall_cons in Hall as [[? Hk] _].
      congruence.
    + destruct Hspec as (before' & key' & after' & Hsplit & Hall' & Hnone & ->).
      assert (key' = key); [|subst; reflexivity].
      clear -Hsplit Hall' Hbefore Hmissing Hnone.
      revert before' Hsplit Hall'. induction Hbefore as [|k before Hk Hb IH];
        intros before' Hsplit Hall'.
      * destruct before' as [|k' before']; cbn in Hsplit.
        -- congruence.
        -- injection Hsplit as <- _. apply Forall_cons in Hall' as [[? Hk] _].
           congruence.
      * destruct before' as [|k' before']; cbn in Hsplit.
        -- injection Hsplit as -> _. destruct Hk as [? Hk]. congruence.
        -- injection Hsplit as <- Hsplit. apply Forall_cons in Hall' as [_ Hall'].
           eapply IH; eassumption.
Qed.

Lemma metric_on_batch_end_frame_witness :
  WassersteinDistanceCallback.on_batch_end
    (WassersteinDistanceCallback.__init__ "wd" "real_validity" "validity")
    Samples.batch = (Raise (KeyError "validity"), Samples.batch).
Proof.
  apply (metric_on_batch_end_frame
           (WassersteinDistanceCallback.base
              (WassersteinDistanceCallback.__init__ "wd" "real_validity" "validity"))
           Samples.batch)
    with (keys := ["real_validity"; "validity"]) (before := ["real_validity"])
         (after := []);
    [reflexivity | reflexivity | | reflexivity].
  repeat constructor. eexists. reflexivity.
Defined.



End metrics.

(** ** Clamping, further *)

Section clamping_more.
Import WeightClampingOptimizerCallback.

Lemma clamp_scalar_inside (lo hi x : Q) :
  (lo <= x)%Q → (x <= hi)%Q → clamp_scalar lo hi x = x.
Proof.
  intros Hlo Hhi. unfold clamp_scalar, Qmax, Qmin, GenericMinMax.gmax,
    GenericMinMax.gmin.
  destruct (x ?= lo)%Q eqn:Hc.
  - destruct (x ?= hi)%Q eqn:Hc'; try reflexivity.
    apply Qgt_alt in Hc'. exfalso. apply (Qlt_not_le _ _ Hc'). exact Hhi.
  - apply Qlt_alt in Hc. exfalso. apply (Qlt_not_le _ _ Hc). exact Hlo.
  - destruct (x ?= hi)%Q eqn:Hc'; try reflexivity.
    apply Qgt_alt in Hc'. exfalso. apply (Qlt_not_le _ _ Hc'). exact Hhi.
Qed.

Lemma clamp_scalar_idempotent (lo hi x : Q) :
  clamp_scalar lo hi (clamp_scalar lo hi x) = clamp_scalar lo hi x.
Proof.
  destruct (Qlt_le_dec hi lo) as [Hcross|Hord].
  - (* crossed bounds: everything goes to [hi] *)
    assert (Hall : ∀ y, clamp_scalar lo hi y = hi).
    { intros y. unfold clamp_scalar.
      assert (Hmax : (hi < Qmax y lo)%Q).
      { apply Qlt_le_trans with lo; [exact Hcross|apply Q.le_max_r]. }
      unfold Qmin, GenericMinMax.gmin.
      destruct (Qmax y lo ?= hi)%Q eqn:Hc; try reflexivity.
      - apply Qeq_alt in Hc. rewrite Hc in Hmax. exfalso.
        apply (Qlt_irrefl _ Hmax).
      - apply Qlt_alt in Hc. exfalso. apply (Qlt_irrefl hi).
        apply Qlt_trans with (Qmax y lo); assumption. }
    rewrite !Hall. reflexivity.
  - apply clamp_scalar_inside.
    + unfold clamp_scalar. apply Q.min_glb; [apply Q.le_max_r|exact Hord].
    + unfold clamp_scalar. apply Q.le_min_r.
Qed.

Lemma map_fixed {A} (f : A → A) (l : list A) :
  (∀ x, In x l → f x = x) → map f l = l.
Proof.
  induction l as [|a l IH]; intros Hf; [reflexivity|].
  cbn [map]. rewrite Hf by (left; reflexivity). f_equal. apply IH.
  intros x Hx. apply Hf. right. exact Hx.
Qed.

Lemma clamp_entry_idempotent (lo hi : Q) (x : scalar) :
  clamp_entry lo hi (clamp_entry lo hi x) = clamp_entry lo hi x.
Proof.
  destruct x as [q|]; [|reflexivity]. cbn [clamp_entry]. f_equal.
  apply clamp_scalar_idempotent.
Qed.

Lemma clamp_optimizer_idempotent (to_dtype : precision → Q → Q) (c : Q)
    (o : Optimizer) :
  clamp_optimizer to_dtype c (clamp_optimizer to_dtype c o)
  = clamp_optimizer to_dtype c o.
Proof.
  unfold clamp_optimizer. cbn [param_groups]. f_equal. rewrite map_map.
  apply map_ext. intros g. unfold clamp_group. cbn [params options]. f_equal.
  rewrite map_map. apply map_ext. intros p. unfold clamp_.
  cbn [p_precision p_shape p_data].
  f_equal. rewrite map_map. apply map_ext. intros x. apply clamp_entry_idempotent.
Qed.

Lemma clamp_optimizer_fixed (to_dtype : precision → Q → Q) (c : Q) (o : Optimizer) :
  params_between (λ p, to_dtype p (- c)) (λ p, to_dtype p c) o →
  clamp_optimizer to_dtype c o = o.
Proof.
  intros Hin. destruct o as [groups]. unfold clamp_optimizer. cbn [param_groups] in *.
  f_equal. apply map_fixed. intros g Hg. destruct g as [ps opts].
  unfold clamp_group. cbn [params options]. f_equal.
  apply map_fixed. intros p Hp. destruct p as [pr sh xs].
  unfold clamp_. cbn [p_precision p_shape p_data]. f_equal.
  apply map_fixed. intros x Hx. destruct x as [q|]; [|reflexivity].
  cbn [clamp_entry]. f_equal.
  destruct (Hin _ _ q Hg Hp Hx) as [Hlo Hhi]. apply clamp_scalar_inside; assumption.
Qed.

(** Values of the type inside [[-c, c]] are between the converted bounds,
    when the conversion keeps the order. *)
Lemma params_within_between (to_dtype : precision → Q → Q) (c : Q) (o : Optimizer) :
  monotone to_dtype →
  params_representable to_dtype o →
  params_within c o →
  params_between (λ p, to_dtype p (- c)) (λ p, to_dtype p c) o.
Proof.
  intros Hmono Hrep Hin group param x Hgroup Hparam Hx.
  destruct (Hin group param x Hgroup Hparam Hx) as [Hlo Hhi].
  pose proof (Hrep group param x Hgroup Hparam Hx) as Hx'. cbv beta in *.
  split.
  - rewrite <- Hx'. apply Hmono. exact Hlo.
  - rewrite <- Hx' at 1. apply Hmono. exact Hhi.
Qed.

Lemma put_optimizer_same (key : option string) (state : RunnerState) (o : Optimizer) :
  get_optimizer key state = Ok (OneOptimizer o) →
  put_optimizer key o state = state.
Proof.
  unfold get_optimizer, put_optimizer. destruct state as [i ou m l ln st nb opt].
  cbn [optimizer]. destruct key as [k|].
  - destruct opt as [o1|d]; [discriminate|].
    destruct (d !! k) as [o1|] eqn:Hk; [|discriminate]. intros [= ->].
    unfold set_optimizer. cbn. rewrite insert_id by exact Hk. reflexivity.
  - intros [= ->]. reflexivity.
Qed.

(** Clamping twice is clamping once, and it leaves alone what is inside the
    bounds already: when every parameter of the selected optimizer lies
    between the bounds [clamp_] uses after the parent's step,
    [on_batch_end] changes nothing at all; and so it is when every
    parameter lies in [[-weight_clamp_value, weight_clamp_value]], the
    parameters holding values of their type and the conversion of the
    bounds to that type keeping the order of numbers. *)
Theorem weight_clamping_idempotent
    (to_dtype : precision → Q → Q)
    (super : M (self * RunnerState) unit) (s : self * RunnerState)
    (cb1 : self) (state1 : RunnerState) (o : Optimizer) :
  super s = (Ok tt, (cb1, state1)) →
  need_backward state1 = true →
  accumulation_steps cb1 ≠ 0%Z →
  get_optimizer (optimizer_key cb1) state1 = Ok (OneOptimizer o) →
  (∀ c, clamp_optimizer to_dtype c (clamp_optimizer to_dtype c o)
        = clamp_optimizer to_dtype c o)
  ∧ (∀ state', on_batch_end to_dtype super s = (Ok tt, (cb1, state')) →
               on_batch_end to_dtype (λ _, (Ok tt, (cb1, state'))) s
               = (Ok tt, (cb1, state')))
  ∧ (params_between (λ p, to_dtype p (- weight_clamp_value cb1))
                    (λ p, to_dtype p (weight_clamp_value cb1)) o →
     on_batch_end to_dtype super s = super s)
  ∧ (monotone to_dtype →
     params_representable to_dtype o →
     params_within (weight_clamp_value cb1) o →
     on_batch_end to_dtype super s = super s).
Proof.
  intros Hsuper Hback Hsteps Hget.
  pose proof (clamping_step_run to_dtype super s cb1 state1 Hsuper Hback) as Hrun.
  rewrite Hget in Hrun. unfold py_mod in Hrun.
  rewrite (proj2 (Z.eqb_neq _ _) Hsteps) in Hrun.
  assert (Hfixed : params_between (λ p, to_dtype p (- weight_clamp_value cb1))
                     (λ p, to_dtype p (weight_clamp_value cb1)) o →
                   on_batch_end to_dtype super s = super s).
  { intros Hin. rewrite Hrun, Hsuper.
    destruct (_ =? 0)%Z; [|reflexivity].
    rewrite (clamp_optimizer_fixed _ _ _ Hin), (put_optimizer_same _ _ _ Hget).
    reflexivity. }
  split; [intros c; apply clamp_optimizer_idempotent|]. split; [|split].
  - intros state' Hstate'. rewrite Hrun in Hstate'.
    assert (Hback' : need_backward state' = true).
    { destruct (_ =? 0)%Z in Hstate'; injection Hstate' as <-; [|exact Hback].
      unfold put_optimizer. destruct (optimizer_key cb1), (optimizer state1);
        exact Hback. }
    rewrite (clamping_step_run to_dtype (λ _, (Ok tt, (cb1, state'))) s cb1 state'
               eq_refl Hback').
    unfold py_mod. rewrite (proj2 (Z.eqb_neq _ _) Hsteps).
    destruct (_ =? 0)%Z eqn:Hdue.
    + injection Hstate' as <-.
      rewrite (get_put_optimizer _ _ _ _ Hget).
      rewrite clamp_optimizer_idempotent.
      f_equal. f_equal. apply put_optimizer_same.
      apply (get_put_optimizer _ _ _ _ Hget).
    + injection Hstate' as <-. rewrite Hget. reflexivity.
  - exact Hfixed.
  - intros Hmono Hrep Hin. apply Hfixed.
    apply params_within_between; assumption.
Qed.

Lemma weight_clamping_idempotent_witness :
  on_batch_end Samples.to_eighths Samples.idle_super
    (Samples.clamping 7, Samples.batch)
  = (Ok tt, (Samples.clamping 7, Samples.batch)).
Proof.
  destruct (weight_clamping_idempotent Samples.to_eighths Samples.idle_super
              (Samples.clamping 7, Samples.batch) (Samples.clamping 7) Samples.batch
              Samples.sgd eq_refl eq_refl) as (_ & _ & _ & Hfixed);
    [discriminate | reflexivity |].
  rewrite Hfixed; [reflexivity|exact to_eighths_monotone| |].
  - intros group param x [<-|[]] [<-|[<-|[]]] Hx; cbn in Hx;
      repeat (destruct Hx as [Hx|Hx];
              [first [discriminate Hx|injection Hx as <-; reflexivity]|]);
      destruct Hx.
  - intros group param x [<-|[]] [<-|[<-|[]]] Hx; cbn in Hx;
      repeat (destruct Hx as [Hx|Hx];
              [first [discriminate Hx|injection Hx as <-; split; discriminate]|]);
      destruct Hx.
Defined.

Lemma clamp_optimizer_layout (to_dtype : precision → Q → Q) (c : Q) (o : Optimizer) :
  layout (clamp_optimizer to_dtype c o) = layout o
  ∧ nan_entries (clamp_optimizer to_dtype c o) = nan_entries o.
Proof.
  split; [|apply clamp_optimizer_nan].
  unfold layout, clamp_optimizer. cbn [param_groups]. rewrite map_map.
  apply map_ext. intros g. cbn [clamp_group params options]. f_equal.
  rewrite map_map. apply map_ext. intros p. reflexivity.
Qed.

(** The clamping step changes entries of parameters only: whatever
    [on_batch_end] returns after the parent's step, the callback is as the
    parent left it, the selected optimizer keeps its groups, their options
    and the types and shapes of their parameters, and an entry of a
    parameter is NaN afterwards exactly when it was NaN before. *)
Theorem weight_clamping_keeps_layout
    (to_dtype : precision → Q → Q)
    (super : M (self * RunnerState) unit) (s : self * RunnerState)
    (cb1 cb' : self) (state1 state' : RunnerState) :
  super s = (Ok tt, (cb1, state1)) →
  on_batch_end to_dtype super s = (Ok tt, (cb', state')) →
  cb' = cb1
  ∧ ∀ o, get_optimizer (optimizer_key cb1) state1 = Ok (OneOptimizer o) →
         ∃ o', get_optimizer (optimizer_key cb1) state' = Ok (OneOptimizer o')
               ∧ layout o' = layout o
               ∧ nan_entries o' = nan_entries o.
Proof.
  intros Hsuper Hrun.
  assert (Hcases : (cb', state') = (cb1, state1)
                   ∨ ∃ o, get_optimizer (optimizer_key cb1) state1 = Ok (OneOptimizer o)
                          ∧ (cb', state')
                            = (cb1, put_optimizer (optimizer_key cb1)
                                      (clamp_optimizer to_dtype
                                         (weight_clamp_value cb1) o)
                                      state1)).
  { destruct (need_backward state1) eqn:Hback.
    - rewrite (clamping_step_run to_dtype super s cb1 state1 Hsuper Hback) in Hrun.
      destruct (get_optimizer (optimizer_key cb1) state1) as [slot|] eqn:Hget;
        [|discriminate].
      destruct (py_mod _ _) as [r|]; [|discriminate].
      destruct (r =? 0)%Z.
      + destruct slot as [o|d0]; [|discriminate]. injection Hrun as <- <-.
        right. exists o. auto.
      + injection Hrun as <- <-. left. reflexivity.
    - left. revert Hrun. unfold on_batch_end. unfold bind at 1. rewrite Hsuper.
      run_method. rewrite Hback. intros [= <- <-]. reflexivity. }
  destruct Hcases as [[= -> ->]|(o & Hget & [= -> ->])].
  - split; [reflexivity|]. eauto.
  - split; [reflexivity|].
    intros o0 Hget0. rewrite Hget in Hget0. injection Hget0 as <-.
    exists (clamp_optimizer to_dtype (weight_clamp_value cb1) o).
    split; [apply (get_put_optimizer _ _ _ _ Hget)|apply clamp_optimizer_layout].
Qed.

Lemma weight_clamping_keeps_layout_witness :
  ∃ state' o',
    on_batch_end Samples.to_eighths Samples.idle_super
      (Samples.clamping (1 # 10), Samples.batch)
    = (Ok tt, (Samples.clamping (1 # 10), state'))
    ∧ get_optimizer None state' = Ok (OneOptimizer o')
    ∧ layout o' = layout Samples.sgd
    ∧ nan_entries o' = [[[false; false; false]; [false; true]]].
Proof.
  destruct (on_batch_end Samples.to_eighths Samples.idle_super
              (Samples.clamping (1 # 10), Samples.batch))
    as [[[]|e] [cb' state']] eqn:Hrun; [|vm_compute in Hrun; discriminate Hrun].
  destruct (weight_clamping_keeps_layout Samples.to_eighths Samples.idle_super
              (Samples.clamping (1 # 10), Samples.batch)
              (Samples.clamping (1 # 10)) cb' Samples.batch state' eq_refl Hrun)
    as (-> & Hkeeps).
  destruct (Hkeeps Samples.sgd eq_refl) as (o' & Hget & Hlayout & Hnan).
  exists state', o'. split; [reflexivity|]. split; [exact Hget|].
  split; [exact Hlayout|]. rewrite Hnan. reflexivity.
Defined.

(** When no step is due - the accumulation counter is not a multiple of
    [accumulation_steps] - no parameter is clamped; but the optimizer is
    looked up all the same, so that a key missing from the dictionary of
    optimizers raises [KeyError], and [accumulation_steps = 0] raises
    [ZeroDivisionError]; an optimizer key of [None] with a dictionary of
    optimizers raises [AttributeError] when a step is due. In each case the
    state is the one the parent's method left. *)
Theorem weight_clamping_skips_and_raises
    (to_dtype : precision → Q → Q)
    (super : M (self * RunnerState) unit) (s : self * RunnerState)
    (cb1 : self) (state1 : RunnerState) :
  super s = (Ok tt, (cb1, state1)) →
  need_backward state1 = true →
  (∀ slot, get_optimizer (optimizer_key cb1) state1 = Ok slot →
           accumulation_steps cb1 ≠ 0%Z →
           (_accumulation_counter cb1 mod accumulation_steps cb1 ≠ 0)%Z →
           on_batch_end to_dtype super s = (Ok tt, (cb1, state1)))
  ∧ (∀ k d, optimizer_key cb1 = Some k →
            optimizer state1 = OptimizerDict d →
            d !! k = None →
            on_batch_end to_dtype super s = (Raise (KeyError k), (cb1, state1)))
  ∧ (∀ slot, get_optimizer (optimizer_key cb1) state1 = Ok slot →
             accumulation_steps cb1 = 0%Z →
             on_batch_end to_dtype super s = (Raise ZeroDivisionError, (cb1, state1)))
  ∧ (∀ d, optimizer_key cb1 = None →
          optimizer state1 = OptimizerDict d →
          accumulation_steps cb1 ≠ 0%Z →
          (_accumulation_counter cb1 mod accumulation_steps cb1 = 0)%Z →
          on_batch_end to_dtype super s
          = (Raise (AttributeError "param_groups"), (cb1, state1))).
Proof.
  intros Hsuper Hback.
  pose proof (clamping_step_run to_dtype super s cb1 state1 Hsuper Hback) as Hrun.
  split; [|split; [|split]].
  - intros slot Hget Hsteps Hmod. rewrite Hrun, Hget. unfold py_mod.
    rewrite (proj2 (Z.eqb_neq _ _) Hsteps), (proj2 (Z.eqb_neq _ _) Hmod).
    reflexivity.
  - intros k d Hk Hd Hnone. rewrite Hrun. unfold get_optimizer.
    rewrite Hk, Hd, Hnone. reflexivity.
  - intros slot Hget Hzero. rewrite Hrun, Hget. unfold py_mod. rewrite Hzero.
    reflexivity.
  - intros d Hk Hd Hsteps Hmod. rewrite Hrun. unfold get_optimizer at 1.
    rewrite Hk, Hd. unfold py_mod.
    rewrite (proj2 (Z.eqb_neq _ _) Hsteps), Hmod. reflexivity.
Qed.

Lemma weight_clamping_skips_and_raises_witness :
  on_batch_end Samples.to_eighths Samples.idle_super
    (__init__ 0 None "loss" true (1 # 10), Samples.batch)
  = (Raise ZeroDivisionError, (__init__ 0 None "loss" true (1 # 10), Samples.batch))
  ∧ on_batch_end Samples.to_eighths Samples.idle_super
      (__init__ 1 (Some "generator") "loss" true (1 # 10),
       set_optimizer (OptimizerDict {[ "discriminator" := Samples.sgd ]}) Samples.batch)
    = (Raise (KeyError "generator"),
       (__init__ 1 (Some "generator") "loss" true (1 # 10),
        set_optimizer (OptimizerDict {[ "discriminator" := Samples.sgd ]}) Samples.batch)).
Proof.
  split.
  - apply (weight_clamping_skips_and_raises Samples.to_eighths Samples.idle_super
             (__init__ 0 None "loss" true (1 # 10), Samples.batch)
             (__init__ 0 None "loss" true (1 # 10)) Samples.batch eq_refl eq_refl)
      with (slot := OneOptimizer Samples.sgd); reflexivity.
  - apply (weight_clamping_skips_and_raises Samples.to_eighths Samples.idle_super
             (__init__ 1 (Some "generator") "loss" true (1 # 10),
              set_optimizer (OptimizerDict {[ "discriminator" := Samples.sgd ]})
                Samples.batch)
             (__init__ 1 (Some "generator") "loss" true (1 # 10))
             (set_optimizer (OptimizerDict {[ "discriminator" := Samples.sgd ]})
                Samples.batch) eq_refl eq_refl)
      with (d := {[ "discriminator" := Samples.sgd ]}); reflexivity.
Defined.

End clamping_more.

(** ** The weighted aggregation of criteria *)

Section weighted_aggregation.

Import WeightedCriterionAggregatorCallback.

Lemma Qsum_scaled (s : Q) (ws : list Q) :
  (Qsum (map (λ w, w / s) ws) == Qsum ws / s)%Q.
Proof.
  induction ws as [|w ws IH]; cbn [map Qsum foldr].
  - unfold Qdiv. ring.
  - fold (Qsum (map (λ w, w / s)%Q ws)). fold (Qsum ws). rewrite IH.
    unfold Qdiv. ring.
Qed.

Lemma Qsum_zip_scaled (s : Q) (losses ws : list Q) :
  (Qsum (zip_with Qmult losses (map (λ w, w / s) ws))
   == Qsum (zip_with Qmult losses ws) / s)%Q.
Proof.
  revert ws. induction losses as [|x losses IH]; intros [|w ws];
    cbn [map zip_with Qsum foldr]; try (unfold Qdiv; ring).
  fold (Qsum (zip_with Qmult losses (map (λ w, w / s)%Q ws))).
  fold (Qsum (zip_with Qmult losses ws)). rewrite IH. unfold Qdiv. ring.
Qed.

Lemma Ok_inj {A} (x y : A) : Ok x = Ok y → x = y.
Proof. congruence. Qed.

Lemma normalized_nonempty (ws : list Q) :
  ws ≠ [] →
  normalized ws = if Qeq_bool (Qsum ws) 0 then Raise ZeroDivisionError
                  else Ok (map (λ w, w / Qsum ws)%Q ws).
Proof. destruct ws; [congruence|reflexivity]. Qed.

Lemma normalized_sum (ws ws' : list Q) :
  normalized ws = Ok ws' → ws ≠ [] → (Qsum ws' == 1)%Q.
Proof.
  intros Hrun Hne. rewrite (normalized_nonempty ws Hne) in Hrun.
  destruct (Qeq_bool (Qsum ws) 0) eqn:Hzero; [discriminate|].
  apply Ok_inj in Hrun. subst ws'.
  etransitivity; [apply Qsum_scaled|]. apply Qmult_inv_r.
  apply Qeq_bool_neq. exact Hzero.
Qed.

Lemma normalized_length (ws ws' : list Q) :
  normalized ws = Ok ws' → length ws' = length ws.
Proof.
  unfold normalized. destruct ws as [|w ws]; [intros [= <-]; reflexivity|].
  destruct (Qeq_bool _ _); [discriminate|]. intros Hrun. apply Ok_inj in Hrun.
  subst ws'. apply length_map.
Qed.

Lemma init_run (p : string) (keys : list string) (fn : string) (ws : list Q)
    (m : Q) (cb : self) :
  __init__ p (Some keys) fn (Some ws) m = Ok cb →
  length ws = length keys
  ∧ loss_keys cb = keys
  ∧ (if bool_decide (fn = "mean") then normalized ws else Ok ws) = Ok (weights cb).
Proof.
  unfold __init__. destruct (length ws =? length keys)%nat eqn:Hlen;
    [|discriminate]. cbn [negb]. apply Nat.eqb_eq in Hlen.
  destruct (if bool_decide (fn = "mean") then normalized ws else Ok ws)
    as [ws'|e]; [|discriminate].
  cbn. intros [= <-]. auto.
Qed.

Lemma weighted_losses_spec (d : gmap string Q) (ws : list Q) (keys : list string) :
  ∀ (i : nat) (l : list Q),
    weighted_losses d ws i keys = Ok l →
    ∃ losses, Forall2 (λ k x, d !! k = Some x) keys losses
              ∧ l = zip_with Qmult losses (drop i ws).
Proof.
  induction keys as [|k keys IH]; intros i l; cbn [weighted_losses].
  - intros [= <-]. exists []. split; [constructor|reflexivity].
  - unfold dict_get. destruct (d !! k) as [x|] eqn:Hk; [|discriminate].
    cbn. destruct (ws !! i) as [w|] eqn:Hw; [|discriminate]. cbn.
    destruct (weighted_losses d ws (S i) keys) as [rest|] eqn:Hrest;
      [|discriminate].
    cbn. intros [= <-]. destruct (IH _ _ Hrest) as (losses & Hall & ->).
    exists (x :: losses). split; [constructor; assumption|].
    rewrite (drop_S ws w i Hw). reflexivity.
Qed.

Lemma weighted_losses_total (d : gmap string Q) (ws : list Q) (keys : list string) :
  ∀ i : nat,
    i + length keys ≤ length ws →
    Forall (λ k, is_Some (d !! k)) keys →
    ∃ l, weighted_losses d ws i keys = Ok l ∧ length l = length keys.
Proof.
  induction keys as [|k keys IH]; intros i Hlen Hall; cbn [weighted_losses].
  - exists []. auto.
  - inversion Hall as [|? ? [x Hx] Hrest]; subst. cbn [length] in Hlen.
    unfold dict_get. rewrite Hx. cbn.
    destruct (lookup_lt_is_Some_2 ws i) as [w Hw]; [lia|]. rewrite Hw. cbn.
    destruct (IH (S i)) as (l & -> & Hl); [lia|assumption|].
    cbn. exists ((x * w)%Q :: l). cbn [length]. auto.
Qed.

Lemma weighted_losses_missing (d : gmap string Q) (ws : list Q) (keys : list string) :
  ∀ i : nat,
    i + length keys ≤ length ws →
    ¬ Forall (λ k, is_Some (d !! k)) keys →
    ∃ k, k ∈ keys ∧ d !! k = None
         ∧ weighted_losses d ws i keys = Raise (KeyError k).
Proof.
  induction keys as [|k keys IH]; intros i Hlen Hnot; cbn [weighted_losses].
  - destruct Hnot. constructor.
  - cbn [length] in Hlen. unfold dict_get.
    destruct (d !! k) as [x|] eqn:Hk.
    + cbn. destruct (lookup_lt_is_Some_2 ws i) as [w Hw]; [lia|]. rewrite Hw.
      cbn. destruct (IH (S i)) as (k' & Hin & Hnone & ->); [lia| |].
      * intros Hall. apply Hnot. constructor; [rewrite Hk; eauto|assumption].
      * cbn. exists k'. split; [right; assumption|auto].
    + exists k. split; [left|auto].
Qed.

(** Constructing the aggregator with matching weights and keys
    fails in one way only: with [loss_aggregate_fn == "mean"] and weights
    whose sum is zero the division raises [ZeroDivisionError]. Otherwise
    the callback keeps the keys and one weight per key; with ["mean"] the
    stored weights sum to one, with any other aggregation they are the
    weights given. Weights whose number differs from the number of keys are
    refused with [AssertionError]. *)
Theorem weighted_aggregator_init_outcome
    (p : string) (keys : list string) (fn : string) (ws : list Q) (m : Q) :
  (length ws ≠ length keys →
   __init__ p (Some keys) fn (Some ws) m = Raise AssertionError)
  ∧ (length ws = length keys →
     if bool_decide (fn = "mean" ∧ ws ≠ []) && Qeq_bool (Qsum ws) 0
     then __init__ p (Some keys) fn (Some ws) m = Raise ZeroDivisionError
     else ∃ cb, __init__ p (Some keys) fn (Some ws) m = Ok cb
                ∧ loss_keys cb = keys
                ∧ length (weights cb) = length keys
                ∧ (fn = "mean" → ws ≠ [] → (Qsum (weights cb) == 1)%Q)
                ∧ (fn ≠ "mean" → weights cb = ws)).
Proof.
  split.
  - intros Hlen. unfold __init__.
    rewrite (proj2 (Nat.eqb_neq _ _) Hlen). reflexivity.
  - intros Hlen. unfold __init__. rewrite (proj2 (Nat.eqb_eq _ _) Hlen).
    cbn [negb]. destruct (decide (fn = "mean")) as [Hfn|Hfn].
    + rewrite (bool_decide_eq_true_2 _ Hfn).
      destruct (decide (ws = [])) as [->|Hne].
      * rewrite bool_decide_eq_false_2 by (intros [_ Hne]; congruence).
        cbn. eexists. split; [reflexivity|]. cbn [loss_keys weights].
        split; [reflexivity|]. split; [exact Hlen|]. split; congruence.
      * rewrite bool_decide_eq_true_2 by (split; assumption). cbn [andb].
        pose proof (normalized_sum ws) as Hsum.
        pose proof (normalized_length ws) as Hlen'.
        rewrite (normalized_nonempty ws Hne) in *.
        destruct (Qeq_bool (Qsum ws) 0); [reflexivity|].
        cbn [result_bind]. eexists. split; [reflexivity|].
        cbn [loss_keys weights]. split; [reflexivity|].
        split; [rewrite (Hlen' _ eq_refl); exact Hlen|].
        split; [intros _ _; apply (Hsum _ eq_refl Hne)|congruence].
    + rewrite (bool_decide_eq_false_2 _ Hfn).
      rewrite bool_decide_eq_false_2 by (intros [Heq _]; congruence).
      cbn. eexists. split; [reflexivity|]. cbn [loss_keys weights].
      split; [reflexivity|]. split; [exact Hlen|]. split; congruence.
Qed.

Lemma weighted_aggregator_init_outcome_witness :
  __init__ "loss" (Some ["loss_g"; "loss_d"]) "mean" (Some [1; -1]%Q) 1
  = Raise ZeroDivisionError
  ∧ ∃ cb, __init__ "loss" (Some ["loss_g"; "loss_d"]) "mean" (Some [1; 3]%Q) 1
          = Ok cb
          ∧ (Qsum (weights cb) == 1)%Q.
Proof.
  split.
  - apply (proj2 (weighted_aggregator_init_outcome
                    "loss" ["loss_g"; "loss_d"] "mean" [1; -1]%Q 1)).
    reflexivity.
  - destruct (proj2 (weighted_aggregator_init_outcome
                       "loss" ["loss_g"; "loss_d"] "mean" [1; 3]%Q 1) eq_refl)
      as (cb & Hcb & _ & _ & Hsum & _).
    exists cb. split; [exact Hcb|]. apply Hsum; [reflexivity|discriminate].
Defined.

(** With [loss_aggregate_fn == "mean"] the losses that
    [_preprocess_loss] hands to the parent's sum add up to the weighted mean
    of the losses under the keys: the sum of [loss[key] * weight] over the
    keys, divided by the sum of the weights given to the constructor. *)
Theorem preprocess_loss_sums_to_weighted_mean
    (p : string) (keys : list string) (ws : list Q) (m : Q) (cb : self)
    (d : gmap string Q) (l : list Q) :
  __init__ p (Some keys) "mean" (Some ws) m = Ok cb →
  _preprocess_loss cb (LossDict d) = Ok l →
  ∃ losses, Forall2 (λ k x, d !! k = Some x) keys losses
            ∧ length l = length keys
            ∧ (Qsum l == Qsum (zip_with Qmult losses ws) / Qsum ws)%Q.
Proof.
  intros Hinit Hrun. destruct (init_run _ _ _ _ _ _ Hinit) as (Hlen & Hkeys & Hws).
  rewrite bool_decide_eq_true_2 in Hws by reflexivity.
  unfold _preprocess_loss in Hrun. rewrite Hkeys in Hrun.
  destruct (weighted_losses_spec _ _ _ _ _ Hrun) as (losses & Hall & ->).
  exists losses. split; [exact Hall|]. rewrite drop_0.
  pose proof (Forall2_length _ _ _ Hall) as Hlen'.
  pose proof (normalized_length _ _ Hws) as Hlen''.
  split; [rewrite length_zip_with; lia|].
  destruct (decide (ws = [])) as [->|Hne].
  - apply Ok_inj in Hws. rewrite <- Hws. destruct losses; reflexivity.
  - rewrite (normalized_nonempty ws Hne) in Hws.
    destruct (Qeq_bool _ _); [discriminate|]. apply Ok_inj in Hws.
    rewrite <- Hws. apply Qsum_zip_scaled.
Qed.

Lemma preprocess_loss_sums_to_weighted_mean_witness :
  ∃ cb l,
    __init__ "loss" (Some ["loss_g"; "loss_d"]) "mean" (Some [1; 3]%Q) 1 = Ok cb
    ∧ _preprocess_loss cb (LossDict {[ "loss_g" := 2%Q; "loss_d" := 6%Q ]}) = Ok l
    ∧ (Qsum l == 5)%Q.
Proof.
  destruct (__init__ "loss" (Some ["loss_g"; "loss_d"]) "mean" (Some [1; 3]%Q) 1)
    as [cb|e] eqn:Hinit; [|vm_compute in Hinit; discriminate Hinit].
  destruct (_preprocess_loss cb (LossDict {[ "loss_g" := 2%Q; "loss_d" := 6%Q ]}))
    as [l|e] eqn:Hrun;
    [|vm_compute in Hinit; injection Hinit as <-; vm_compute in Hrun;
      discriminate Hrun].
  destruct (preprocess_loss_sums_to_weighted_mean _ _ _ _ _ _ _ Hinit Hrun)
    as (losses & Hall & _ & Hsum).
  exists cb, l. split; [reflexivity|]. split; [exact Hrun|].
  rewrite Hsum.
  inversion Hall as [|? x1 ? l1 H1 Hall1]; subst.
  inversion Hall1 as [|? x2 ? l2 H2 Hall2]; subst.
  inversion Hall2; subst.
  vm_compute in H1. vm_compute in H2.
  injection H1 as <-. injection H2 as <-. reflexivity.
Defined.

(** A constructed aggregator never runs out of weights:
    [_preprocess_loss] on a dictionary returns one weighted loss per key
    when every key is in the dictionary, raises [KeyError] on a key of the
    callback missing from the dictionary otherwise, and never raises
    [IndexError]; an argument that is no dictionary is refused with
    [AssertionError]. *)
Theorem preprocess_loss_outcome
    (p : string) (keys : list string) (fn : string) (ws : list Q) (m : Q)
    (cb : self) :
  __init__ p (Some keys) fn (Some ws) m = Ok cb →
  (∀ d, Forall (λ k, is_Some (d !! k)) keys →
        ∃ l, _preprocess_loss cb (LossDict d) = Ok l
             ∧ length l = length keys)
  ∧ (∀ d, ¬ Forall (λ k, is_Some (d !! k)) keys →
          ∃ k, k ∈ keys ∧ d !! k = None
               ∧ _preprocess_loss cb (LossDict d) = Raise (KeyError k))
  ∧ (∀ q, _preprocess_loss cb (LossValue q) = Raise AssertionError)
  ∧ (∀ l, _preprocess_loss cb (LossList l) = Raise AssertionError).
Proof.
  intros Hinit. destruct (init_run _ _ _ _ _ _ Hinit) as (Hlen & Hkeys & Hws).
  assert (Hweights : 0 + length keys ≤ length (weights cb)).
  { destruct (bool_decide (fn = "mean")).
    - rewrite (normalized_length _ _ Hws). lia.
    - injection Hws as <-. lia. }
  split; [|split; [|split]]; try reflexivity.
  - intros d Hall. unfold _preprocess_loss. rewrite Hkeys.
    apply weighted_losses_total; assumption.
  - intros d Hnot. unfold _preprocess_loss. rewrite Hkeys.
    apply weighted_losses_missing; assumption.
Qed.

Lemma preprocess_loss_outcome_witness :
  ∃ cb, __init__ "loss" (Some ["loss_g"; "loss_d"]) "sum" (Some [1; 3]%Q) 1 = Ok cb
        ∧ _preprocess_loss cb (LossValue 2) = Raise AssertionError
        ∧ ∃ k, _preprocess_loss cb (LossDict {[ "loss_g" := 2%Q ]})
               = Raise (KeyError k).
Proof.
  destruct (__init__ "loss" (Some ["loss_g"; "loss_d"]) "sum" (Some [1; 3]%Q) 1)
    as [cb|e] eqn:Hinit; [|vm_compute in Hinit; discriminate Hinit].
  destruct (preprocess_loss_outcome _ _ _ _ _ _ Hinit) as (_ & Hmissing & Hvalue & _).
  exists cb. split; [reflexivity|]. split; [apply Hvalue|].
  destruct (Hmissing {[ "loss_g" := 2%Q ]}) as (k & _ & _ & Hraise).
  - intros Hall. inversion Hall as [|? ? _ Hall']; subst.
    inversion Hall' as [|? ? [x Hx] _]; subst. vm_compute in Hx. discriminate Hx.
  - exists k. exact Hraise.
Defined.

End weighted_aggregation.

(** ** What the writer receives *)

Section visualization_log.

Import VisualizationCallback.

Lemma slice0_prefix (t : tensor) (n : nat) (rest : list nat) (m : Z) :
  shape t = n :: rest →
  (0 ≤ m)%Z →
  slice0 t None (Some m) = Ok (first_items (Z.to_nat m) t).
Proof.
  intros Hsh Hm. unfold slice0, first_items. rewrite Hsh.
  assert (Hb : slice_bounds n None (Some m) = (0, Nat.min n (Z.to_nat m))).
  { unfold slice_bounds, slice_index, default. cbn [from_option id].
    repeat match goal with
           | |- context [(?a <? ?b)%Z] => destruct (Z.ltb_spec a b)
           end; f_equal; lia. }
  rewrite Hb. rewrite Nat.mul_0_l, drop_0. reflexivity.
Qed.

Lemma step_writer_update (ref : writer_ref) (f : SummaryWriter → SummaryWriter)
    (state : RunnerState) :
  step (writer_update ref f state) = step state.
Proof. unfold writer_update. destruct ref, (loggers state); reflexivity. Qed.

Lemma log_loop_log (ref : writer_ref) (viz : list (string * tensor)) :
  ∀ (s s' : self * RunnerState) (w : SummaryWriter),
    (0 ≤ max_images s.1)%Z →
    writer_read ref s.2 = Some w →
    for_each viz (log_visualization ref) s = (Ok tt, s') →
    s'.1 = s.1
    ∧ writer_read ref s'.2
      = Some {| images :=
                  images w
                  ++ map (λ kv, (kv.1,
                                 make_grid (first_items (Z.to_nat (max_images s.1)) kv.2)
                                           (_n_row s.1),
                                 step s.2)) viz;
                flushes := flushes w |}
    ∧ Forall (λ kv, shape kv.2 ≠ []) viz.
Proof.
  induction viz as [|kv viz IH]; intros s s' w Hmax Hw.
  - cbn. intros [= <-]. split; [reflexivity|]. split; [|constructor].
    rewrite Hw, app_nil_r. destruct w; reflexivity.
  - rewrite log_loop_cons.
    destruct (shape kv.2) as [|n rest] eqn:Hsh.
    { unfold slice0. rewrite Hsh. discriminate. }
    rewrite (slice0_prefix kv.2 n rest _ Hsh Hmax).
    set (f := add_image kv.1
                (make_grid (first_items (Z.to_nat (max_images s.1)) kv.2) (_n_row s.1))
                (step s.2)).
    intros Hrun.
    destruct (IH (s.1, writer_update ref f s.2) s' (f w) Hmax
                 (writer_read_update ref f s.2 w Hw) Hrun) as (Hcb & Hread & Hall).
    cbn [fst snd] in Hcb, Hread. rewrite step_writer_update in Hread.
    split; [exact Hcb|]. split.
    + rewrite Hread. unfold f, add_image. cbn [images flushes map].
      rewrite <- app_assoc. reflexivity.
    + constructor; [congruence|exact Hall].
Qed.

(** A call of [save_visualizations] that returns has handed the writer of
    the current loader one image per visualization, after the images the
    writer held and in the order of the dictionary: under the key of the
    visualization, the grid of its first [max_images] items ([max_images]
    not negative), at the global step [state.step]. The callback of the
    autoencoder example then flushes the writer once; the callbacks of the
    GAN examples never flush it. *)
Theorem save_visualizations_log
    (ex : example) (viz : list (string * tensor)) (s s' : self * RunnerState) :
  (0 ≤ max_images s.1)%Z →
  save_visualizations ex viz s = (Ok tt, s') →
  ∃ ref w,
    _get_tensorboard_logger ex s.2 = Ok ref
    ∧ writer_read ref s.2 = Some w
    ∧ writer_read ref s'.2
      = Some {| images :=
                  images w
                  ++ map (λ kv, (kv.1,
                                 make_grid (first_items (Z.to_nat (max_images s.1)) kv.2)
                                           (_n_row s.1),
                                 step s.2)) viz;
                flushes := flushes w
                           + (if decide (ex = autoencoders) then 1 else 0) |}
    ∧ Forall (λ kv, shape kv.2 ≠ []) viz.
Proof.
  intros Hmax. rewrite save_visualizations_run.
  destruct (_get_tensorboard_logger ex s.2) as [ref|e] eqn:Href; [|discriminate].
  destruct (lookup_finds_writer ex s.2 ref Href) as [w Hw].
  destruct (for_each viz (log_visualization ref) s) as [[[]|e] s1] eqn:Hloop;
    [|discriminate].
  destruct (log_loop_log ref viz s s1 w Hmax Hw Hloop) as (Hcb & Hread & Hall).
  intros [= <-]. cbn [fst snd]. exists ref, w.
  split; [reflexivity|]. split; [exact Hw|]. split; [|exact Hall].
  destruct ex; cbn [decide decide_rel example_eq_dec].
  - rewrite Hread, Nat.add_0_r. reflexivity.
  - rewrite Hread, Nat.add_0_r. reflexivity.
  - rewrite (writer_read_update ref flush s1.2 _ Hread). unfold flush.
    cbn [images flushes]. rewrite Nat.add_1_r. reflexivity.
Qed.

Lemma save_visualizations_log_witness :
  ∃ s', save_visualizations autoencoders
          [("data", Samples.images2); ("generated", Samples.three)]
          (Cases.separate_visualizer, Cases.autoencoder_validation)
        = (Ok tt, s')
        ∧ writer_read (WriterInList 1 "valid") s'.2
          = Some {| images :=
                      [("data",
                        make_grid (Tensor Float [1; 1; 1; 1] [1%Q]) 1, 7%Z);
                       ("generated", make_grid (Tensor Float [1] [1%Q]) 1, 7%Z)];
                    flushes := 1 |}.
Proof.
  destruct (save_visualizations autoencoders
              [("data", Samples.images2); ("generated", Samples.three)]
              (Cases.separate_visualizer, Cases.autoencoder_validation))
    as [[[]|e] s'] eqn:Hrun; [|vm_compute in Hrun; discriminate Hrun].
  assert (Hmax : (0 ≤ max_images (Cases.separate_visualizer,
                                   Cases.autoencoder_validation).1)%Z)
    by (vm_compute; discriminate).
  destruct (save_visualizations_log autoencoders _ _ s' Hmax Hrun)
    as (ref & w & Href & Hw & Hread & _).
  exists s'. split; [reflexivity|].
  vm_compute in Href. injection Href as <-.
  vm_compute in Hw. injection Hw as <-.
  rewrite Hread. reflexivity.
Defined.

(** Whether it returns or raises, [visualize] leaves the settings and the
    batch counter of the callback as they are and changes nothing of the
    state but its loggers; the flag of the callback is set when it returns
    and is as before when it raises, so that a failed visualization is not
    taken for one that happened. *)
Theorem visualize_frame (ex : example) (s : self * RunnerState) :
  same_config (visualize ex s).2.1 s.1
  ∧ _loader_batch_count (visualize ex s).2.1 = _loader_batch_count s.1
  ∧ same_outside_loggers s.2 (visualize ex s).2.2
  ∧ _loader_visualized_in_current_epoch (visualize ex s).2.1
    = match (visualize ex s).1 with
      | Ok _ => true
      | Raise _ => _loader_visualized_in_current_epoch s.1
      end.
Proof.
  destruct (visualize_spec ex s) as (Hcfg & Hcount & Hsame & _ & _ & Hflag).
  split; [exact Hcfg|]. split; [exact Hcount|]. split; [exact Hsame|].
  destruct (visualize ex s).1; [apply Hflag|exact Hflag].
Qed.

End visualization_log.

(** ** The visualizations of a batch *)

Section visualizations.

Import VisualizationCallback.

Lemma dict_item_set {V} (key : string) (v : V) (d : list (string * V)) (k : string) :
  dict_item (dict_set key v d) k
  = if bool_decide (key = k) then Some v else dict_item d k.
Proof.
  induction d as [|[k0 w] d IH]; cbn [dict_set dict_item]; [reflexivity|].
  destruct (decide (k0 = key)) as [->|Hne].
  - rewrite (bool_decide_eq_true_2 (key = key)) by reflexivity.
    cbn [dict_item]. destruct (bool_decide (key = k)); reflexivity.
  - rewrite (bool_decide_eq_false_2 (k0 = key)) by assumption.
    cbn [dict_item]. rewrite IH.
    destruct (decide (k0 = k)) as [->|Hne'].
    + rewrite (bool_decide_eq_true_2 (k = k)) by reflexivity.
      rewrite (bool_decide_eq_false_2 (key = k)) by congruence. reflexivity.
    + rewrite (bool_decide_eq_false_2 (k0 = k)) by assumption. reflexivity.
Qed.

Lemma dict_set_keys {V} (key : string) (v : V) (d : list (string * V)) :
  NoDup d.*1 →
  NoDup (dict_set key v d).*1
  ∧ ∀ k, k ∈ (dict_set key v d).*1 ↔ k = key ∨ k ∈ d.*1.
Proof.
  induction d as [|[k0 w] d IH]; cbn [dict_set fmap list_fmap fst].
  - intros _. split; [apply NoDup_singleton|]. intros k.
    rewrite list_elem_of_singleton, elem_of_nil. tauto.
  - intros Hnd. apply NoDup_cons in Hnd as [Hk0 Hnd].
    destruct (IH Hnd) as [IHnd IHin].
    destruct (decide (k0 = key)) as [->|Hne].
    + rewrite (bool_decide_eq_true_2 (key = key)) by reflexivity.
      cbn [fmap list_fmap fst]. split; [apply NoDup_cons; auto|].
      intros k. rewrite elem_of_cons. tauto.
    + rewrite (bool_decide_eq_false_2 (k0 = key)) by assumption.
      cbn [fmap list_fmap fst]. split.
      * apply NoDup_cons. split; [|exact IHnd].
        rewrite IHin. intros [Heq|Hin]; [congruence|contradiction].
      * intros k. rewrite !elem_of_cons, IHin. tauto.
Qed.

(** [dict(pairs)] has every key of the pairs once, and under a key the
    value of the last pair with that key. *)
Lemma py_dict_spec {V} (pairs : list (string * V)) :
  NoDup (py_dict pairs).*1
  ∧ (∀ k, k ∈ (py_dict pairs).*1 ↔ k ∈ pairs.*1)
  ∧ ∀ k, dict_item (py_dict pairs) k = dict_item (rev pairs) k.
Proof.
  unfold py_dict.
  assert (Hgen : ∀ ps (d : list (string * V)),
            NoDup d.*1 →
            NoDup (foldl (λ d p, dict_set p.1 p.2 d) d ps).*1
            ∧ (∀ k, k ∈ (foldl (λ d p, dict_set p.1 p.2 d) d ps).*1
                    ↔ k ∈ ps.*1 ∨ k ∈ d.*1)
            ∧ ∀ k, dict_item (foldl (λ d p, dict_set p.1 p.2 d) d ps) k
                   = match dict_item (rev ps) k with
                     | Some v => Some v
                     | None => dict_item d k
                     end).
  { induction ps as [|[k0 v0] ps IH]; intros d Hnd; cbn [foldl].
    - split; [exact Hnd|]. split; [|reflexivity].
      intros k. cbn. rewrite elem_of_nil. tauto.
    - destruct (dict_set_keys k0 v0 d Hnd) as [Hnd' Hin'].
      destruct (IH (dict_set k0 v0 d) Hnd') as (IHnd & IHin & IHitem).
      cbn [fst snd] in *. split; [exact IHnd|]. split.
      + intros k. rewrite IHin, Hin'. cbn [fmap list_fmap fst].
        rewrite elem_of_cons. tauto.
      + intros k. rewrite IHitem, dict_item_set. cbn [rev].
        assert (Happ : ∀ (a b : list (string * V)),
                  dict_item (a ++ b) k
                  = match dict_item a k with
                    | Some v => Some v
                    | None => dict_item b k
                    end).
        { induction a as [|[ka va] a IHa]; intros b; cbn [app dict_item];
            [reflexivity|]. destruct (bool_decide (ka = k)); [reflexivity|apply IHa]. }
        rewrite Happ. cbn [dict_item].
        destruct (dict_item (rev ps) k); [reflexivity|].
        destruct (bool_decide (k0 = k)); reflexivity. }
  destruct (Hgen pairs [] (NoDup_nil_2)) as (Hnd & Hin & Hitem).
  split; [exact Hnd|]. split.
  - intros k. rewrite Hin. cbn. rewrite elem_of_nil. tauto.
  - intros k. rewrite Hitem. cbn [dict_item].
    destruct (dict_item (rev pairs) k); reflexivity.
Qed.

Lemma dict_item_app {V} (a b : list (string * V)) (k : string) :
  dict_item (a ++ b) k
  = match dict_item a k with
    | Some v => Some v
    | None => dict_item b k
    end.
Proof.
  induction a as [|[ka va] a IHa]; cbn [app dict_item]; [reflexivity|].
  destruct (bool_decide (ka = k)); [reflexivity|apply IHa].
Qed.

Lemma dict_item_absent {V} (d : list (string * V)) (k : string) :
  k ∉ d.*1 → dict_item d k = None.
Proof.
  induction d as [|[k0 v0] d IH]; cbn [dict_item fmap list_fmap fst];
    [reflexivity|].
  rewrite not_elem_of_cons. intros [Hne Hnot].
  rewrite bool_decide_eq_false_2 by congruence. apply IH. exact Hnot.
Qed.

(** When every pair of a list has under its key the value [P] allows, so
    has the item found under a key of the list. *)
Lemma dict_item_present {V} (P : string → V → Prop) (d : list (string * V))
    (k : string) :
  Forall (λ p, P p.1 p.2) d →
  k ∈ d.*1 →
  ∃ v, dict_item d k = Some v ∧ P k v.
Proof.
  induction d as [|[k0 v0] d IH]; cbn [dict_item fmap list_fmap fst].
  - intros _ Hin. apply elem_of_nil in Hin. contradiction.
  - intros Hall Hin. apply Forall_cons in Hall as [Hp Hall].
    destruct (decide (k0 = k)) as [->|Hne].
    + rewrite bool_decide_eq_true_2 by reflexivity. eauto.
    + rewrite bool_decide_eq_false_2 by assumption.
      apply elem_of_cons in Hin as [Heq|Hin]; [congruence|]. apply IH; assumption.
Qed.

Lemma keys_rev {V} (d : list (string * V)) (k : string) :
  k ∈ (rev d).*1 ↔ k ∈ d.*1.
Proof.
  induction d as [|[k0 v0] d IH]; cbn [rev]; [reflexivity|].
  rewrite fmap_app, elem_of_app, IH. cbn [fmap list_fmap fst].
  rewrite !elem_of_cons, elem_of_nil. tauto.
Qed.

Lemma dict_get_all_spec (d : gmap string tensor) (keys : list string)
    (ts : list tensor) :
  dict_get_all d keys = Ok ts → Forall2 (λ k t, d !! k = Some t) keys ts.
Proof.
  revert ts. induction keys as [|key keys IH]; intros ts; cbn [dict_get_all].
  - intros [= <-]. constructor.
  - unfold result_bind, dict_get. destruct (d !! key) as [t|] eqn:Hk;
      [|discriminate].
    destruct (dict_get_all d keys) as [ts'|]; [|discriminate].
    intros [= <-]. constructor; [exact Hk|]. apply IH. reflexivity.
Qed.

Lemma dict_get_all_missing (d : gmap string tensor) (keys : list string) (e : exn) :
  dict_get_all d keys = Raise e → ∃ k, k ∈ keys ∧ d !! k = None ∧ e = KeyError k.
Proof.
  induction keys as [|key keys IH]; cbn [dict_get_all]; [discriminate|].
  unfold result_bind, dict_get. destruct (d !! key) as [t|] eqn:Hk.
  - destruct (dict_get_all d keys) as [ts'|e']; [discriminate|].
    intros [= <-]. destruct (IH eq_refl) as (k & Hin & Hnone & ->).
    exists k. split; [right; exact Hin|auto].
  - intros [= <-]. exists key. split; [left|auto].
Qed.

Lemma zipped_items (f : tensor → tensor) (d : gmap string tensor)
    (keys : list string) (ts : list tensor) :
  Forall2 (λ k t, d !! k = Some t) keys ts →
  (zip keys (map f ts)).*1 = keys
  ∧ Forall (λ p, ∃ t, d !! p.1 = Some t ∧ p.2 = f t) (zip keys (map f ts)).
Proof.
  induction 1 as [|k t keys ts Hk Hall [IHk IHall]]; cbn; [split; constructor|].
  split; [f_equal; exact IHk|]. constructor; [eauto|exact IHall].
Qed.

(** Without [concat_images] the visualizations are a dictionary: one item
    per distinct key of [input_keys + output_keys], so that a key given
    twice is shown once; under a key that is among the output keys the
    denormalized output of that name - also when the key is among the input
    keys as well, whose tensor is then not shown - and under any other key
    the denormalized input of that name. *)
Theorem separate_visualizations_by_key
    (cb : self) (state : RunnerState) (viz : list (string * tensor)) :
  concat_images cb = false →
  compute_visualizations cb state = Ok viz →
  NoDup viz.*1
  ∧ (∀ k, k ∈ viz.*1 ↔ k ∈ input_keys cb ++ output_keys cb)
  ∧ (∀ k, k ∈ output_keys cb →
          ∃ t, output state !! k = Some t
               ∧ dict_item viz k = Some (denorm cb t))
  ∧ (∀ k, k ∈ input_keys cb → k ∉ output_keys cb →
          ∃ t, input state !! k = Some t
               ∧ dict_item viz k = Some (denorm cb t)).
Proof.
  intros Hconcat. unfold compute_visualizations, result_bind. rewrite Hconcat.
  destruct (dict_get_all (input state) (input_keys cb)) as [its|] eqn:Hits;
    [|discriminate].
  destruct (dict_get_all (output state) (output_keys cb)) as [ots|] eqn:Hots;
    [|discriminate].
  intros [= <-].
  apply dict_get_all_spec in Hits, Hots.
  destruct (zipped_items (denorm cb) _ _ _ Hits) as [Hik Hiall].
  destruct (zipped_items (denorm cb) _ _ _ Hots) as [Hok Hoall].
  assert (Hzip : zip (input_keys cb ++ output_keys cb) (map (denorm cb) (its ++ ots))
                 = zip (input_keys cb) (map (denorm cb) its)
                   ++ zip (output_keys cb) (map (denorm cb) ots)).
  { rewrite map_app. apply zip_with_app. rewrite length_map.
    apply (Forall2_length _ _ _ Hits). }
  rewrite Hzip.
  destruct (py_dict_spec (zip (input_keys cb) (map (denorm cb) its)
                          ++ zip (output_keys cb) (map (denorm cb) ots)))
    as (Hnd & Hin & Hitem).
  split; [exact Hnd|]. split; [|split].
  - intros k. rewrite Hin, fmap_app, Hik, Hok. reflexivity.
  - intros k Hk. rewrite Hitem, rev_app_distr, dict_item_app.
    destruct (dict_item_present
                (λ k v, ∃ t, output state !! k = Some t ∧ v = denorm cb t)
                (rev (zip (output_keys cb) (map (denorm cb) ots))) k)
      as (v & -> & t & Ht & ->).
    + apply Forall_rev. exact Hoall.
    + rewrite keys_rev, Hok. exact Hk.
    + eauto.
  - intros k Hk Hnot. rewrite Hitem, rev_app_distr, dict_item_app.
    rewrite (dict_item_absent (rev (zip (output_keys cb) (map (denorm cb) ots)))).
    2:{ rewrite keys_rev, Hok. exact Hnot. }
    destruct (dict_item_present
                (λ k v, ∃ t, input state !! k = Some t ∧ v = denorm cb t)
                (rev (zip (input_keys cb) (map (denorm cb) its))) k)
      as (v & -> & t & Ht & ->).
    + apply Forall_rev. exact Hiall.
    + rewrite keys_rev, Hik. exact Hk.
    + eauto.
Qed.

Lemma separate_visualizations_by_key_witness :
  ∃ viz, compute_visualizations Cases.separate_visualizer
           Cases.renamed_output = Ok viz
         ∧ viz.*1 = ["data"; "generated"]
         ∧ dict_item viz "data" = Some (denorm_default_fn Samples.three).
Proof.
  destruct (compute_visualizations Cases.separate_visualizer
              Cases.renamed_output)
    as [viz|e] eqn:Hviz; [|vm_compute in Hviz; discriminate Hviz].
  destruct (separate_visualizations_by_key Cases.separate_visualizer
              Cases.renamed_output viz eq_refl Hviz) as (_ & _ & Hout & _).
  destruct (Hout "data") as (t & Ht & Hitem).
  { apply list_elem_of_In. right. left. reflexivity. }
  exists viz. split; [reflexivity|]. split.
  - vm_compute in Hviz. injection Hviz as <-. reflexivity.
  - rewrite Hitem. vm_compute in Ht. injection Ht as <-. reflexivity.
Defined.

End visualizations.

(** ** Concatenated visualizations and missing keys *)

Section concatenation.

Import VisualizationCallback.

Lemma cat_compatible_spec (dim : nat) (sh0 sh : list nat) :
  cat_compatible dim sh0 sh = true →
  length sh = length sh0 ∧ ∀ i, i ≠ dim → sh !! i = sh0 !! i.
Proof.
  unfold cat_compatible. rewrite !andb_true_iff, Nat.eqb_eq.
  intros [[Hlen Htake] Hdrop].
  apply bool_decide_eq_true_1 in Htake. apply bool_decide_eq_true_1 in Hdrop.
  split; [exact Hlen|]. intros i Hi.
  destruct (Nat.lt_ge_cases i dim) as [Hlt|Hge].
  - rewrite <- (lookup_take_lt sh dim i Hlt), <- (lookup_take_lt sh0 dim i Hlt).
    rewrite Htake. reflexivity.
  - replace i with (S dim + (i - S dim)) by lia.
    rewrite <- !lookup_drop, Hdrop. reflexivity.
Qed.

Lemma lookup_cons_succ {A} (n : nat) (x : A) (l : list A) :
  (x :: l) !! S n = l !! n.
Proof. reflexivity. Qed.

(** [torch.cat] keeps every dimension of the operands it does not skip
    but the one it concatenates along, where the extents add up. *)
Lemma cat_operands_shape (dt : dtype) (ts : list tensor) (dim : nat) (t : tensor) :
  ts ≠ [] →
  cat_operands dt ts dim = Ok t →
  (∀ x, x ∈ ts →
        length (shape x) = length (shape t)
        ∧ ∀ i, i ≠ dim → shape x !! i = shape t !! i)
  ∧ shape t !! dim = Some (foldr Nat.add 0 (map (extent dim) ts)).
Proof.
  unfold cat_operands. destruct ts as [|t0 ts0]; [congruence|]. intros _.
  destruct (dim <? ndim t0) eqn:Hdim; [|discriminate]. cbn [negb].
  apply Nat.ltb_lt in Hdim. unfold ndim in Hdim.
  destruct (forallb _ _) eqn:Hall; [|discriminate]. cbn [negb].
  intros Hok. apply Ok_inj in Hok. subst t. cbn [shape].
  assert (Htake : length (take dim (shape t0)) = dim)
    by (rewrite length_take; lia).
  split.
  - intros x Hx. apply list_elem_of_In in Hx.
    rewrite forallb_forall in Hall. apply Hall in Hx.
    apply cat_compatible_spec in Hx as [Hlen Hsame].
    split.
    + rewrite length_app, Htake. cbn [length]. rewrite length_drop. lia.
    + intros i Hi. rewrite (Hsame i Hi).
      destruct (Nat.lt_ge_cases i dim) as [Hlt|Hge].
      * rewrite lookup_app_l by lia. rewrite lookup_take_lt by exact Hlt.
        reflexivity.
      * rewrite lookup_app_r by lia. rewrite Htake.
        replace (i - dim) with (S (i - S dim)) by lia.
        rewrite (lookup_cons_succ (i - S dim)), lookup_drop. f_equal. lia.
  - rewrite lookup_app_r by lia. rewrite Htake, Nat.sub_diag. reflexivity.
Qed.

(** Skipped operands have no extent. *)
Lemma extent_unskipped (dim : nat) (ts : list tensor) :
  foldr Nat.add 0 (map (extent dim) (List.filter (λ t, negb (skipped t)) ts))
  = foldr Nat.add 0 (map (extent dim) ts).
Proof.
  induction ts as [|t ts IH]; [reflexivity|]. cbn [List.filter].
  destruct (skipped t) eqn:Hskip; cbn [negb map foldr]; rewrite IH; [|reflexivity].
  unfold skipped in Hskip. apply bool_decide_eq_true_1 in Hskip.
  unfold extent. rewrite Hskip. destruct dim as [|[|dim]]; reflexivity.
Qed.

Lemma cat_shape (ts : list tensor) (dim : nat) (t : tensor) :
  cat ts dim = Ok t →
  (∀ x, x ∈ ts → shape x ≠ [0] →
        length (shape x) = length (shape t)
        ∧ (∀ i, i ≠ dim → shape x !! i = shape t !! i)
        ∧ shape t !! dim = Some (foldr Nat.add 0 (map (extent dim) ts)))
  ∧ ((∀ x, x ∈ ts → shape x = [0]) → shape t = [0]).
Proof.
  unfold cat. destruct ts as [|t0 ts0]; [discriminate|].
  set (ts := t0 :: ts0). intros Hcat. split.
  - intros x Hx Hshape.
    assert (Hkept : x ∈ List.filter (λ t, negb (skipped t)) ts).
    { apply list_elem_of_In, filter_In. split; [apply list_elem_of_In; exact Hx|].
      unfold skipped. rewrite bool_decide_eq_false_2 by exact Hshape. reflexivity. }
    assert (Hsome : List.filter (λ t, negb (skipped t)) ts ≠ []).
    { intros Hnil. rewrite Hnil in Hkept. apply elem_of_nil in Hkept. exact Hkept. }
    destruct (cat_operands_shape _ _ _ _ Hsome Hcat) as [Hsame Hwidth].
    destruct (Hsame x Hkept) as [Hlen Hdims].
    split; [exact Hlen|]. split; [exact Hdims|].
    rewrite Hwidth, extent_unskipped. reflexivity.
  - intros Hall.
    assert (Hnone : List.filter (λ t, negb (skipped t)) ts = []).
    { clear Hcat. induction ts as [|x xs IH]; [reflexivity|]. cbn [List.filter].
      unfold skipped at 1. rewrite bool_decide_eq_true_2 by (apply Hall; left).
      cbn [negb]. apply IH. intros y Hy. apply Hall. right. exact Hy. }
    rewrite Hnone in Hcat. cbn [cat_operands] in Hcat.
    apply Ok_inj in Hcat. subst t. reflexivity.
Qed.

(** With [concat_images] the visualization of a batch is one image, named
    by the keys joined with ["|"]: the tensors of the keys side by side,
    but for those of one dimension without entries, which [torch.cat]
    skips. Every other tensor has the dimensions of the image but for the
    width (dimension 3), and the width of the image is the sum of the
    widths; when every tensor is skipped the image is such an empty tensor
    itself. *)
Theorem concat_visualization_shape
    (cb : self) (state : RunnerState) (viz : list (string * tensor)) :
  concat_images cb = true →
  (∀ t, shape (denorm cb t) = shape t) →
  compute_visualizations cb state = Ok viz →
  ∃ its ots t,
    Forall2 (λ k x, input state !! k = Some x) (input_keys cb) its
    ∧ Forall2 (λ k x, output state !! k = Some x) (output_keys cb) ots
    ∧ viz = [(String.concat "|" (input_keys cb ++ output_keys cb), t)]
    ∧ (∀ x, x ∈ its ++ ots → shape x ≠ [0] →
            length (shape x) = length (shape t)
            ∧ (∀ i, i ≠ 3 → shape x !! i = shape t !! i)
            ∧ shape t !! 3 = Some (foldr Nat.add 0 (map (extent 3) (its ++ ots))))
    ∧ ((∀ x, x ∈ its ++ ots → shape x = [0]) → shape t = [0]).
Proof.
  intros Hconcat Hdenorm. unfold compute_visualizations, result_bind.
  rewrite Hconcat.
  destruct (dict_get_all (input state) (input_keys cb)) as [its|] eqn:Hits;
    [|discriminate].
  destruct (dict_get_all (output state) (output_keys cb)) as [ots|] eqn:Hots;
    [|discriminate].
  destruct (cat (its ++ ots) 3) as [t|] eqn:Hcat; [|discriminate].
  intros [= <-]. apply dict_get_all_spec in Hits, Hots.
  destruct (cat_shape _ _ _ Hcat) as [Hsame Hempty].
  exists its, ots, (denorm cb t). rewrite Hdenorm. auto.
Qed.

Lemma concat_visualization_shape_witness :
  ∃ t, compute_visualizations Samples.visualizer Cases.with_empty_output
       = Ok [("data|generated", t)]
       ∧ shape t = [2; 1; 1; 1].
Proof.
  destruct (compute_visualizations Samples.visualizer Cases.with_empty_output)
    as [viz|e] eqn:Hviz; [|vm_compute in Hviz; discriminate Hviz].
  destruct (concat_visualization_shape Samples.visualizer Cases.with_empty_output
              viz eq_refl (λ t, eq_refl) Hviz)
    as (its & ots & t & _ & _ & -> & _ & _).
  exists t. split; [reflexivity|].
  vm_compute in Hviz. injection Hviz as <-. reflexivity.
Defined.

Lemma dict_get_all_total (d : gmap string tensor) (keys : list string) :
  Forall (λ k, is_Some (d !! k)) keys → ∃ ts, dict_get_all d keys = Ok ts.
Proof.
  induction 1 as [|k keys [t Hk] _ [ts IH]]; cbn [dict_get_all]; [eauto|].
  unfold dict_get. rewrite Hk. cbn. rewrite IH. cbn. eauto.
Qed.

(** [compute_visualizations] raises [KeyError] exactly for a key that the
    batch lacks: an input key missing from [state.input] - the input keys
    are read first - or an output key missing from [state.output]. When
    no key is missing and the images are not concatenated it returns. *)
Theorem compute_visualizations_missing_key (cb : self) (state : RunnerState) :
  (¬ Forall (λ k, is_Some (input state !! k)) (input_keys cb) →
   ∃ k, k ∈ input_keys cb ∧ input state !! k = None
        ∧ compute_visualizations cb state = Raise (KeyError k))
  ∧ (Forall (λ k, is_Some (input state !! k)) (input_keys cb) →
     ¬ Forall (λ k, is_Some (output state !! k)) (output_keys cb) →
     ∃ k, k ∈ output_keys cb ∧ output state !! k = None
          ∧ compute_visualizations cb state = Raise (KeyError k))
  ∧ (Forall (λ k, is_Some (input state !! k)) (input_keys cb) →
     Forall (λ k, is_Some (output state !! k)) (output_keys cb) →
     (∀ k, compute_visualizations cb state ≠ Raise (KeyError k))
     ∧ (concat_images cb = false →
        ∃ viz, compute_visualizations cb state = Ok viz)).
Proof.
  unfold compute_visualizations, result_bind.
  split; [|split].
  - intros Hnot.
    destruct (dict_get_all (input state) (input_keys cb)) as [its|e] eqn:Hits.
    + destruct Hnot. apply dict_get_all_spec in Hits.
      clear -Hits. induction Hits; constructor; eauto.
    + destruct (dict_get_all_missing _ _ _ Hits) as (k & Hin & Hnone & ->). eauto.
  - intros Hin Hnot. destruct (dict_get_all_total _ _ Hin) as [its ->].
    destruct (dict_get_all (output state) (output_keys cb)) as [ots|e] eqn:Hots.
    + destruct Hnot. apply dict_get_all_spec in Hots.
      clear -Hots. induction Hots; constructor; eauto.
    + destruct (dict_get_all_missing _ _ _ Hots) as (k & Hk & Hnone & ->). eauto.
  - intros Hin Hout. destruct (dict_get_all_total _ _ Hin) as [its ->].
    destruct (dict_get_all_total _ _ Hout) as [ots ->].
    split.
    + intros k. destruct (concat_images cb); [|discriminate].
      unfold cat. destruct (its ++ ots) as [|t0 ts0]; [discriminate|].
      unfold cat_operands.
      destruct (List.filter _ _) as [|t1 ts1]; [discriminate|].
      destruct (negb _); [discriminate|]. destruct (negb _); discriminate.
    + intros ->. eauto.
Qed.

Lemma compute_visualizations_missing_key_witness :
  ∃ k, compute_visualizations Samples.visualizer Samples.autoencoder_valid_only
       = Raise (KeyError k)
       ∧ output Samples.autoencoder_valid_only !! k = None.
Proof.
  destruct (proj1 (proj2 (compute_visualizations_missing_key Samples.visualizer
                            Samples.autoencoder_valid_only)))
    as (k & _ & Hnone & Hraise).
  - repeat constructor. vm_compute. eauto.
  - intros Hall. inversion Hall as [|? ? [t Ht] _]; subst.
    vm_compute in Ht. discriminate Ht.
  - exists k. split; [exact Hraise|exact Hnone].
Defined.

End concatenation.

(** ** The first TensorBoard logger of the autoencoder example *)

Section first_logger.

Import VisualizationCallback.

Lemma first_tensorboard_spec (state : RunnerState) (l : list Logger) :
  ∀ k : nat,
    (Forall not_tensorboard l → first_tensorboard state l k = Raise (not_found state))
    ∧ ∀ i ws,
        l !! i = Some (TensorboardLogger ws) →
        (∀ j lg, j < i → l !! j = Some lg → not_tensorboard lg) →
        first_tensorboard state l k
        = match ws !! loader_name state with
          | Some _ => Ok (WriterInList (k + i) (loader_name state))
          | None => Raise (KeyError (loader_name state))
          end.
Proof.
  induction l as [|lg l IH]; intros k.
  - split; [reflexivity|]. intros i ws Hi. discriminate.
  - split.
    + intros Hall. apply Forall_cons in Hall as [Hlg Hall].
      cbn [first_tensorboard]. destruct lg as [ws| |];
        [destruct (Hlg ws); reflexivity| |]; apply (IH (S k)); exact Hall.
    + intros [|i] ws Hi Hbefore.
      * injection Hi as ->. cbn [first_tensorboard]. rewrite Nat.add_0_r.
        reflexivity.
      * cbn [first_tensorboard].
        assert (Hlg : not_tensorboard lg) by (apply (Hbefore 0); [lia|reflexivity]).
        assert (Hrest : first_tensorboard state l (S k)
                        = match ws !! loader_name state with
                          | Some _ => Ok (WriterInList (S k + i) (loader_name state))
                          | None => Raise (KeyError (loader_name state))
                          end).
        { apply (proj2 (IH (S k))); [exact Hi|].
          intros j lg' Hj Hl. apply (Hbefore (S j)); [lia|exact Hl]. }
        replace (k + S i) with (S k + i) by lia.
        destruct lg as [ws'| |]; [destruct (Hlg ws'); reflexivity| |]; exact Hrest.
Qed.

(** The callback of the autoencoder example takes the writer from the
    first TensorBoard logger among [state.loggers] and from no other: it
    returns the writer that logger has for the current loader, raises
    [KeyError] when that logger has none - whatever the TensorBoard loggers
    after it hold - and raises [RuntimeError] exactly when there is no
    TensorBoard logger at all. *)
Theorem autoencoder_lookup_first_logger (state : RunnerState) (l : list Logger) :
  loggers state = LoggerList l →
  (Forall not_tensorboard l
   ↔ _get_tensorboard_logger autoencoders state = Raise (not_found state))
  ∧ ∀ i ws,
      l !! i = Some (TensorboardLogger ws) →
      (∀ j lg, j < i → l !! j = Some lg → not_tensorboard lg) →
      match ws !! loader_name state with
      | Some w =>
          _get_tensorboard_logger autoencoders state
          = Ok (WriterInList i (loader_name state))
          ∧ writer_read (WriterInList i (loader_name state)) state = Some w
      | None =>
          _get_tensorboard_logger autoencoders state
          = Raise (KeyError (loader_name state))
      end.
Proof.
  intros Hl. unfold _get_tensorboard_logger. rewrite Hl.
  destruct (first_tensorboard_spec state l 0) as [Hnone Hfirst].
  assert (Hat : ∀ i ws,
            l !! i = Some (TensorboardLogger ws) →
            (∀ j lg, j < i → l !! j = Some lg → not_tensorboard lg) →
            match ws !! loader_name state with
            | Some w =>
                first_tensorboard state l 0 = Ok (WriterInList i (loader_name state))
                ∧ writer_read (WriterInList i (loader_name state)) state = Some w
            | None => first_tensorboard state l 0 = Raise (KeyError (loader_name state))
            end).
  { intros i ws Hi Hbefore. rewrite (Hfirst i ws Hi Hbefore). cbn [Nat.add].
    unfold writer_read. rewrite Hl, Hi.
    destruct (ws !! loader_name state); auto. }
  split; [|exact Hat]. split; [exact Hnone|].
  intros Hraise.
  assert (Hex : ∀ n, n ≤ length l →
            (∀ j lg, j < n → l !! j = Some lg → not_tensorboard lg)).
  { induction n as [|n IHn]; intros Hn j lg Hj Hlg; [lia|].
    destruct (decide (j = n)) as [->|Hne]; [|apply (IHn ltac:(lia) j lg); [lia|exact Hlg]].
    intros ws ->.
    pose proof (Hat n ws Hlg (IHn ltac:(lia))) as Hcase.
    rewrite Hraise in Hcase. unfold not_found in Hcase.
    destruct (ws !! loader_name state); [destruct Hcase as [[=] _]|discriminate Hcase]. }
  apply Forall_lookup. intros j lg Hlg.
  apply (Hex (length l) (Nat.le_refl _) j lg); [|exact Hlg].
  apply lookup_lt_Some in Hlg. exact Hlg.
Qed.

Lemma autoencoder_lookup_first_logger_witness :
  _get_tensorboard_logger autoencoders Cases.autoencoder_validation
  = Ok (WriterInList 1 "valid")
  ∧ _get_tensorboard_logger autoencoders
      (set_loggers (LoggerList
         [ConsoleLogger;
          TensorboardLogger {[ "train" := Samples.writer0 ]};
          TensorboardLogger {[ "valid" := Samples.writer0 ]}])
         Cases.autoencoder_validation)
    = Raise (KeyError "valid").
Proof.
  split.
  - destruct (autoencoder_lookup_first_logger Cases.autoencoder_validation _ eq_refl)
      as [_ Hfirst].
    refine (proj1 (Hfirst 1 {[ "valid" := Samples.writer0 ]} eq_refl _)).
    intros [|j] lg Hj Hlg; [|lia]. cbn in Hlg. injection Hlg as <-.
    intros ws. discriminate.
  - destruct (autoencoder_lookup_first_logger
                (set_loggers (LoggerList
                   [ConsoleLogger;
                    TensorboardLogger {[ "train" := Samples.writer0 ]};
                    TensorboardLogger {[ "valid" := Samples.writer0 ]}])
                   Cases.autoencoder_validation) _ eq_refl)
      as [_ Hfirst].
    refine (Hfirst 1 {[ "train" := Samples.writer0 ]} eq_refl _).
    intros [|j] lg Hj Hlg; [|lia]. cbn in Hlg. injection Hlg as <-.
    intros ws. discriminate.
Defined.

End first_logger.

(** ** The transforms of the autoencoder experiment and the denormalization *)

Section transforms.

Import VisualizationCallback.

Variable picture : Type.
Variable ToTensor : picture → tensor.

Lemma denorm_of_normalized (v : Q) :
  (denorm_default ((v - (1 # 2)) / (1 # 2)) == v)%Q.
Proof.
  unfold denorm_default, Qdiv. change (/ (1 # 2))%Q with 2%Q.
  change (/ 2)%Q with (1 # 2)%Q. ring.
Qed.

Lemma normalized_range (v : Q) :
  (0 <= v)%Q → (v <= 1)%Q →
  (- (1) <= (v - (1 # 2)) / (1 # 2))%Q ∧ ((v - (1 # 2)) / (1 # 2) <= 1)%Q.
Proof.
  intros Hlo Hhi. unfold Qdiv. change (/ (1 # 2))%Q with 2%Q. split; lra.
Qed.

Lemma lookup_mapped {A B} (f : A → B) (l : list A) (i : nat) :
  map f l !! i = f <$> l !! i.
Proof.
  revert i. induction l as [|a l IH]; intros [|i]; cbn; try reflexivity.
  apply IH.
Qed.

Lemma half_of_channel (c : nat) :
  c < 3 → default 0%Q ([1 # 2; 1 # 2; 1 # 2]%Q !! c) = (1 # 2)%Q
          ∧ default 1%Q ([1 # 2; 1 # 2; 1 # 2]%Q !! c) = (1 # 2)%Q.
Proof. destruct c as [|[|[|c]]]; [auto..|lia]. Qed.

(** On a picture of three channels the transforms of the experiment -
    [ToTensor] and then [Normalize] with mean and deviation 0.5 on every
    channel - return a tensor of the same shape whose entries are
    [(v - 0.5) / 0.5] for the entries [v] of the picture: entries in
    [[0, 1]] go to [[-1, 1]], and the default denormalization of the
    visualization callback, [x / 2 + .5], gives every entry of the picture
    back. *)
Theorem get_transforms_denorm_round_trip (x : picture) (h w : nat) :
  shape (ToTensor x) = [3; h; w] →
  tensor_wf (ToTensor x) →
  ∃ t, Experiment.get_transforms picture ToTensor x = Ok t
       ∧ shape t = [3; h; w]
       ∧ length (data t) = length (data (ToTensor x))
       ∧ ∀ i v, data (ToTensor x) !! i = Some v →
           ∃ v', data t !! i = Some v'
                 ∧ (v' == (v - (1 # 2)) / (1 # 2))%Q
                 ∧ ((0 <= v)%Q → (v <= 1)%Q → (- (1) <= v')%Q ∧ (v' <= 1)%Q)
                 ∧ ∃ v'', data (denorm_default_fn t) !! i = Some v''
                          ∧ (v'' == v)%Q.
Proof.
  intros Hsh Hwf. unfold Experiment.get_transforms, normalize. rewrite Hsh.
  cbn [length Nat.eqb andb negb]. eexists. split; [reflexivity|].
  cbn [shape data]. split; [reflexivity|]. split; [apply length_imap|].
  intros i v Hv.
  assert (Hc : i / (h * w) < 3).
  { apply lookup_lt_Some in Hv. unfold tensor_wf in Hwf. rewrite Hwf, Hsh in Hv.
    cbn [numel_of foldr] in Hv. rewrite Nat.mul_1_r in Hv.
    apply Nat.Div0.div_lt_upper_bound. lia. }
  destruct (half_of_channel _ Hc) as [Hmean Hstd].
  exists ((v - (1 # 2)) / (1 # 2))%Q.
  split; [rewrite list_lookup_imap, Hv; cbn; rewrite Hmean, Hstd; reflexivity|].
  split; [reflexivity|]. split; [apply normalized_range|].
  exists (denorm_default ((v - (1 # 2)) / (1 # 2))).
  split; [|apply denorm_of_normalized].
  unfold denorm_default_fn, tensor_map. cbn [data].
  rewrite lookup_mapped, list_lookup_imap, Hv. cbn. rewrite Hmean, Hstd.
  reflexivity.
Qed.

End transforms.

Lemma get_transforms_denorm_round_trip_witness :
  ∃ t, Experiment.get_transforms tensor (λ p, p) Cases.picture = Ok t
       ∧ shape t = [3; 1; 2]
       ∧ ∃ v, data t !! 3 = Some v ∧ (v == - (1 # 2))%Q.
Proof.
  destruct (get_transforms_denorm_round_trip tensor (λ p, p) Cases.picture 1 2
              eq_refl eq_refl) as (t & Ht & Hsh & _ & Hentries).
  destruct (Hentries 3 (1 # 4)%Q eq_refl) as (v' & Hv' & Heq & _).
  exists t. split; [exact Ht|]. split; [exact Hsh|].
  exists v'. split; [exact Hv'|]. rewrite Heq. reflexivity.
Defined.
